(** * NeuroScan-AI: a shallow embedding of [app.py]

    The Flask application of the repository is embedded as pure functions
    over an explicit process state ([Globals]: the module-level variables
    [DEMO_MODE] and [model]) and an explicit trace of the calls made to the
    outside world (file system, model runtimes, the chat service).

    Conventions.
    - A Python expression that may raise is a [result]: [Ok v] or [Raise e].
    - Handler code runs in the monad [Eff]: it reads and writes [Globals],
      appends to the trace, and may raise.
    - Python floats are modelled by exact rationals ([Q]); the float
      literals [0.5], [0.3], [255.0], [100] are the rationals they denote
      in decimal notation.
    - Library calls (PIL, numpy's random generator, the Keras runtimes,
      [requests.post], Flask's request parsing) are not part of the
      repository: their outcomes are inputs of the embedded functions. *)

From Stdlib Require Import List String Ascii ZArith QArith Qround Qabs Lia Lqa Bool.
From Stdlib Require Import Strings.Byte.
From Stdlib Require Import DecimalString Decimal.
Import ListNotations.

Open Scope string_scope.

(* ================================================================= *)
(** ** Python exceptions and results *)

(** The exception classes the code can meet.  [ModuleNotFoundError] is a
    subclass of [ImportError]; [ConnectTimeout] and [ReadTimeout] are
    subclasses of [requests.Timeout]; every class derives from
    [Exception]. *)
Inductive exn_class : Type :=
| ExceptionC
| ImportError
| ModuleNotFoundError
| TypeError
| KeyError
| IndexError
| AttributeError
| ValueError
| BinasciiError
| OSError
| UnidentifiedImageError
| HTTPException
| RequestException
| RequestsTimeout
| ConnectTimeout
| ReadTimeout.

(** An exception object: its class and [str(e)]. *)
Record exn : Type := Exn { exn_cls : exn_class; exn_msg : string }.

(** [isinstance(e, ImportError)] *)
Definition isinstance_ImportError (e : exn) : bool :=
  match exn_cls e with
  | ImportError | ModuleNotFoundError => true
  | _ => false
  end.

(** [isinstance(e, requests.Timeout)] *)
Definition isinstance_Timeout (e : exn) : bool :=
  match exn_cls e with
  | RequestsTimeout | ConnectTimeout | ReadTimeout => true
  | _ => false
  end.

Inductive result (A : Type) : Type :=
| Ok (a : A)
| Raise (e : exn).
Arguments Ok {A} a.
Arguments Raise {A} e.

Definition result_bind {A B} (r : result A) (f : A -> result B) : result B :=
  match r with
  | Ok a => f a
  | Raise e => Raise e
  end.

Declare Scope result_scope.
Delimit Scope result_scope with result.
Notation "x <~ r ;; k" := (result_bind r (fun x => k))
  (at level 61, r at next level, right associativity) : result_scope.

(* ================================================================= *)
(** ** Python values (what [json] parsing yields, what [jsonify] takes) *)

#[warnings="-register-all"] Inductive pyval : Type :=
| PNone
| PBool (b : bool)
| PInt (z : Z)
| PFloat (q : Q)
| PStr (s : string)
| PList (l : list pyval)
| PDict (kvs : list (string * pyval)).

(** [bool(v)] *)
Definition truthy (v : pyval) : bool :=
  match v with
  | PNone => false
  | PBool b => b
  | PInt z => negb (z =? 0)%Z
  | PFloat q => negb (Qeq_bool q 0)
  | PStr s => negb (s =? "")
  | PList l => match l with [] => false | _ => true end
  | PDict kvs => match kvs with [] => false | _ => true end
  end.

(** [type(v).__name__] *)
Definition py_type_name (v : pyval) : string :=
  match v with
  | PNone => "NoneType"
  | PBool _ => "bool"
  | PInt _ => "int"
  | PFloat _ => "float"
  | PStr _ => "str"
  | PList _ => "list"
  | PDict _ => "dict"
  end.

(** [AttributeError] for a missing method. *)
Definition no_attribute (v : pyval) (name : string) : exn :=
  Exn AttributeError
      ("'" ++ py_type_name v ++ "' object has no attribute '" ++ name ++ "'").

(** Lookup in a dict, represented by its items. *)
Fixpoint dict_lookup (k : string) (kvs : list (string * pyval)) : option pyval :=
  match kvs with
  | [] => None
  | (k', v) :: rest => if k =? k' then Some v else dict_lookup k rest
  end.

(** [needle in haystack] for two strings: substring test. *)
Fixpoint is_prefix (p s : string) : bool :=
  match p, s with
  | EmptyString, _ => true
  | String a p', String b s' => (a =? b)%char && is_prefix p' s'
  | String _ _, EmptyString => false
  end.

Fixpoint substring_in (p s : string) : bool :=
  is_prefix p s ||
  match s with
  | EmptyString => false
  | String _ s' => substring_in p s'
  end.

(** [v == PStr k] for the elements of a list. *)
Definition is_str (k : string) (v : pyval) : bool :=
  match v with
  | PStr s => k =? s
  | _ => false
  end.

(** [k in v] for a string [k]. *)
Definition py_in (k : string) (v : pyval) : result bool :=
  match v with
  | PDict kvs => Ok (match dict_lookup k kvs with Some _ => true | None => false end)
  | PList l => Ok (existsb (is_str k) l)
  | PStr s => Ok (substring_in k s)
  | _ => Raise (Exn TypeError
                  ("argument of type '" ++ py_type_name v ++ "' is not iterable"))
  end.

(** [v[k]] for a string key [k]. *)
Definition py_getitem_str (v : pyval) (k : string) : result pyval :=
  match v with
  | PDict kvs =>
      match dict_lookup k kvs with
      | Some x => Ok x
      | None => Raise (Exn KeyError ("'" ++ k ++ "'"))
      end
  | PList _ => Raise (Exn TypeError "list indices must be integers or slices, not str")
  | PStr _ => Raise (Exn TypeError "string indices must be integers, not 'str'")
  | _ => Raise (Exn TypeError
                  ("'" ++ py_type_name v ++ "' object is not subscriptable"))
  end.

(** [v[0]] *)
Definition py_getitem_0 (v : pyval) : result pyval :=
  match v with
  | PList (x :: _) => Ok x
  | PList [] => Raise (Exn IndexError "list index out of range")
  | PStr (String c _) => Ok (PStr (String c EmptyString))
  | PStr EmptyString => Raise (Exn IndexError "string index out of range")
  | PDict kvs => Raise (Exn KeyError "0")
  | _ => Raise (Exn TypeError
                  ("'" ++ py_type_name v ++ "' object is not subscriptable"))
  end.

(** [v.get(k, default)]: only dicts have a [get] method. *)
Definition py_get (v : pyval) (k : string) (default : pyval) : result pyval :=
  match v with
  | PDict kvs =>
      Ok (match dict_lookup k kvs with Some x => x | None => default end)
  | _ => Raise (no_attribute v "get")
  end.

(** Python's [str.isspace] on the code points below 256, which are the
    characters a [string] of this embedding can hold: the controls 9-13
    and 28-31, the space, U+0085 and U+00A0.  White space of higher code
    points (U+2003, U+3000, ...) is outside the embedding. *)
Definition py_isspace (c : ascii) : bool :=
  let n := nat_of_ascii c in
  ((9 <=? n) && (n <=? 13) || (28 <=? n) && (n <=? 32)
   || (n =? 133) || (n =? 160))%nat.

Fixpoint lstrip (s : string) : string :=
  match s with
  | EmptyString => EmptyString
  | String c s' => if py_isspace c then lstrip s' else s
  end.

(** Drops trailing white space: the tail is stripped first, and the head
    goes too when nothing is left after it. *)
Fixpoint rstrip (s : string) : string :=
  match s with
  | EmptyString => EmptyString
  | String c s' =>
      match rstrip s' with
      | EmptyString => if py_isspace c then EmptyString else String c EmptyString
      | t => String c t
      end
  end.

(** [s.strip()] *)
Definition strip (s : string) : string := rstrip (lstrip s).

(** [v.strip()]: only strings have a [strip] method. *)
Definition py_strip (v : pyval) : result pyval :=
  match v with
  | PStr s => Ok (PStr (strip s))
  | _ => Raise (no_attribute v "strip")
  end.

(** [s.split(sep)] for a one-character separator. *)
Fixpoint split_on (sep : ascii) (s : string) : list string :=
  match s with
  | EmptyString => [EmptyString]
  | String c s' =>
      if (c =? sep)%char then EmptyString :: split_on sep s'
      else match split_on sep s' with
           | [] => [String c EmptyString]
           | w :: ws => String c w :: ws
           end
  end.

(** [sep in s] for a one-character [sep]. *)
Fixpoint has_char (sep : ascii) (s : string) : bool :=
  match s with
  | EmptyString => false
  | String c s' => (c =? sep)%char || has_char sep s'
  end.

(* ================================================================= *)
(** ** Process state, outside world and the effect monad *)

(** A batch of images as numpy holds it: batch, rows, columns, channels. *)
Definition Tensor : Type := list (list (list (list Q))).

(** A loaded Keras model: an object with a [predict] method.  The call
    [m.predict(x, verbose=0)] returns a two-dimensional array (one row of
    class scores per batch item) or raises. *)
Record Model : Type := {
  model_name : string;
  model_predict : Tensor -> result (list (list Q))
}.

(** The module-level variables that change while the process runs. *)
Record Globals : Type := {
  DEMO_MODE : bool;
  model : option Model
}.

(** The configuration read once at import time. *)
Record Config : Type := {
  app_dir : string;              (* os.path.dirname(__file__) *)
  OPENROUTER_API_KEY : string    (* os.environ.get('OPENROUTER_API_KEY', '') *)
}.

(** Calls that reach outside the process, in the order they are made. *)
Inductive event : Type :=
| EvPathExists (path : string)
| EvImportTfKeras
| EvTfKerasLoad (path : string)
| EvTfLoad (path : string)
| EvSleep (seconds : Q)
| EvPredict (m : Model)
| EvHttpPost (url : string) (timeout : Z).

Definition Eff (A : Type) : Type := Globals -> result A * Globals * list event.

Definition ret {A} (a : A) : Eff A := fun g => (Ok a, g, []).

Definition raise {A} (e : exn) : Eff A := fun g => (Raise e, g, []).

Definition bind {A B} (m : Eff A) (f : A -> Eff B) : Eff B :=
  fun g =>
    match m g with
    | (Ok a, g1, t1) =>
        match f a g1 with
        | (r, g2, t2) => (r, g2, (t1 ++ t2)%list)
        end
    | (Raise e, g1, t1) => (Raise e, g1, t1)
    end.

(** [try: m  except Exception as e: h e] *)
Definition try_except {A} (m : Eff A) (h : exn -> Eff A) : Eff A :=
  fun g =>
    match m g with
    | (Ok a, g1, t1) => (Ok a, g1, t1)
    | (Raise e, g1, t1) =>
        match h e g1 with
        | (r, g2, t2) => (r, g2, (t1 ++ t2)%list)
        end
    end.

(** A pure computation that may raise, run inside [Eff]. *)
Definition lift {A} (r : result A) : Eff A := fun g => (r, g, []).

(** An outside call: its outcome is given, the call is logged. *)
Definition call {A} (ev : event) (outcome : result A) : Eff A :=
  fun g => (outcome, g, [ev]).

Definition get_DEMO_MODE : Eff bool := fun g => (Ok (DEMO_MODE g), g, []).

Definition get_model : Eff (option Model) := fun g => (Ok (model g), g, []).

Definition set_model (m : Model) : Eff unit :=
  fun g => (Ok tt, {| DEMO_MODE := DEMO_MODE g; model := Some m |}, []).

Declare Scope eff_scope.
Delimit Scope eff_scope with eff.
Notation "x <- m ;; k" := (bind m (fun x => k))
  (at level 61, m at next level, right associativity) : eff_scope.
Notation "m ;;; k" := (bind m (fun _ => k))
  (at level 61, right associativity) : eff_scope.

(* ================================================================= *)
(** ** Configuration constants *)

(** [os.path.join(a, b)] for a relative [b]. *)
Fixpoint ends_with_slash (s : string) : bool :=
  match s with
  | EmptyString => false
  | String c EmptyString => (c =? "/")%char
  | String _ s' => ends_with_slash s'
  end.

Definition os_path_join (a b : string) : string :=
  if a =? "" then b
  else if ends_with_slash a then a ++ b
  else a ++ "/" ++ b.

Definition MODEL_PATH (cfg : Config) : string :=
  os_path_join (app_dir cfg) "model.h5".

Definition CONVERTED_MODEL_PATH (cfg : Config) : string :=
  os_path_join (app_dir cfg) "model_converted.keras".

Definition CLASS_LABELS : list string :=
  ["Glioma"; "Meningioma"; "No Tumor"; "Pituitary"].

Definition OPENROUTER_API_URL : string :=
  "https://openrouter.ai/api/v1/chat/completions".

(* ================================================================= *)
(** ** The model loader *)

(** What the loader finds outside the process when it runs. *)
Record LoaderWorld : Type := {
  path_exists : string -> bool;                 (* os.path.exists *)
  import_tf_keras : result unit;                (* import tf_keras *)
  tf_keras_load_model : string -> result Model; (* tf_keras.models.load_model *)
  tf_load_model : string -> result Model        (* tf.keras.models.load_model *)
}.

Open Scope eff_scope.

(** [load_model()] *)
Definition load_model (cfg : Config) (w : LoaderWorld) : Eff (option Model) :=
  demo <- get_DEMO_MODE ;;
  if demo then ret None
  else
    cached <- get_model ;;
    match cached with
    | None =>
        ex <- call (EvPathExists (CONVERTED_MODEL_PATH cfg))
                   (Ok (path_exists w (CONVERTED_MODEL_PATH cfg))) ;;
        let model_path :=
          if ex then CONVERTED_MODEL_PATH cfg else MODEL_PATH cfg in
        try_except
          (call EvImportTfKeras (import_tf_keras w) ;;;
           m <- call (EvTfKerasLoad model_path)
                     (tf_keras_load_model w model_path) ;;
           set_model m)
          (fun e =>
             if isinstance_ImportError e then
               try_except
                 (m <- call (EvTfLoad model_path)
                            (tf_load_model w model_path) ;;
                  set_model m)
                 (fun e' => raise e')
             else raise e)
    | Some _ => ret tt
    end ;;;
    get_model.

(** [health()], as the fields of its JSON body. *)
Definition health (cfg : Config) (g : Globals) : list (string * pyval) :=
  [ ("status", PStr "healthy");
    ("demo_mode", PBool (DEMO_MODE g));
    ("model_loaded", PBool (match model g with Some _ => true | None => false end));
    ("chatbot_configured", PBool (negb (OPENROUTER_API_KEY cfg =? ""))) ].

Close Scope eff_scope.

(* ================================================================= *)
(** ** The tensor preprocessor *)

(** A decoded PIL image: its mode, its size and its samples, as
    [np.array(image)] lays them out (rows, then columns, then bands). *)
Record Image : Type := {
  im_mode : string;
  im_width : nat;
  im_height : nat;
  im_data : list (list (list Z))
}.

(** The three PIL calls the code makes.  [Image_open] stands for
    [Image.open(io.BytesIO(data))] together with the decoding of the
    pixel data, which PIL delays until the pixels are needed. *)
Record PIL : Type := {
  Image_open : list byte -> result Image;
  Image_convert : Image -> string -> Image;
  Image_resize : Image -> nat * nat -> Image
}.

(** Number of bands of PIL's modes. *)
Definition mode_bands (m : string) : nat :=
  if (m =? "RGB") || (m =? "YCbCr") || (m =? "LAB") || (m =? "HSV") then 3%nat
  else if (m =? "RGBA") || (m =? "CMYK") || (m =? "RGBX") || (m =? "RGBa") then 4%nat
  else if (m =? "LA") || (m =? "PA") || (m =? "La") then 2%nat
  else 1%nat.

(** [np.array(image) / 255.0] *)
Definition normalize (data : list (list (list Z))) : list (list (list Q)) :=
  map (map (map (fun v => inject_Z v / 255))) data.

(** [np.expand_dims(a, axis=0)] *)
Definition expand_dims0 {A} (a : A) : list A := [a].

(** The image that reaches [resize]: converted unless its mode is RGB. *)
Definition to_rgb (pil : PIL) (image : Image) : Image :=
  if negb (im_mode image =? "RGB") then Image_convert pil image "RGB"
  else image.

(** [preprocess_image(image_data)] *)
Definition preprocess_image (pil : PIL) (image_data : list byte) : result Tensor :=
  (image <~ Image_open pil image_data ;;
   let image := to_rgb pil image in
   let image := Image_resize pil image (299%nat, 299%nat) in
   let img_array := normalize (im_data image) in
   let img_array := expand_dims0 img_array in
   Ok img_array)%result.

(* ================================================================= *)
(** ** The demo predictor *)

(** The draws of the pseudo-random generators. *)
Record Rng : Type := {
  np_random_dirichlet : list Q -> list Q;  (* np.random.dirichlet(alpha) *)
  random_random : Q;                       (* random.random() *)
  random_randint : Z -> Z -> Z             (* random.randint(a, b) *)
}.

Definition Qsum (l : list Q) : Q := fold_right Qplus 0 l.

(** Position of an index [i] in a sequence of length [len]: Python counts
    negative indices from the end and raises outside the range. *)
Definition py_index (i : Z) (len : nat) : result nat :=
  if ((0 <=? i) && (i <? Z.of_nat len))%Z then Ok (Z.to_nat i)
  else if ((- Z.of_nat len <=? i) && (i <? 0))%Z then Ok (Z.to_nat (Z.of_nat len + i))
  else Raise (Exn IndexError "index out of range").

(** [l[i] += d] at a position inside the list. *)
Fixpoint add_at (i : nat) (d : Q) (l : list Q) : list Q :=
  match l, i with
  | [], _ => []
  | x :: r, O => (x + d) :: r
  | x :: r, S i' => x :: add_at i' d r
  end.

(** [np.argmax]: the first position of the largest entry. *)
Fixpoint argmax_from (best_i : nat) (best : Q) (i : nat) (l : list Q) : nat :=
  match l with
  | [] => best_i
  | x :: r =>
      if Qle_bool x best then argmax_from best_i best (S i) r
      else argmax_from i x (S i) r
  end.

Definition np_argmax (l : list Q) : result nat :=
  match l with
  | [] => Raise (Exn ValueError "attempt to get argmax of an empty sequence")
  | x :: r => Ok (argmax_from 0 x 1 r)
  end.

(** [seq[i]] for a list and a position. *)
Definition list_get {A} (l : list A) (i : nat) : result A :=
  match nth_error l i with
  | Some x => Ok x
  | None => Raise (Exn IndexError "index out of range")
  end.

(** [{label: float(prob) * 100 for label, prob in zip(CLASS_LABELS, probs)}] *)
Definition percentages (probs : list Q) : list (string * pyval) :=
  map (fun lp => (fst lp, PFloat (snd lp * 100))) (combine CLASS_LABELS probs).

(** [np.ones(4) * 2] *)
Definition dirichlet_alpha : list Q := map (fun x => x * 2) (repeat 1 4).

(** The probability vector of [demo_predict], before the arg-max. *)
Definition demo_probs (rng : Rng) : result (list Q) :=
  let probs := np_random_dirichlet rng dirichlet_alpha in
  if negb (Qle_bool (random_random rng) (3 # 10)) then
    (dominant_idx <~ py_index (random_randint rng 0 3) (List.length probs) ;;
     let probs := add_at dominant_idx (1 # 2) probs in
     Ok (map (fun p => p / Qsum probs) probs))%result
  else Ok probs.

(** [demo_predict()], as the items of the dict it returns. *)
Definition demo_predict (rng : Rng) : result (list (string * pyval)) :=
  (probs <~ demo_probs rng ;;
   predicted_idx <~ np_argmax probs ;;
   label <~ list_get CLASS_LABELS predicted_idx ;;
   p <~ list_get probs predicted_idx ;;
   Ok [ ("prediction", PStr label);
        ("confidence", PFloat (p * 100));
        ("probabilities", PDict (percentages probs)) ])%result.

(* ================================================================= *)
(** ** The inference handler *)

(** An uploaded file of [request.files]. *)
Record FileStorage : Type := {
  filename : string;
  file_read : result (list byte)
}.

(** What Flask hands to a handler: the uploaded files by field name and
    the outcome of [request.get_json()] (which may raise, or return
    [None]). *)
Record Request : Type := {
  files : result (list (string * FileStorage));
  get_json : result pyval
}.

(** A handler's answer: the JSON body given to [jsonify] and the status. *)
Record Response : Type := {
  status : Z;
  body : list (string * pyval)
}.

Definition jsonify (items : list (string * pyval)) (code : Z) : Response :=
  {| status := code; body := items |}.

Fixpoint files_lookup (k : string) (fs : list (string * FileStorage))
  : option FileStorage :=
  match fs with
  | [] => None
  | (k', f) :: rest => if k =? k' then Some f else files_lookup k rest
  end.

(** [v.split(',')]: only strings have a [split] method. *)
Definition py_split_comma (v : pyval) : result (list string) :=
  match v with
  | PStr s => Ok (split_on "," s)
  | _ => Raise (no_attribute v "split")
  end.

(** [base64.b64decode(v)], given the decoder for strings. *)
Definition py_b64decode (b64decode : string -> result (list byte)) (v : pyval)
  : result (list byte) :=
  match v with
  | PStr s => b64decode s
  | _ => Raise (Exn TypeError
                  ("argument should be a bytes-like object or ASCII string, not '"
                     ++ py_type_name v ++ "'"))
  end.

(** Lines 164-179 of [predict]: the image bytes of the request, or the
    response of an early [return]. *)
Definition extract_image (b64decode : string -> result (list byte)) (req : Request)
  : result (Response + list byte) :=
  (fs <~ files req ;;
   match files_lookup "image" fs with
   | None =>
       data <~ get_json req ;;
       has_image <~ (if truthy data then py_in "image" data else Ok false) ;;
       if has_image then
         image_data <~ py_getitem_str data "image" ;;
         has_comma <~ py_in "," image_data ;;
         image_data <~ (if has_comma
                        then parts <~ py_split_comma image_data ;;
                             part <~ list_get parts 1 ;;
                             Ok (PStr part)
                        else Ok image_data) ;;
         image_bytes <~ py_b64decode b64decode image_data ;;
         Ok (inr image_bytes)
       else Ok (inl (jsonify [("error", PStr "No image provided")] 400))
   | Some file =>
       if filename file =? "" then
         Ok (inl (jsonify [("error", PStr "No image selected")] 400))
       else
         image_bytes <~ file_read file ;;
         Ok (inr image_bytes)
   end)%result.

(** Python's [round(x, 2)] read on exact numbers: the nearest multiple
    of 1/100, ties to the even one.  Python rounds the double it is given
    and returns the double nearest to that multiple, so on doubles the
    result can differ from this one by a rounding error of the double
    arithmetic, and at a near tie by one unit of the second decimal. *)
Definition round_half_even (x : Q) : Z :=
  let f := Qfloor x in
  match Qcompare (x - inject_Z f)%Q (1 # 2)%Q with
  | Lt => f
  | Gt => (f + 1)%Z
  | Eq => if Z.even f then f else (f + 1)%Z
  end.

Definition py_round2 (x : Q) : Q := inject_Z (round_half_even (x * 100)) / 100.

(** Everything [predict] consults outside the process. *)
Record PredictWorld : Type := {
  pw_loader : LoaderWorld;
  pw_pil : PIL;
  pw_rng : Rng;
  pw_b64decode : string -> result (list byte)
}.

(** [loaded_model.predict(processed_image, verbose=0)] *)
Definition call_predict (loaded_model : option Model) (x : Tensor)
  : Eff (list (list Q)) :=
  match loaded_model with
  | Some m => call (EvPredict m) (model_predict m x)
  | None => raise (Exn AttributeError "'NoneType' object has no attribute 'predict'")
  end.

(** Lines 204-219 of [predict]: the response built from the array the
    model returned. *)
Definition classification_response (predictions : list (list Q)) : result Response :=
  (row <~ list_get predictions 0 ;;
   predicted_class_idx <~ np_argmax row ;;
   predicted_class <~ list_get CLASS_LABELS predicted_class_idx ;;
   p <~ list_get row predicted_class_idx ;;
   let confidence := (p * 100)%Q in
   let probabilities := percentages row in
   Ok (jsonify [ ("success", PBool true);
                 ("prediction", PStr predicted_class);
                 ("confidence", PFloat (py_round2 confidence));
                 ("probabilities", PDict probabilities) ] 200))%result.

Open Scope eff_scope.

(** The body of the [try] block of [predict]. *)
Definition predict_body (cfg : Config) (w : PredictWorld) (req : Request)
  : Eff Response :=
  extracted <- lift (extract_image (pw_b64decode w) req) ;;
  match extracted with
  | inl early => ret early
  | inr image_bytes =>
      demo <- get_DEMO_MODE ;;
      if demo then
        call (EvSleep (1 # 2)) (Ok tt) ;;;
        result <- lift (demo_predict (pw_rng w)) ;;
        ret (jsonify (("success", PBool true) :: ("demo_mode", PBool true) :: result) 200)
      else
        loaded_model <- load_model cfg (pw_loader w) ;;
        processed_image <- lift (preprocess_image (pw_pil w) image_bytes) ;;
        predictions <- call_predict loaded_model processed_image ;;
        lift (classification_response predictions)
  end.

(** [predict()]: the [try] block and its [except Exception] clause. *)
Definition predict (cfg : Config) (w : PredictWorld) (req : Request)
  : Globals -> Response * Globals * list event :=
  fun g =>
    match predict_body cfg w req g with
    | (Ok resp, g', t) => (resp, g', t)
    | (Raise e, g', t) => (jsonify [("error", PStr (exn_msg e))] 500, g', t)
    end.

Close Scope eff_scope.

(* ================================================================= *)
(** ** The chat proxy *)

Definition OPENROUTER_MODEL : string := "nvidia/nemotron-nano-9b-v2:free".

Definition CHATBOT_SYSTEM_PROMPT : string :=
"You are NeuroScan AI Assistant, a helpful medical AI assistant specializing in brain tumor information and MRI imaging. You provide educational information about:

- Brain tumor types (Glioma, Meningioma, Pituitary tumors)
- MRI imaging and how it's used in diagnosis
- General information about symptoms, treatments, and prognosis
- Explaining medical terminology in simple terms

IMPORTANT GUIDELINES:
1. Always clarify that you provide educational information only, NOT medical diagnosis
2. Encourage users to consult qualified healthcare professionals for medical advice
3. Be compassionate and supportive when discussing sensitive health topics
4. If asked about unrelated topics, politely redirect to brain health and MRI topics
5. Keep responses concise but informative (2-3 paragraphs max)

You are integrated into the NeuroScan AI brain tumor classification application.".

(** The answer of the chat service to one [requests.post]. *)
Record HttpResponse : Type := {
  status_code : Z;
  text : string;
  resp_json : result pyval       (* response.json() *)
}.

(** What [chat] consults outside the process: the outcome of
    [requests.post(url, headers=..., json=..., timeout=...)], and the
    text Python prints for a value that is not a string. *)
Record ChatWorld : Type := {
  requests_post :
    string -> list (string * string) -> pyval -> Z -> result HttpResponse;
  py_repr : pyval -> string
}.

(** [f'{v}'] *)
Definition py_format (w : ChatWorld) (v : pyval) : string :=
  match v with
  | PStr s => s
  | _ => py_repr w v
  end.

(** [f'{n}'] for an integer. *)
Definition Z_to_string (n : Z) : string := NilZero.string_of_int (Z.to_int n).

Definition chat_headers (cfg : Config) : list (string * string) :=
  [ ("Authorization", "Bearer " ++ OPENROUTER_API_KEY cfg);
    ("Content-Type", "application/json");
    ("HTTP-Referer", "https://neuroscan-ai.app");
    ("X-Title", "NeuroScan AI") ].

Definition chat_payload (user_message : pyval) : pyval :=
  PDict [ ("model", PStr OPENROUTER_MODEL);
          ("messages",
           PList [ PDict [("role", PStr "system"); ("content", PStr CHATBOT_SYSTEM_PROMPT)];
                   PDict [("role", PStr "user"); ("content", user_message)] ]);
          ("max_tokens", PInt 500);
          ("temperature", PFloat (7 # 10)) ].

(** Lines 286-301 of [chat]: the answer built from the reply of the chat
    service. *)
Definition chat_reply (w : ChatWorld) (response : HttpResponse) : result Response :=
  (if negb (status_code response =? 200)%Z then
     error_detail <~ (if truthy (PStr (text response))
                      then resp_json response else Ok (PDict [])) ;;
     e <~ py_get error_detail "error" (PDict []) ;;
     error_msg <~ py_get e "message" (PStr "Unknown error") ;;
     Ok (jsonify
           [ ("error", PStr ("API error: " ++ Z_to_string (status_code response)));
             ("response", PStr ("API Error: " ++ py_format w error_msg
                                  ++ ". Please try again later.")) ]
           200)
   else
     result <~ resp_json response ;;
     choices <~ py_getitem_str result "choices" ;;
     choice <~ py_getitem_0 choices ;;
     message <~ py_getitem_str choice "message" ;;
     assistant_message <~ py_getitem_str message "content" ;;
     Ok (jsonify [ ("success", PBool true); ("response", assistant_message) ] 200))%result.

Open Scope eff_scope.

(** The body of the [try] block of [chat]. *)
Definition chat_body (cfg : Config) (w : ChatWorld) (req : Request) : Eff Response :=
  data <- lift (get_json req) ;;
  user_message <- lift (m <~ py_get data "message" (PStr "") ;; py_strip m)%result ;;
  if negb (truthy user_message) then
    ret (jsonify [("error", PStr "No message provided")] 400)
  else if negb (truthy (PStr (OPENROUTER_API_KEY cfg))) then
    ret (jsonify
           [ ("error", PStr "Chatbot not configured. Please set OPENROUTER_API_KEY environment variable.");
             ("response", PStr "I apologize, but the chatbot is not configured yet. Please add your OpenRouter API key to enable this feature.") ]
           200)
  else
    response <- call (EvHttpPost OPENROUTER_API_URL 30)
                     (requests_post w OPENROUTER_API_URL (chat_headers cfg)
                                    (chat_payload user_message) 30) ;;
    lift (chat_reply w response).

Close Scope eff_scope.

(** The two [except] clauses of [chat], the one for [requests.Timeout]
    first. *)
Definition chat_except (e : exn) : Response :=
  if isinstance_Timeout e then
    jsonify [ ("error", PStr "Request timeout");
              ("response", PStr "The request took too long. Please try again.") ]
            200
  else
    jsonify [ ("error", PStr (exn_msg e));
              ("response", PStr "An error occurred. Please try again.") ]
            200.

(** [chat()] *)
Definition chat (cfg : Config) (w : ChatWorld) (req : Request)
  : Globals -> Response * Globals * list event :=
  fun g =>
    match chat_body cfg w req g with
    | (Ok resp, g', t) => (resp, g', t)
    | (Raise e, g', t) => (chat_except e, g', t)
    end.

(* ================================================================= *)
(** ** Base64 text, as a client produces it (RFC 4648) *)

Definition b64_alphabet : string :=
  "ABCDEFGHIJKLMNOPQRSTUVWXYZabcdefghijklmnopqrstuvwxyz0123456789+/".

Definition b64_char (n : N) : ascii :=
  match String.get (N.to_nat n) b64_alphabet with
  | Some c => c
  | None => "="%char
  end.

Fixpoint b64encode (bs : list byte) : string :=
  match bs with
  | [] => ""
  | [a] =>
      let x := Byte.to_N a in
      String (b64_char (x / 4))
        (String (b64_char ((x mod 4) * 16)) "==")
  | [a; b] =>
      let x := Byte.to_N a in
      let y := Byte.to_N b in
      String (b64_char (x / 4))
        (String (b64_char ((x mod 4) * 16 + y / 16))
           (String (b64_char ((y mod 16) * 4)) "="))
  | a :: b :: c :: rest =>
      let x := Byte.to_N a in
      let y := Byte.to_N b in
      let z := Byte.to_N c in
      String (b64_char (x / 4))
        (String (b64_char ((x mod 4) * 16 + y / 16))
           (String (b64_char ((y mod 16) * 4 + z / 64))
              (String (b64_char (z mod 64)) (b64encode rest))))
  end%N.

(** The text of a data URL: scheme marker, then the payload. *)
Definition data_url (mediatype payload : string) : string :=
  "data:" ++ mediatype ++ ";base64," ++ payload.

(** A [/predict] request with a JSON body [{"image": <text>}] and no
    uploaded file. *)
Definition json_image_request (image : string) : Request :=
  {| files := Ok []; get_json := Ok (PDict [("image", PStr image)]) |}.


(* ================================================================= *)
(** ** Module initialisation ([app.py], lines 20-49) *)

(** [str.lower] on one code point below 256: the capital letters of
    ASCII and of Latin-1 (all of 192-222 but the multiplication sign). *)
Definition py_lower_char (c : ascii) : ascii :=
  let n := nat_of_ascii c in
  if ((65 <=? n) && (n <=? 90)
      || (192 <=? n) && (n <=? 222) && negb (n =? 215))%nat
  then ascii_of_nat (n + 32)
  else c.

(** [s.lower()] *)
Fixpoint py_lower (s : string) : string :=
  match s with
  | EmptyString => EmptyString
  | String c s' => String (py_lower_char c) (py_lower s')
  end.

(** How one call [tf.config.experimental.set_memory_growth(gpu, True)]
    ends: it returns, raises a [RuntimeError], or raises something
    else (no class of [exn_class] derives from [RuntimeError]). *)
Inductive growth_outcome : Type :=
| GrowthOk
| GrowthRuntimeError (msg : string)
| GrowthRaises (e : exn).

(** What the module finds when it is imported.  [environ] is
    [os.environ] once [load_dotenv()] has run. *)
Record InitWorld : Type := {
  environ : string -> option string;
  import_tensorflow : result unit;
  list_physical_devices : result (list string);
  set_memory_growth : string -> growth_outcome
}.

Inductive init_event : Type :=
| IevSetEnv (name value : string)
| IevImportTensorflow
| IevListDevices
| IevSetMemoryGrowth (gpu : string).

(** The module-level names bound by lines 20-49. *)
Record ModuleState : Type := {
  ms_OPENROUTER_API_KEY : string;
  ms_DEMO_MODE : bool;
  ms_TF_AVAILABLE : bool
}.

(** [os.environ.get(k, default)] *)
Definition environ_get (w : InitWorld) (k default : string) : string :=
  match environ w k with
  | Some v => v
  | None => default
  end.

(** The [for gpu in gpus] loop of line 39: it stops at the first call
    that raises. *)
Fixpoint configure_gpus (w : InitWorld) (gpus : list string)
  : growth_outcome * list init_event :=
  match gpus with
  | [] => (GrowthOk, [])
  | gpu :: rest =>
      match set_memory_growth w gpu with
      | GrowthOk =>
          match configure_gpus w rest with
          | (o, t) => (o, IevSetMemoryGrowth gpu :: t)
          end
      | o => (o, [IevSetMemoryGrowth gpu])
      end
  end.

(** The body of the outer [try] of lines 31-42, after the import: the
    exception that leaves it, if any. *)
Definition gpu_setup (w : InitWorld) : option exn * list init_event :=
  match list_physical_devices w with
  | Raise e => (Some e, [IevListDevices])
  | Ok gpus =>
      match gpus with
      | [] => (None, [IevListDevices])
      | _ =>
          match configure_gpus w gpus with
          | (GrowthRaises e, t) => (Some e, IevListDevices :: t)
          | (_, t) => (None, IevListDevices :: t)
          end
      end
  end.

(** Lines 30-49: the branch on [DEMO_MODE], tensorflow being imported in
    real mode only. *)
Definition tensorflow_setup (w : InitWorld) (key : string) (demo : bool)
  : result ModuleState * list init_event :=
  if negb demo then
    match import_tensorflow w with
    | Raise e =>
        if isinstance_ImportError e then
          (Ok {| ms_OPENROUTER_API_KEY := key; ms_DEMO_MODE := true;
                 ms_TF_AVAILABLE := false |}, [IevImportTensorflow])
        else (Raise e, [IevImportTensorflow])
    | Ok _ =>
        match gpu_setup w with
        | (None, t) =>
            (Ok {| ms_OPENROUTER_API_KEY := key; ms_DEMO_MODE := false;
                   ms_TF_AVAILABLE := true |}, IevImportTensorflow :: t)
        | (Some e, t) =>
            if isinstance_ImportError e then
              (Ok {| ms_OPENROUTER_API_KEY := key; ms_DEMO_MODE := true;
                     ms_TF_AVAILABLE := false |}, IevImportTensorflow :: t)
            else (Raise e, IevImportTensorflow :: t)
        end
    end
  else
    (Ok {| ms_OPENROUTER_API_KEY := key; ms_DEMO_MODE := true;
           ms_TF_AVAILABLE := false |}, []).

(** Lines 20-49: the module state, or the exception that aborts the
    import of the module. *)
Definition module_init (w : InitWorld) : result ModuleState * list init_event :=
  let key := environ_get w "OPENROUTER_API_KEY" "" in
  let demo := py_lower (environ_get w "DEMO_MODE" "false") =? "true" in
  match tensorflow_setup w key demo with
  | (r, t) => (r, IevSetEnv "TF_CPP_MIN_LOG_LEVEL" "2" :: t)
  end.

(** The process state and the configuration right after the import
    (line 62: [model = None]). *)
Definition initial_globals (ms : ModuleState) : Globals :=
  {| DEMO_MODE := ms_DEMO_MODE ms; model := None |}.

Definition initial_config (dir : string) (ms : ModuleState) : Config :=
  {| app_dir := dir; OPENROUTER_API_KEY := ms_OPENROUTER_API_KEY ms |}.

(* ================================================================= *)
(** ** Start-up ([app.py], lines 326-347) *)

(** The [if __name__ == '__main__'] block up to [app.run]: in real mode
    the model is loaded, and a failure switches the process to demo
    mode. *)
Definition startup (cfg : Config) (w : LoaderWorld)
  : Globals -> Globals * list event :=
  fun g =>
    if DEMO_MODE g then (g, [])
    else
      match load_model cfg w g with
      | (Ok _, g', t) => (g', t)
      | (Raise _, g', t) => ({| DEMO_MODE := true; model := model g' |}, t)
      end.

(* ================================================================= *)
(** ** The conversion script ([convert_model.py]) *)

(** [s.endswith(suffix)] *)
Fixpoint py_endswith (s suffix : string) : bool :=
  (s =? suffix) ||
  match s with
  | EmptyString => false
  | String _ s' => py_endswith s' suffix
  end.

(** What the script finds outside. *)
Record ConvertWorld : Type := {
  cv_path_exists : string -> bool;                 (* os.path.exists *)
  cv_import_tensorflow : result unit;              (* import tensorflow *)
  cv_load_model : string -> result Model;          (* tf.keras.models.load_model *)
  cv_model_shapes : Model -> result unit;          (* model.input_shape, model.output_shape *)
  cv_save : Model -> string -> option string -> result unit
                                                   (* model.save(path[, save_format]) *)
}.

Inductive convert_event : Type :=
| CevPathExists (path : string)
| CevSetEnv (name value : string)
| CevImportTensorflow
| CevLoad (path : string)
| CevSave (m : Model) (path : string) (save_format : option string).

(** [convert_model(input_path, output_path)].  Of the log lines only
    the reading of the model's shapes is kept, which can raise. *)
Definition convert_model (w : ConvertWorld) (input_path output_path : string)
  : result bool * list convert_event :=
  let t0 := [CevSetEnv "TF_USE_LEGACY_KERAS" "1"; CevImportTensorflow] in
  match cv_import_tensorflow w with
  | Raise e => (Raise e, t0)
  | Ok _ =>
      match cv_load_model w input_path with
      | Raise e => (Raise e, (t0 ++ [CevLoad input_path])%list)
      | Ok m =>
          match cv_model_shapes w m with
          | Raise e => (Raise e, (t0 ++ [CevLoad input_path])%list)
          | Ok _ =>
              let save_format :=
                if py_endswith output_path ".keras" then None else Some "h5" in
              let t := (t0 ++ [CevLoad input_path;
                               CevSave m output_path save_format])%list in
              match cv_save w m output_path save_format with
              | Raise e => (Raise e, t)
              | Ok _ => (Ok true, t)
              end
          end
      end
  end.

(** The script itself, given [sys.argv]: the exit status of the process
    and the calls made. *)
Definition convert_main (w : ConvertWorld) (argv : list string)
  : Z * list convert_event :=
  match argv with
  | _ :: input_file :: output_file :: _ =>
      if negb (cv_path_exists w input_file) then
        (1%Z, [CevPathExists input_file])
      else
        match convert_model w input_file output_file with
        | (Ok _, t) => (0%Z, CevPathExists input_file :: t)
        | (Raise _, t) => (1%Z, CevPathExists input_file :: t)
        end
  | _ => (1%Z, [])     (* len(sys.argv) < 3 *)
  end.
(* ================================================================= *)
(** ** Vocabulary of the statements and sample inputs *)

(** The artifact the loader picks: the converted one when it is on disk. *)
Definition selected_path (cfg : Config) (w : LoaderWorld) : string :=
  if path_exists w (CONVERTED_MODEL_PATH cfg)
  then CONVERTED_MODEL_PATH cfg else MODEL_PATH cfg.

(** Outcome of the first [try] body: the import of the shim, then its
    [load_model]. *)
Definition shim_outcome (w : LoaderWorld) (path : string) : result Model :=
  match import_tf_keras w with
  | Ok _ => tf_keras_load_model w path
  | Raise e => Raise e
  end.

(** Outside calls of the first [try] body. *)
Definition shim_events (w : LoaderWorld) (path : string) : list event :=
  match import_tf_keras w with
  | Ok _ => [EvImportTfKeras; EvTfKerasLoad path]
  | Raise _ => [EvImportTfKeras]
  end.

Definition with_model (g : Globals) (m : Model) : Globals :=
  {| DEMO_MODE := DEMO_MODE g; model := Some m |}.


(** A run of later loader calls, each against its own state of the
    outside world: the outcome and the outside calls of each, and the
    final process state. *)
Fixpoint load_model_calls (cfg : Config) (ws : list LoaderWorld) (g : Globals)
  : list (result (option Model) * list event) * Globals :=
  match ws with
  | [] => ([], g)
  | w :: ws' =>
      match load_model cfg w g with
      | (r, g1, t) =>
          match load_model_calls cfg ws' g1 with
          | (rs, g2) => ((r, t) :: rs, g2)
          end
      end
  end.

(** The calls that give the loader something to do outside the process. *)
Definition is_loader_event (ev : event) : bool :=
  match ev with
  | EvPathExists _ | EvImportTfKeras | EvTfKerasLoad _ | EvTfLoad _ => true
  | _ => false
  end.

Definition no_loader_event (t : list event) : Prop :=
  forallb (fun ev => negb (is_loader_event ev)) t = true.

(** Sample inputs for the loader. *)
Definition cfg0 : Config :=
  {| app_dir := "/srv/neuroscan"; OPENROUTER_API_KEY := "" |}.

Definition g_fresh : Globals := {| DEMO_MODE := false; model := None |}.

Definition g_demo : Globals := {| DEMO_MODE := true; model := None |}.

Definition m_softmax : Model :=
  {| model_name := "inception";
     model_predict := fun _ => Ok [[1 # 10; 7 # 10; 1 # 10; 1 # 10]] |}.

(** Only the legacy shim can read the artifact. *)
Definition w_legacy_only : LoaderWorld :=
  {| path_exists := fun _ => false;
     import_tf_keras := Ok tt;
     tf_keras_load_model := fun _ => Ok m_softmax;
     tf_load_model := fun _ => Raise (Exn ValueError "File format not supported") |}.

(** The shim is installed, but its loader raises [ImportError] (h5py is
    missing); the standard runtime reads the artifact. *)
Definition w_h5py_missing : LoaderWorld :=
  {| path_exists := fun _ => false;
     import_tf_keras := Ok tt;
     tf_keras_load_model :=
       fun _ => Raise (Exn ImportError "`load_model()` using h5 format requires h5py. Could not import h5py.");
     tf_load_model := fun _ => Ok m_softmax |}.

(** The shim is installed, but its loader rejects the artifact with an
    exception that is not an [ImportError]; the standard runtime would
    read it. *)
Definition w_shim_rejects : LoaderWorld :=
  {| path_exists := fun _ => false;
     import_tf_keras := Ok tt;
     tf_keras_load_model := fun _ => Raise (Exn ValueError "bad marshal data");
     tf_load_model := fun _ => Ok m_softmax |}.

(** Nothing is installed and nothing is on disk. *)
Definition w_nothing : LoaderWorld :=
  {| path_exists := fun _ => false;
     import_tf_keras := Raise (Exn ModuleNotFoundError "No module named 'tf_keras'");
     tf_keras_load_model := fun _ => Raise (Exn OSError "unreachable");
     tf_load_model := fun _ => Raise (Exn OSError "No file or directory found at model.h5") |}.

(** *** Preprocessor *)

(** An 8-bit RGB pixel grid of the given width and height. *)
Definition rgb_grid (w h : nat) (data : list (list (list Z))) : Prop :=
  List.length data = h /\
  Forall (fun row =>
            List.length row = w /\
            Forall (fun px =>
                      List.length px = 3%nat /\
                      Forall (fun v => (0 <= v <= 255)%Z) px) row) data.

Definition is_rgb (img : Image) : Prop :=
  im_mode img = "RGB" /\ rgb_grid (im_width img) (im_height img) (im_data img).

(** What the code relies on from PIL: an image in mode RGB holds three
    8-bit samples per pixel; [convert('RGB')] yields such an image;
    [resize] keeps the mode and yields the requested size. *)
Record pil_contract (pil : PIL) : Prop := {
  open_rgb : forall b img,
    Image_open pil b = Ok img -> im_mode img = "RGB" -> is_rgb img;
  convert_rgb : forall img, is_rgb (Image_convert pil img "RGB");
  resize_rgb : forall img w h,
    is_rgb img ->
    is_rgb (Image_resize pil img (w, h)) /\
    im_width (Image_resize pil img (w, h)) = w /\
    im_height (Image_resize pil img (w, h)) = h
}.

(** The tensor has shape [[n, h, w, c]]. *)
Definition tensor_shape (t : Tensor) (n h w c : nat) : Prop :=
  List.length t = n /\
  Forall (fun im =>
            List.length im = h /\
            Forall (fun row =>
                      List.length row = w /\
                      Forall (fun px => List.length px = c) row) im) t.

(** Every entry of the tensor lies in [[0, 1]]. *)
Definition tensor_in_unit (t : Tensor) : Prop :=
  Forall (Forall (Forall (Forall (fun v => 0 <= v <= 1)))) t.

(** The sample of a pixel grid at row [r], column [c], band [k], and the
    entry of a tensor at batch item [n], row [r], column [c], channel
    [k]. *)
Definition sample_at (data : list (list (list Z))) (r c k : nat) : option Z :=
  match nth_error data r with
  | Some row =>
      match nth_error row c with
      | Some px => nth_error px k
      | None => None
      end
  | None => None
  end.

Definition tensor_at (t : Tensor) (n r c k : nat) : option Q :=
  match nth_error t n with
  | Some im =>
      match nth_error im r with
      | Some row =>
          match nth_error row c with
          | Some px => nth_error px k
          | None => None
          end
      | None => None
      end
  | None => None
  end.

(** A small imaging library that meets the contract.  A file that starts
    with the letter R holds one row of RGB pixels, three bytes each; any
    other file is read as one row of greyscale pixels; conversion repeats
    the first band, and resizing picks the nearest source pixel. *)
Fixpoint rgb_pixels (b : list byte) : list (list Z) :=
  match b with
  | r :: g :: bl :: rest =>
      [Z.of_N (Byte.to_N r); Z.of_N (Byte.to_N g); Z.of_N (Byte.to_N bl)]
        :: rgb_pixels rest
  | _ => []
  end.
Definition clamp8 (v : Z) : Z := Z.max 0 (Z.min 255 v).

Definition pixel_at (data : list (list (list Z))) (r c : nat) : list Z :=
  nth c (nth r data []) [].

Definition rgb_of (px : list Z) : list Z :=
  map clamp8 (firstn 3 (px ++ [0; 0; 0])%Z%list).

Definition grey_to_rgb (px : list Z) : list Z :=
  let v := clamp8 (hd 0%Z px) in [v; v; v].

Definition ref_open (b : list byte) : result Image :=
  match b with
  | [] => Raise (Exn UnidentifiedImageError "cannot identify image file")
  | x :: rest =>
      if Byte.eqb x x52 then
        Ok {| im_mode := "RGB";
              im_width := List.length (rgb_pixels rest);
              im_height := 1;
              im_data := [rgb_pixels rest] |}
      else
        Ok {| im_mode := "L";
              im_width := List.length b;
              im_height := 1;
              im_data := [map (fun y => [Z.of_N (Byte.to_N y)]) b] |}
  end.

(** Two sample files: a greyscale one, and an RGB one of two pixels. *)
Definition grey_file : list byte := [x89; x50; x4e; x47].

Definition rgb_file : list byte := [x52; xff; x00; x80; x10; x20; x30].

(** What [rgb_file] decodes to. *)
Definition rgb_image_of_file : Image :=
  {| im_mode := "RGB"; im_width := 2; im_height := 1;
     im_data := [[[255; 0; 128]; [16; 32; 48]]]%Z |}.


Definition ref_convert (img : Image) (mode : string) : Image :=
  {| im_mode := mode;
     im_width := im_width img;
     im_height := im_height img;
     im_data :=
       map (fun r => map (fun c => grey_to_rgb (pixel_at (im_data img) r c))
                         (seq 0 (im_width img)))
           (seq 0 (im_height img)) |}.

Definition ref_resize (img : Image) (size : nat * nat) : Image :=
  let (w, h) := size in
  {| im_mode := im_mode img;
     im_width := w;
     im_height := h;
     im_data :=
       map (fun r =>
              map (fun c =>
                     rgb_of (pixel_at (im_data img)
                                      (r * im_height img / h)
                                      (c * im_width img / w)))
                  (seq 0 w))
           (seq 0 h) |}.

Definition ref_pil : PIL :=
  {| Image_open := ref_open;
     Image_convert := ref_convert;
     Image_resize := ref_resize |}.

(** *** Inference handler *)

(** The answer of the [except Exception] clause of [predict]. *)
Definition error_500 (e : exn) : Response :=
  jsonify [("error", PStr (exn_msg e))] 500.

(** Sample inputs for [predict]. *)
Definition rng0 : Rng :=
  {| np_random_dirichlet := fun _ => [1 # 10; 2 # 10; 3 # 10; 4 # 10];
     random_random := 1 # 2;
     random_randint := fun _ _ => 0%Z |}.

Definition png_magic : list byte := [x89; x50; x4e; x47].

Definition pw0 : PredictWorld :=
  {| pw_loader := w_legacy_only;
     pw_pil := ref_pil;
     pw_rng := rng0;
     pw_b64decode := fun _ => Ok png_magic |}.

(** The payload decodes to no bytes at all, which PIL cannot identify. *)
Definition pw_undecodable : PredictWorld :=
  {| pw_loader := w_legacy_only;
     pw_pil := ref_pil;
     pw_rng := rng0;
     pw_b64decode := fun _ => Ok [] |}.

Definition req_empty : Request :=
  {| files := Ok []; get_json := Ok (PDict []) |}.

Definition req_empty_filename : Request :=
  {| files := Ok [("image", {| filename := ""; file_read := Ok [] |})];
     get_json := Ok PNone |}.

Definition req_json_number : Request :=
  {| files := Ok []; get_json := Ok (PInt 5) |}.

(** *** Classification results *)

(** What the code relies on from the generators: the Dirichlet draw for
    four classes is a vector of four non-negative weights of sum 1, and
    [randint(0, 3)] lies between 0 and 3. *)
Definition rng_contract (rng : Rng) : Prop :=
  let d := np_random_dirichlet rng dirichlet_alpha in
  List.length d = 4%nat /\
  Forall (fun x => 0 <= x) d /\
  Qsum d == 1 /\
  (0 <= random_randint rng 0 3 <= 3)%Z.

(** The four percentages of a response, by label. *)
Definition four_percentages (a b c d : Q) : list (string * pyval) :=
  [ ("Glioma", PFloat a); ("Meningioma", PFloat b);
    ("No Tumor", PFloat c); ("Pituitary", PFloat d) ].

(** The response carries four percentages of sum 100 within 0.01, its
    prediction is a label of largest percentage, and its confidence is
    that percentage ([rounded]: to two decimal places). *)
Definition classification_ok (rounded : bool) (resp : Response) : Prop :=
  exists (a b c d : Q) (label : string) (top conf : Q),
    dict_lookup "probabilities" (body resp) = Some (PDict (four_percentages a b c d)) /\
    Qabs (a + b + c + d - 100) <= 1 # 100 /\
    dict_lookup "prediction" (body resp) = Some (PStr label) /\
    dict_lookup label (four_percentages a b c d) = Some (PFloat top) /\
    (a <= top /\ b <= top /\ c <= top /\ d <= top) /\
    dict_lookup "confidence" (body resp) = Some (PFloat conf) /\
    conf = (if rounded then py_round2 top else top).

(** A model whose four outputs are independent scores (sigmoid units). *)
Definition m_sigmoid : Model :=
  {| model_name := "sigmoid-head";
     model_predict := fun _ => Ok [[1 # 2; 1 # 2; 1 # 2; 1 # 2]] |}.

Definition w_sigmoid : LoaderWorld :=
  {| path_exists := fun _ => true;
     import_tf_keras := Ok tt;
     tf_keras_load_model := fun _ => Ok m_sigmoid;
     tf_load_model := fun _ => Ok m_sigmoid |}.

Definition pw_sigmoid : PredictWorld :=
  {| pw_loader := w_sigmoid;
     pw_pil := ref_pil;
     pw_rng := rng0;
     pw_b64decode := fun _ => Ok png_magic |}.

(** *** Chat proxy *)

(** Lines 247-248 of [chat]: the message of the request, trimmed. *)
Definition trimmed_message (req : Request) : result pyval :=
  (data <~ get_json req ;;
   m <~ py_get data "message" (PStr "") ;;
   py_strip m)%result.

(** The body carries a [response] field holding a string. *)
Definition has_response_text (resp : Response) : Prop :=
  exists s, dict_lookup "response" (body resp) = Some (PStr s).

(** The answer of [chat] when no credential is configured. *)
Definition not_configured_response : Response :=
  jsonify
    [ ("error", PStr "Chatbot not configured. Please set OPENROUTER_API_KEY environment variable.");
      ("response", PStr "I apologize, but the chatbot is not configured yet. Please add your OpenRouter API key to enable this feature.") ]
    200.

(** The answer of [chat] to a timeout of the outside call. *)
Definition timeout_response : Response :=
  jsonify [ ("error", PStr "Request timeout");
            ("response", PStr "The request took too long. Please try again.") ]
          200.

(** The outside call [chat] makes for a trimmed message. *)
Definition chat_post (cfg : Config) (w : ChatWorld) (s : string) : result HttpResponse :=
  requests_post w OPENROUTER_API_URL (chat_headers cfg) (chat_payload (PStr s)) 30.

(** Sample inputs for [chat]. *)
Definition cfg_key : Config :=
  {| app_dir := "/srv/neuroscan"; OPENROUTER_API_KEY := "sk-or-v1-0000" |}.

Definition req_message (s : string) : Request :=
  {| files := Ok []; get_json := Ok (PDict [("message", PStr s)]) |}.

Definition cw_timeout : ChatWorld :=
  {| requests_post := fun _ _ _ _ => Raise (Exn ReadTimeout "Read timed out. (read timeout=30)");
     py_repr := fun _ => "?" |}.

Definition cw_rate_limited : ChatWorld :=
  {| requests_post := fun _ _ _ _ =>
       Ok {| status_code := 429;
             text := "{...}";
             resp_json := Ok (PDict [("error", PDict [("message", PStr "Rate limit exceeded")])]) |};
     py_repr := fun _ => "?" |}.

(** *** The uniform draw of the demo predictor *)

(** [random.random()] returns one of the values [k / 2^53],
    [0 <= k < 2^53], each as likely as the others. *)
Definition random_outcomes : N := 9007199254740992.






(* ================================================================= *)
(** ** Vocabulary for the module, the start-up and the script *)

Definition one_of (a b c : ascii) : bool := ((c =? a) || (c =? b))%char.

(** One of the sixteen ways to write [true] in upper and lower case. *)
Definition is_casing_of_true (s : string) : bool :=
  match s with
  | String a (String b (String c (String d EmptyString))) =>
      one_of "t" "T" a && one_of "r" "R" b && one_of "u" "U" c && one_of "e" "E" d
  | _ => false
  end.

(** The environment asks for demo mode. *)
Definition demo_requested (w : InitWorld) : bool :=
  match environ w "DEMO_MODE" with
  | Some v => is_casing_of_true v
  | None => false
  end.

(** Every character of the string satisfies [p]. *)
Fixpoint string_forall (p : ascii -> bool) (s : string) : bool :=
  match s with
  | EmptyString => true
  | String c s' => p c && string_forall p s'
  end.

(** The two states the module can come up in. *)
Definition demo_module_state (w : InitWorld) : ModuleState :=
  {| ms_OPENROUTER_API_KEY := environ_get w "OPENROUTER_API_KEY" "";
     ms_DEMO_MODE := true;
     ms_TF_AVAILABLE := false |}.

Definition real_module_state (w : InitWorld) : ModuleState :=
  {| ms_OPENROUTER_API_KEY := environ_get w "OPENROUTER_API_KEY" "";
     ms_DEMO_MODE := false;
     ms_TF_AVAILABLE := true |}.

(** Sample inputs. *)
Definition iw_two_gpus : InitWorld :=
  {| environ := fun k => if k =? "DEMO_MODE" then Some "False" else None;
     import_tensorflow := Ok tt;
     list_physical_devices := Ok ["GPU:0"; "GPU:1"];
     set_memory_growth :=
       fun _ => GrowthRuntimeError "Physical devices cannot be modified after being initialized" |}.

Definition iw_demo : InitWorld :=
  {| environ := fun k => if k =? "DEMO_MODE" then Some "TRUE" else None;
     import_tensorflow := Raise (Exn OSError "unreachable");
     list_physical_devices := Ok [];
     set_memory_growth := fun _ => GrowthOk |}.

Definition iw_no_tensorflow : InitWorld :=
  {| environ := fun _ => None;
     import_tensorflow := Raise (Exn ModuleNotFoundError "No module named 'tensorflow'");
     list_physical_devices := Ok [];
     set_memory_growth := fun _ => GrowthOk |}.

Definition cvw_ok : ConvertWorld :=
  {| cv_path_exists := fun p => p =? "model.h5";
     cv_import_tensorflow := Ok tt;
     cv_load_model := fun _ => Ok m_softmax;
     cv_model_shapes := fun _ => Ok tt;
     cv_save := fun _ _ _ => Ok tt |}.

(** The answer of [chat] to a reply of the chat service with a status
    other than 200. *)
Definition upstream_error_response (code : Z) (msg : string) : Response :=
  jsonify
    [ ("error", PStr ("API error: " ++ Z_to_string code));
      ("response", PStr ("API Error: " ++ msg ++ ". Please try again later.")) ]
    200.

(** The answer of the last [except] clause of [chat]. *)
Definition generic_failure_response (e : exn) : Response :=
  jsonify [ ("error", PStr (exn_msg e));
            ("response", PStr "An error occurred. Please try again.") ]
          200.

(** The format [convert_model] saves in: the native one for a path that
    ends in [.keras], HDF5 otherwise. *)
Definition save_format_of (output_path : string) : option string :=
  if py_endswith output_path ".keras" then None else Some "h5".
(* ================================================================= *)
(** * Properties *)

(* ================================================================= *)
(** ** Model loader *)

Ltac unfold_eff :=
  unfold bind, try_except, call, lift, ret, raise,
    get_DEMO_MODE, get_model, set_model in *.

Lemma load_model_demo (cfg : Config) (w : LoaderWorld) (g : Globals) :
  DEMO_MODE g = true -> load_model cfg w g = (Ok None, g, []).
Proof.
  intros Hd. unfold load_model. unfold_eff. rewrite Hd. reflexivity.
Qed.

Lemma load_model_hit (cfg : Config) (w : LoaderWorld) (g : Globals) (m : Model) :
  DEMO_MODE g = false -> model g = Some m ->
  load_model cfg w g = (Ok (Some m), g, []).
Proof.
  intros Hd Hm. unfold load_model. unfold_eff. rewrite Hd, Hm. simpl.
  rewrite Hm. reflexivity.
Qed.

Lemma load_model_miss (cfg : Config) (w : LoaderWorld) (g : Globals) :
  DEMO_MODE g = false -> model g = None ->
  let path := selected_path cfg w in
  let pre := EvPathExists (CONVERTED_MODEL_PATH cfg) :: shim_events w path in
  match shim_outcome w path with
  | Ok m => load_model cfg w g = (Ok (Some m), with_model g m, pre)
  | Raise e =>
      if isinstance_ImportError e then
        match tf_load_model w path with
        | Ok m =>
            load_model cfg w g
            = (Ok (Some m), with_model g m, (pre ++ [EvTfLoad path])%list)
        | Raise e' =>
            load_model cfg w g = (Raise e', g, (pre ++ [EvTfLoad path])%list)
        end
      else load_model cfg w g = (Raise e, g, pre)
  end.
Proof.
  intros Hd Hm. cbv zeta.
  unfold load_model, shim_outcome, shim_events, selected_path, with_model.
  unfold_eff. rewrite Hd, Hm.
  destruct (path_exists w (CONVERTED_MODEL_PATH cfg));
    destruct (import_tf_keras w) as [[]|ei]; simpl;
    repeat match goal with
      | |- context [tf_keras_load_model w ?p] =>
          destruct (tf_keras_load_model w p) as [mk|ek]; simpl
      | |- context [isinstance_ImportError ?e] =>
          destruct (isinstance_ImportError e); simpl
      | |- context [tf_load_model w ?p] =>
          destruct (tf_load_model w p) as [mt|et]; simpl
      end; rewrite ?Hd; reflexivity.
Qed.

(** The loader with no cached model and demo mode off, case by case: the
    path it selects, and for each outcome of the shim attempt and of the
    standard runtime what it returns or raises, the state it leaves and
    the calls it makes. *)
Theorem load_model_fallback_chain (cfg : Config) (w : LoaderWorld) (g : Globals) :
  DEMO_MODE g = false -> model g = None ->
  let path := selected_path cfg w in
  let pre := EvPathExists (CONVERTED_MODEL_PATH cfg) :: shim_events w path in
  (path_exists w (CONVERTED_MODEL_PATH cfg) = true -> path = CONVERTED_MODEL_PATH cfg) /\
  (path_exists w (CONVERTED_MODEL_PATH cfg) = false -> path = MODEL_PATH cfg) /\
  match shim_outcome w path with
  | Ok m => load_model cfg w g = (Ok (Some m), with_model g m, pre)
  | Raise e =>
      if isinstance_ImportError e then
        match tf_load_model w path with
        | Ok m =>
            load_model cfg w g
            = (Ok (Some m), with_model g m, (pre ++ [EvTfLoad path])%list)
        | Raise e' =>
            load_model cfg w g = (Raise e', g, (pre ++ [EvTfLoad path])%list)
        end
      else load_model cfg w g = (Raise e, g, pre)
  end.
Proof.
  intros Hd Hm path pre. repeat split.
  - intros Hx. unfold path, selected_path. rewrite Hx. reflexivity.
  - intros Hx. unfold path, selected_path. rewrite Hx. reflexivity.
  - exact (load_model_miss cfg w g Hd Hm).
Qed.

(** C3.  The loader at the input where it departs from the claim: the
    shim is installed (its import succeeds) and its load call raises an
    [ImportError]; the [except ImportError] clause, written for a shim
    that is not installed, catches it because the [try] body holds the
    load call too, and the loader goes on to the standard runtime and
    returns its model, instead of raising the shim's failure as it does
    for every other exception of that call. *)
Lemma load_model_standard_without_import_failure :
  import_tf_keras w_h5py_missing = Ok tt /\
  load_model cfg0 w_h5py_missing g_fresh
  = (Ok (Some m_softmax), with_model g_fresh m_softmax,
     [ EvPathExists (CONVERTED_MODEL_PATH cfg0); EvImportTfKeras;
       EvTfKerasLoad (MODEL_PATH cfg0); EvTfLoad (MODEL_PATH cfg0) ]) /\
  load_model cfg0 w_shim_rejects g_fresh
  = (Raise (Exn ValueError "bad marshal data"), g_fresh,
     [ EvPathExists (CONVERTED_MODEL_PATH cfg0); EvImportTfKeras;
       EvTfKerasLoad (MODEL_PATH cfg0) ]).
Proof. split; [|split]; reflexivity. Qed.

Lemma load_model_fallback_chain_witness :
  load_model cfg0 w_legacy_only g_fresh
  = (Ok (Some m_softmax), with_model g_fresh m_softmax,
     [ EvPathExists (CONVERTED_MODEL_PATH cfg0); EvImportTfKeras;
       EvTfKerasLoad (MODEL_PATH cfg0) ]).
Proof.
  exact (proj2 (proj2 (load_model_fallback_chain cfg0 w_legacy_only g_fresh
                         eq_refl eq_refl))).
Defined.

Lemma load_model_ok_state (cfg : Config) (w : LoaderWorld) (g g' : Globals)
    (r : option Model) (t : list event) :
  load_model cfg w g = (Ok r, g', t) ->
  (DEMO_MODE g' = true /\ r = None) \/ (DEMO_MODE g' = false /\ model g' = r /\ r <> None).
Proof.
  intros H. destruct (DEMO_MODE g) eqn:Hd.
  - rewrite (load_model_demo cfg w g Hd) in H. inversion H; subst. left. auto.
  - right. destruct (model g) as [m|] eqn:Hm.
    + rewrite (load_model_hit cfg w g m Hd Hm) in H. inversion H; subst.
      repeat split; auto. discriminate.
    + pose proof (load_model_miss cfg w g Hd Hm) as L. cbv zeta in L.
      destruct (shim_outcome w (selected_path cfg w)) as [m|e].
      * rewrite L in H. inversion H; subst. simpl. repeat split; auto. discriminate.
      * destruct (isinstance_ImportError e).
        -- destruct (tf_load_model w (selected_path cfg w)) as [m|e'];
             rewrite L in H; inversion H; subst.
           simpl. repeat split; auto. discriminate.
        -- rewrite L in H. inversion H.
Qed.

Lemma load_model_again (cfg : Config) (w w' : LoaderWorld) (g g' : Globals)
    (r : option Model) (t : list event) :
  load_model cfg w g = (Ok r, g', t) ->
  load_model cfg w' g' = (Ok r, g', []).
Proof.
  intros H. destruct (load_model_ok_state cfg w g g' r t H) as [[Hd Hr]|[Hd [Hm Hr]]].
  - subst r. apply load_model_demo. exact Hd.
  - destruct r as [m|]; [|congruence]. apply load_model_hit; assumption.
Qed.

(* ================================================================= *)
(** ** Tensor preprocessor *)

Lemma scaled_sample_in_unit (v : Z) :
  (0 <= v <= 255)%Z -> 0 <= inject_Z v / 255 <= 1.
Proof.
  intros [H0 H1]. unfold Qle, Qdiv, Qmult, Qinv, inject_Z. simpl. lia.
Qed.

Lemma normalize_grid (w h : nat) (data : list (list (list Z))) :
  rgb_grid w h data ->
  List.length (normalize data) = h /\
  Forall (fun row =>
            List.length row = w /\
            Forall (fun px => List.length px = 3%nat) row) (normalize data) /\
  Forall (Forall (Forall (fun v => 0 <= v <= 1))) (normalize data).
Proof.
  intros [Hlen Hrows]. unfold normalize. repeat split.
  - rewrite length_map. exact Hlen.
  - apply Forall_map. eapply Forall_impl; [|exact Hrows].
    intros row [Hw Hpx]. split.
    + rewrite length_map. exact Hw.
    + apply Forall_map. eapply Forall_impl; [|exact Hpx].
      intros px [H3 _]. rewrite length_map. exact H3.
  - apply Forall_map. eapply Forall_impl; [|exact Hrows].
    intros row [_ Hpx]. apply Forall_map. eapply Forall_impl; [|exact Hpx].
    intros px [_ Hv]. apply Forall_map. eapply Forall_impl; [|exact Hv].
    intros v Hv'. apply scaled_sample_in_unit. exact Hv'.
Qed.

Lemma to_rgb_is_rgb (pil : PIL) (b : list byte) (img : Image) :
  pil_contract pil -> Image_open pil b = Ok img -> is_rgb (to_rgb pil img).
Proof.
  intros C Ho. unfold to_rgb.
  destruct (im_mode img =? "RGB") eqn:E; simpl.
  - apply (open_rgb pil C b img Ho). apply String.eqb_eq. exact E.
  - apply (convert_rgb pil C).
Qed.

Lemma not_three_bands_not_rgb (m : string) :
  mode_bands m <> 3%nat -> (m =? "RGB") = false.
Proof.
  intros H. destruct (m =? "RGB") eqn:E; [|reflexivity].
  exfalso. apply H. unfold mode_bands. rewrite E. reflexivity.
Qed.

Lemma tensor_at_scaled (data : list (list (list Z))) (r c k : nat) :
  tensor_at [map (map (map (fun v => inject_Z v / 255))) data] 0 r c k
  = option_map (fun v => inject_Z v / 255) (sample_at data r c k).
Proof.
  unfold tensor_at, sample_at. cbn [nth_error].
  rewrite nth_error_map. destruct (nth_error data r) as [row|]; [|reflexivity].
  cbn [option_map]. rewrite nth_error_map.
  destruct (nth_error row c) as [px|]; [|reflexivity].
  cbn [option_map]. apply nth_error_map.
Qed.

(** C2.  For every byte sequence that PIL decodes, the preprocessor
    returns a tensor of shape [[1, 299, 299, 3]] whose entries all lie in
    [[0, 1]].  The tensor is spelled out: the decoded image itself when
    its mode is RGB, and its conversion to RGB otherwise (so in
    particular whenever it does not have three bands), is resized to 299
    by 299 whatever its own size; every sample of the resized image is
    divided by 255, entry by entry; and the whole is wrapped in one
    leading batch dimension. *)
Theorem preprocess_image_spec (pil : PIL) (b : list byte) (img : Image) :
  pil_contract pil ->
  Image_open pil b = Ok img ->
  let rgb := if im_mode img =? "RGB" then img else Image_convert pil img "RGB" in
  let resized := Image_resize pil rgb (299%nat, 299%nat) in
  exists t,
    preprocess_image pil b = Ok t /\
    tensor_shape t 1 299 299 3 /\
    tensor_in_unit t /\
    t = [map (map (map (fun v => inject_Z v / 255))) (im_data resized)] /\
    (forall r c k,
        tensor_at t 0 r c k
        = option_map (fun v => inject_Z v / 255) (sample_at (im_data resized) r c k)) /\
    (im_mode img = "RGB" -> rgb = img) /\
    (im_mode img <> "RGB" -> rgb = Image_convert pil img "RGB") /\
    (mode_bands (im_mode img) <> 3%nat -> rgb = Image_convert pil img "RGB").
Proof.
  intros C Ho rgb resized.
  assert (Ergb : rgb = to_rgb pil img).
  { unfold rgb, to_rgb. destruct (im_mode img =? "RGB"); reflexivity. }
  pose proof (to_rgb_is_rgb pil b img C Ho) as Hrgb. rewrite <- Ergb in Hrgb.
  destruct (resize_rgb pil C rgb 299%nat 299%nat Hrgb) as [[_ Hgrid] [Hw Hh]].
  fold resized in Hgrid, Hw, Hh. rewrite Hw, Hh in Hgrid.
  destruct (normalize_grid _ _ _ Hgrid) as [Hl [Hs Hu]].
  exists [map (map (map (fun v => inject_Z v / 255))) (im_data resized)].
  split; [|split; [|split; [|split; [|split; [|split; [|split]]]]]].
  - unfold preprocess_image. rewrite Ho. cbn [result_bind].
    unfold expand_dims0, normalize, resized. rewrite Ergb. reflexivity.
  - split; [reflexivity|]. constructor; [|constructor]. split; assumption.
  - constructor; [|constructor]. exact Hu.
  - reflexivity.
  - intros r c k. apply tensor_at_scaled.
  - intros Hm. unfold rgb. apply String.eqb_eq in Hm. rewrite Hm. reflexivity.
  - intros Hm. unfold rgb. apply String.eqb_neq in Hm. rewrite Hm. reflexivity.
  - intros Hb. unfold rgb. rewrite (not_three_bands_not_rgb _ Hb). reflexivity.
Qed.

Lemma rgb_pixels_grid_upto (n : nat) (b : list byte) :
  (List.length b <= n)%nat ->
  Forall (fun px =>
            List.length px = 3%nat /\ Forall (fun v => (0 <= v <= 255)%Z) px)
         (rgb_pixels b).
Proof.
  revert b. induction n as [|n IH]; intros b Hn.
  - destruct b; [constructor|simpl in Hn; lia].
  - destruct b as [|r [|g [|bl rest]]]; cbn [rgb_pixels]; try constructor.
    + split; [reflexivity|].
      pose proof (Byte.to_N_bounded r). pose proof (Byte.to_N_bounded g).
      pose proof (Byte.to_N_bounded bl). repeat constructor; lia.
    + apply IH. simpl in Hn. lia.
Qed.

Lemma ref_pil_contract : pil_contract ref_pil.
Proof.
  constructor.
  - intros b img Ho Hm. destruct b as [|x b]; cbn [ref_pil Image_open ref_open] in Ho;
      [discriminate|].
    destruct (Byte.eqb x x52); inversion Ho; subst; [|simpl in Hm; discriminate].
    split; [reflexivity|]. cbn [im_width im_height im_data]. split; [reflexivity|].
    constructor; [|constructor]. split; [reflexivity|].
    apply (rgb_pixels_grid_upto (List.length b)). lia.
  - intros img. split; [reflexivity|]. simpl. split.
    + rewrite length_map, length_seq. reflexivity.
    + apply Forall_map. apply Forall_forall. intros r _. split.
      * rewrite length_map, length_seq. reflexivity.
      * apply Forall_map. apply Forall_forall. intros c _. split; [reflexivity|].
        unfold grey_to_rgb, clamp8. repeat constructor; lia.
  - intros img w h [Hm _]. simpl. repeat split; try assumption; simpl.
    + rewrite length_map, length_seq. reflexivity.
    + apply Forall_map. apply Forall_forall. intros r _. split.
      * rewrite length_map, length_seq. reflexivity.
      * apply Forall_map. apply Forall_forall. intros c _.
        unfold rgb_of. split.
        -- rewrite length_map, length_firstn, length_app.
           change (Datatypes.length [0; 0; 0]%Z) with 3%nat. lia.
        -- apply Forall_map. apply Forall_forall. intros v _.
           unfold clamp8. lia.
Qed.

Lemma preprocess_image_spec_witness :
  (exists t,
      preprocess_image ref_pil rgb_file = Ok t /\
      tensor_shape t 1 299 299 3 /\
      tensor_in_unit t /\
      t = [map (map (map (fun v => inject_Z v / 255)))
             (im_data (ref_resize rgb_image_of_file (299%nat, 299%nat)))] /\
      tensor_at t 0 0 0 2 = Some (inject_Z 128 / 255)) /\
  (exists t,
      preprocess_image ref_pil grey_file = Ok t /\
      tensor_shape t 1 299 299 3 /\
      tensor_in_unit t /\
      tensor_at t 0 0 0 0 = Some (inject_Z 137 / 255)).
Proof.
  split.
  - destruct (preprocess_image_spec ref_pil rgb_file rgb_image_of_file
                ref_pil_contract eq_refl) as [t [H1 [H2 [H3 [H4 [H5 _]]]]]].
    exists t. split; [exact H1|]. split; [exact H2|]. split; [exact H3|].
    split; [exact H4|]. rewrite H5. reflexivity.
  - destruct (preprocess_image_spec ref_pil grey_file _
                ref_pil_contract eq_refl) as [t [H1 [H2 [H3 [_ [H5 _]]]]]].
    exists t. split; [exact H1|]. split; [exact H2|]. split; [exact H3|].
    rewrite H5. reflexivity.
Defined.

(* ================================================================= *)
(** ** Inference handler: control flow *)

Lemma predict_body_extract_raise (cfg : Config) (w : PredictWorld) (req : Request)
    (g : Globals) (e : exn) :
  extract_image (pw_b64decode w) req = Raise e ->
  predict_body cfg w req g = (Raise e, g, []).
Proof.
  intros He. unfold predict_body. unfold_eff. rewrite He. reflexivity.
Qed.

Lemma predict_body_early (cfg : Config) (w : PredictWorld) (req : Request)
    (g : Globals) (r : Response) :
  extract_image (pw_b64decode w) req = Ok (inl r) ->
  predict_body cfg w req g = (Ok r, g, []).
Proof.
  intros He. unfold predict_body. unfold_eff. rewrite He. reflexivity.
Qed.

Lemma predict_body_demo (cfg : Config) (w : PredictWorld) (req : Request)
    (g : Globals) (b : list byte) :
  extract_image (pw_b64decode w) req = Ok (inr b) ->
  DEMO_MODE g = true ->
  predict_body cfg w req g
  = match demo_predict (pw_rng w) with
    | Ok result =>
        (Ok (jsonify (("success", PBool true) :: ("demo_mode", PBool true) :: result) 200),
         g, [EvSleep (1 # 2)])
    | Raise e => (Raise e, g, [EvSleep (1 # 2)])
    end.
Proof.
  intros He Hd. unfold predict_body. unfold_eff. rewrite He. simpl. rewrite Hd.
  destruct (demo_predict (pw_rng w)); reflexivity.
Qed.

Lemma predict_body_real (cfg : Config) (w : PredictWorld) (req : Request)
    (g g1 : Globals) (b : list byte) (rl : result (option Model)) (t1 : list event) :
  extract_image (pw_b64decode w) req = Ok (inr b) ->
  DEMO_MODE g = false ->
  load_model cfg (pw_loader w) g = (rl, g1, t1) ->
  predict_body cfg w req g
  = match rl with
    | Raise e => (Raise e, g1, t1)
    | Ok lm =>
        match preprocess_image (pw_pil w) b with
        | Raise e => (Raise e, g1, t1)
        | Ok x =>
            match lm with
            | None =>
                (Raise (Exn AttributeError "'NoneType' object has no attribute 'predict'"),
                 g1, t1)
            | Some m =>
                (match model_predict m x with
                 | Raise e => Raise e
                 | Ok predictions => classification_response predictions
                 end, g1, (t1 ++ [EvPredict m])%list)
            end
        end
    end.
Proof.
  intros He Hd Hl. unfold predict_body, call_predict. unfold_eff.
  rewrite He. simpl. rewrite Hd, Hl.
  destruct rl as [lm|e]; [|reflexivity].
  destruct (preprocess_image (pw_pil w) b) as [x|e]; simpl;
    [|rewrite app_nil_r; reflexivity].
  destruct lm as [m|]; simpl; [|rewrite app_nil_r; reflexivity].
  destruct (model_predict m x) as [ps|e]; simpl; reflexivity.
Qed.

Lemma predict_of_body (cfg : Config) (w : PredictWorld) (req : Request)
    (g g' : Globals) (r : result Response) (t : list event) :
  predict_body cfg w req g = (r, g', t) ->
  predict cfg w req g
  = (match r with Ok resp => resp | Raise e => error_500 e end, g', t).
Proof.
  intros H. unfold predict. rewrite H. destruct r; reflexivity.
Qed.

(** C6.  Whatever the [try] block of [predict] raises is answered with
    status 500 and a JSON body carrying the message of the exception: an
    exception from the extraction of the input (request parsing, base64
    decoding), from the model loader, from the decoding of the image in
    the preprocessor, or from the model's forward pass.  [predict] being a
    function into responses, no exception leaves it. *)
Theorem predict_reports_exceptions (cfg : Config) (w : PredictWorld)
    (req : Request) (g : Globals) (e : exn) :
  (forall g' t,
      predict_body cfg w req g = (Raise e, g', t) ->
      predict cfg w req g = (error_500 e, g', t)) /\
  (extract_image (pw_b64decode w) req = Raise e ->
   predict cfg w req g = (error_500 e, g, [])) /\
  (forall b g1 t1,
      extract_image (pw_b64decode w) req = Ok (inr b) ->
      DEMO_MODE g = false ->
      load_model cfg (pw_loader w) g = (Raise e, g1, t1) ->
      predict cfg w req g = (error_500 e, g1, t1)) /\
  (forall b lm g1 t1,
      extract_image (pw_b64decode w) req = Ok (inr b) ->
      DEMO_MODE g = false ->
      load_model cfg (pw_loader w) g = (Ok lm, g1, t1) ->
      preprocess_image (pw_pil w) b = Raise e ->
      predict cfg w req g = (error_500 e, g1, t1)) /\
  (forall b m x g1 t1,
      extract_image (pw_b64decode w) req = Ok (inr b) ->
      DEMO_MODE g = false ->
      load_model cfg (pw_loader w) g = (Ok (Some m), g1, t1) ->
      preprocess_image (pw_pil w) b = Ok x ->
      model_predict m x = Raise e ->
      predict cfg w req g = (error_500 e, g1, (t1 ++ [EvPredict m])%list)).
Proof.
  repeat split.
  - intros g' t H. rewrite (predict_of_body _ _ _ _ _ _ _ H). reflexivity.
  - intros He.
    rewrite (predict_of_body _ _ _ _ _ _ _ (predict_body_extract_raise cfg w req g e He)).
    reflexivity.
  - intros b g1 t1 He Hd Hl.
    rewrite (predict_of_body _ _ _ _ _ _ _ (predict_body_real cfg w req g g1 b _ t1 He Hd Hl)).
    reflexivity.
  - intros b lm g1 t1 He Hd Hl Hp.
    pose proof (predict_body_real cfg w req g g1 b _ t1 He Hd Hl) as H.
    cbv beta iota in H. rewrite Hp in H.
    rewrite (predict_of_body _ _ _ _ _ _ _ H). reflexivity.
  - intros b m x g1 t1 He Hd Hl Hp Hm.
    pose proof (predict_body_real cfg w req g g1 b _ t1 He Hd Hl) as H.
    cbv beta iota in H. rewrite Hp, Hm in H.
    rewrite (predict_of_body _ _ _ _ _ _ _ H). reflexivity.
Qed.

Lemma predict_reports_exceptions_witness :
  predict cfg0 pw_undecodable (json_image_request "") g_fresh
  = (error_500 (Exn UnidentifiedImageError "cannot identify image file"),
     with_model g_fresh m_softmax,
     [ EvPathExists (CONVERTED_MODEL_PATH cfg0); EvImportTfKeras;
       EvTfKerasLoad (MODEL_PATH cfg0) ]).
Proof.
  exact (proj1 (proj2 (proj2 (proj2
           (predict_reports_exceptions cfg0 pw_undecodable (json_image_request "")
              g_fresh (Exn UnidentifiedImageError "cannot identify image file")))))
           [] (Some m_softmax) _ _ eq_refl eq_refl eq_refl eq_refl).
Defined.

(* ================================================================= *)
(** ** Inference handler: requests without an image *)

Lemma extract_image_no_field (dec : string -> result (list byte)) (req : Request)
    (fs : list (string * FileStorage)) (data : pyval) :
  files req = Ok fs ->
  files_lookup "image" fs = None ->
  get_json req = Ok data ->
  truthy data = false \/ py_in "image" data = Ok false ->
  extract_image dec req
  = Ok (inl (jsonify [("error", PStr "No image provided")] 400)).
Proof.
  intros Hf Hl Hj Hno. unfold extract_image. rewrite Hf. simpl. rewrite Hl, Hj. simpl.
  destruct (truthy data) eqn:Ht.
  - destruct Hno as [Hno|Hno]; [discriminate|]. rewrite Hno. reflexivity.
  - reflexivity.
Qed.

Lemma extract_image_empty_filename (dec : string -> result (list byte))
    (req : Request) (fs : list (string * FileStorage)) (f : FileStorage) :
  files req = Ok fs ->
  files_lookup "image" fs = Some f ->
  filename f = "" ->
  extract_image dec req
  = Ok (inl (jsonify [("error", PStr "No image selected")] 400)).
Proof.
  intros Hf Hl Hn. unfold extract_image. rewrite Hf. simpl. rewrite Hl, Hn.
  reflexivity.
Qed.

(** C7 (as amended).  A request without an upload field named [image]
    whose JSON body, as [get_json] returns it, is empty or false ([None],
    an empty object) or is an object, array or string that does not
    contain ["image"], is answered with status 400 and the error
    ["No image provided"]; a request whose upload field [image] has an
    empty file name is answered with status 400 and the error
    ["No image selected"].  Neither touches the process state or the
    outside world. *)
Theorem predict_no_image (cfg : Config) (w : PredictWorld) (req : Request)
    (g : Globals) (fs : list (string * FileStorage)) :
  files req = Ok fs ->
  (forall data,
      files_lookup "image" fs = None ->
      get_json req = Ok data ->
      truthy data = false \/ py_in "image" data = Ok false ->
      predict cfg w req g
      = (jsonify [("error", PStr "No image provided")] 400, g, [])) /\
  (forall f,
      files_lookup "image" fs = Some f ->
      filename f = "" ->
      predict cfg w req g
      = (jsonify [("error", PStr "No image selected")] 400, g, [])).
Proof.
  intros Hf. split.
  - intros data Hl Hj Hno.
    pose proof (extract_image_no_field (pw_b64decode w) req fs data Hf Hl Hj Hno) as He.
    rewrite (predict_of_body _ _ _ _ _ _ _ (predict_body_early cfg w req g _ He)).
    reflexivity.
  - intros f Hl Hn.
    pose proof (extract_image_empty_filename (pw_b64decode w) req fs f Hf Hl Hn) as He.
    rewrite (predict_of_body _ _ _ _ _ _ _ (predict_body_early cfg w req g _ He)).
    reflexivity.
Qed.

Lemma predict_no_image_witness :
  predict cfg0 pw0 req_empty g_fresh
  = (jsonify [("error", PStr "No image provided")] 400, g_fresh, []) /\
  predict cfg0 pw0 req_empty_filename g_fresh
  = (jsonify [("error", PStr "No image selected")] 400, g_fresh, []).
Proof.
  split.
  - exact (proj1 (predict_no_image cfg0 pw0 req_empty g_fresh [] eq_refl)
             (PDict []) eq_refl eq_refl (or_introl eq_refl)).
  - exact (proj2 (predict_no_image cfg0 pw0 req_empty_filename g_fresh _ eq_refl)
             _ eq_refl eq_refl).
Defined.

(** C7, the claim as stated fails: an upload with an empty file name is
    answered with the error ["No image selected"], not
    ["No image provided"]; and a request without upload whose JSON body is
    the number 5, which has no image field either, is answered with
    status 500. *)
Lemma predict_no_image_other_answers :
  fst (fst (predict cfg0 pw0 req_empty_filename g_fresh))
  = jsonify [("error", PStr "No image selected")] 400 /\
  fst (fst (predict cfg0 pw0 req_empty_filename g_fresh))
  <> jsonify [("error", PStr "No image provided")] 400 /\
  fst (fst (predict cfg0 pw0 req_json_number g_fresh))
  = jsonify [("error", PStr "argument of type 'int' is not iterable")] 500.
Proof.
  split; [reflexivity|]. split; [|reflexivity].
  intros H. discriminate H.
Qed.

(* ================================================================= *)
(** ** Demo mode *)

Lemma predict_demo_frame (cfg : Config) (w : PredictWorld) (req : Request)
    (g : Globals) :
  DEMO_MODE g = true ->
  snd (fst (predict cfg w req g)) = g /\
  (snd (predict cfg w req g) = [] \/ snd (predict cfg w req g) = [EvSleep (1 # 2)]).
Proof.
  intros Hd.
  destruct (extract_image (pw_b64decode w) req) as [[r|b]|e] eqn:He.
  - rewrite (predict_of_body _ _ _ _ _ _ _ (predict_body_early cfg w req g r He)).
    simpl. auto.
  - pose proof (predict_body_demo cfg w req g b He Hd) as H.
    destruct (demo_predict (pw_rng w));
      rewrite (predict_of_body _ _ _ _ _ _ _ H); simpl; auto.
  - rewrite (predict_of_body _ _ _ _ _ _ _ (predict_body_extract_raise cfg w req g e He)).
    simpl. auto.
Qed.

(** C10.  In demo mode the loader returns [None], makes no call outside
    the process and leaves the process state as it is; a [/predict]
    request leaves the state as it is too and calls nothing but the
    half-second sleep; so when no model was cached, the health endpoint
    reports [model_loaded] false before and after. *)
Theorem demo_mode_skips_loading (cfg : Config) (w : LoaderWorld)
    (pw : PredictWorld) (req : Request) (g : Globals) :
  DEMO_MODE g = true ->
  load_model cfg w g = (Ok None, g, []) /\
  snd (fst (predict cfg pw req g)) = g /\
  (snd (predict cfg pw req g) = [] \/ snd (predict cfg pw req g) = [EvSleep (1 # 2)]) /\
  (model g = None ->
   dict_lookup "model_loaded" (health cfg g) = Some (PBool false) /\
   dict_lookup "model_loaded" (health cfg (snd (fst (predict cfg pw req g))))
   = Some (PBool false)).
Proof.
  intros Hd. destruct (predict_demo_frame cfg pw req g Hd) as [Hg Ht].
  split; [apply load_model_demo; exact Hd|].
  split; [exact Hg|]. split; [exact Ht|].
  intros Hm. rewrite Hg. unfold health. simpl. rewrite Hm. auto.
Qed.

Lemma demo_mode_skips_loading_witness :
  load_model cfg0 w_legacy_only g_demo = (Ok None, g_demo, []) /\
  snd (fst (predict cfg0 pw0 (json_image_request "TWFu") g_demo)) = g_demo /\
  dict_lookup "model_loaded"
    (health cfg0 (snd (fst (predict cfg0 pw0 (json_image_request "TWFu") g_demo))))
  = Some (PBool false).
Proof.
  destruct (demo_mode_skips_loading cfg0 w_legacy_only pw0
              (json_image_request "TWFu") g_demo eq_refl) as [H1 [H2 [_ H3]]].
  split; [exact H1|]. split; [exact H2|]. exact (proj2 (H3 eq_refl)).
Defined.

(* ================================================================= *)
(** ** Classification results *)

Lemma Qle_bool_false (x y : Q) : Qle_bool x y = false -> y < x.
Proof.
  intros H. apply Qnot_le_lt. intros Hle.
  apply Qle_bool_iff in Hle. congruence.
Qed.

(** The arg-max of four scores: its label, and the score it carries. *)
Lemma argmax_four (a b c d : Q) :
  exists (i : nat) (label : string) (p : Q),
    np_argmax [a; b; c; d] = Ok i /\
    list_get CLASS_LABELS i = Ok label /\
    list_get [a; b; c; d] i = Ok p /\
    dict_lookup label (four_percentages (a * 100) (b * 100) (c * 100) (d * 100))
    = Some (PFloat (p * 100)) /\
    a <= p /\ b <= p /\ c <= p /\ d <= p.
Proof.
  unfold np_argmax, argmax_from.
  destruct (Qle_bool b a) eqn:E1;
    [ destruct (Qle_bool c a) eqn:E2;
      [ destruct (Qle_bool d a) eqn:E3 | destruct (Qle_bool d c) eqn:E3 ]
    | destruct (Qle_bool c b) eqn:E2;
      [ destruct (Qle_bool d b) eqn:E3 | destruct (Qle_bool d c) eqn:E3 ] ];
    repeat match goal with
      | H : Qle_bool _ _ = true |- _ => apply Qle_bool_iff in H
      | H : Qle_bool _ _ = false |- _ => apply Qle_bool_false in H
      end;
    eexists; eexists; eexists;
    (split; [reflexivity|]); (split; [reflexivity|]); (split; [reflexivity|]);
    (split; [reflexivity|]); repeat split; lra.
Qed.

Lemma percentages_four (a b c d : Q) :
  percentages [a; b; c; d]
  = four_percentages (a * 100) (b * 100) (c * 100) (d * 100).
Proof. reflexivity. Qed.

Lemma percent_sum (a b c d : Q) :
  Qabs (Qsum [a; b; c; d] - 1) <= 1 # 10000 ->
  Qabs (a * 100 + b * 100 + c * 100 + d * 100 - 100) <= 1 # 100.
Proof.
  unfold Qsum. cbn [fold_right]. intros H.
  apply Qabs_Qle_condition in H. apply Qabs_Qle_condition.
  destruct H as [H1 H2]. split; lra.
Qed.

(** The response of the real-mode path for a batch whose first row holds
    four scores. *)
Lemma classification_response_four (a b c d : Q) (rest : list (list Q)) :
  Qabs (Qsum [a; b; c; d] - 1) <= 1 # 10000 ->
  exists resp,
    classification_response ([a; b; c; d] :: rest) = Ok resp /\
    status resp = 200%Z /\
    classification_ok true resp.
Proof.
  intros Hs.
  destruct (argmax_four a b c d) as [i [label [p [Hi [Hl [Hp [Hd Hle]]]]]]].
  unfold classification_response.
  change (list_get ([a; b; c; d] :: rest) 0) with (Ok (A := list Q) [a; b; c; d]).
  cbv beta iota delta [result_bind].
  rewrite Hi, Hl, Hp. eexists. split; [reflexivity|]. split; [reflexivity|].
  exists (a * 100), (b * 100), (c * 100), (d * 100), label, (p * 100), (py_round2 (p * 100)).
  rewrite percentages_four. simpl body.
  repeat split; try reflexivity; try lra.
  - apply percent_sum. exact Hs.
  - exact Hd.
Qed.

Lemma Qsum_four_unit (a b c d : Q) :
  Qsum [a; b; c; d] == 1 -> Qabs (Qsum [a; b; c; d] - 1) <= 1 # 10000.
Proof.
  unfold Qsum. cbn [fold_right]. intros H.
  apply Qabs_Qle_condition. split; lra.
Qed.

Lemma py_index_in_range (i : Z) (n : nat) :
  (0 <= i < Z.of_nat n)%Z -> py_index i n = Ok (Z.to_nat i).
Proof.
  intros [H0 H1]. unfold py_index.
  destruct (Z.leb_spec 0 i); [|lia]. destruct (Z.ltb_spec i (Z.of_nat n)); [|lia].
  reflexivity.
Qed.

(** Adding the boost at one of four positions and dividing by the new
    total gives four weights of sum 1 again. *)
Lemma boost_renormalize (i : nat) (x0 x1 x2 x3 : Q) :
  (i < 4)%nat ->
  Qsum [x0; x1; x2; x3] == 1 ->
  exists a b c d,
    map (fun p => p / Qsum (add_at i (1 # 2) [x0; x1; x2; x3]))
        (add_at i (1 # 2) [x0; x1; x2; x3]) = [a; b; c; d] /\
    Qsum [a; b; c; d] == 1.
Proof.
  intros Hi Hs. unfold Qsum in Hs. cbn [fold_right] in Hs.
  destruct i as [|[|[|[|i]]]]; [| | | |lia];
    cbv beta iota delta [add_at map]; do 4 eexists;
    (split; [reflexivity|]); unfold Qsum; cbn [fold_right]; field; lra.
Qed.

(** Under the contract of the generators, the demo predictor's vector
    holds four weights of sum 1, boosted or not. *)
Lemma demo_probs_unit (rng : Rng) :
  rng_contract rng ->
  exists a b c d, demo_probs rng = Ok [a; b; c; d] /\ Qsum [a; b; c; d] == 1.
Proof.
  unfold rng_contract, demo_probs. intros [Hlen [Hpos [Hsum Hidx]]].
  destruct (np_random_dirichlet rng dirichlet_alpha)
    as [|x0 [|x1 [|x2 [|x3 [|x4 l]]]]]; try discriminate Hlen.
  destruct (negb (Qle_bool (random_random rng) (3 # 10))).
  - rewrite py_index_in_range by (cbn [List.length]; lia).
    cbv beta iota delta [result_bind].
    destruct (boost_renormalize (Z.to_nat (random_randint rng 0 3)) x0 x1 x2 x3)
      as [a [b [c [d [Hmap Hs]]]]]; [lia|exact Hsum|].
    exists a, b, c, d. rewrite Hmap. split; [reflexivity|exact Hs].
  - exists x0, x1, x2, x3. split; [reflexivity|exact Hsum].
Qed.

Lemma demo_predict_ok (rng : Rng) :
  rng_contract rng ->
  exists result a b c d,
    demo_predict rng = Ok result /\
    demo_probs rng = Ok [a; b; c; d] /\
    dict_lookup "probabilities" result = Some (PDict (percentages [a; b; c; d])) /\
    classification_ok false
      (jsonify (("success", PBool true) :: ("demo_mode", PBool true) :: result) 200).
Proof.
  intros C. destruct (demo_probs_unit rng C) as [a [b [c [d [Hp Hs]]]]].
  destruct (argmax_four a b c d) as [i [label [p [Hi [Hl [Hg [Hd Hle]]]]]]].
  unfold demo_predict. rewrite Hp. cbv beta iota delta [result_bind].
  rewrite Hi, Hl, Hg.
  eexists. exists a, b, c, d. split; [reflexivity|]. split; [reflexivity|].
  split; [reflexivity|].
  exists (a * 100), (b * 100), (c * 100), (d * 100), label, (p * 100), (p * 100).
  rewrite percentages_four. simpl body.
  repeat split; try reflexivity; try lra.
  - apply percent_sum. apply Qsum_four_unit. exact Hs.
  - exact Hd.
Qed.

(** C1 (as amended).  For a request whose image bytes were extracted:
    in demo mode, under the contract of the random generators, and in
    real mode, when the model returns a row of four scores whose sum is 1
    within 0.0001, the handler answers with status 200, four percentages
    of sum 100 within 0.01 (the scores times 100, not rounded), the label
    of a largest percentage as prediction, and that percentage as
    confidence, rounded to two decimal places in real mode only. *)
Theorem predict_classification (cfg : Config) (w : PredictWorld) (req : Request)
    (g : Globals) (bytes : list byte) :
  extract_image (pw_b64decode w) req = Ok (inr bytes) ->
  (DEMO_MODE g = true ->
   rng_contract (pw_rng w) ->
   exists resp a b c d,
     predict cfg w req g = (resp, g, [EvSleep (1 # 2)]) /\
     status resp = 200%Z /\
     demo_probs (pw_rng w) = Ok [a; b; c; d] /\
     dict_lookup "probabilities" (body resp) = Some (PDict (percentages [a; b; c; d])) /\
     classification_ok false resp) /\
  (forall m g1 t1 x a b c d rest,
      DEMO_MODE g = false ->
      load_model cfg (pw_loader w) g = (Ok (Some m), g1, t1) ->
      preprocess_image (pw_pil w) bytes = Ok x ->
      model_predict m x = Ok ([a; b; c; d] :: rest) ->
      Qabs (Qsum [a; b; c; d] - 1) <= 1 # 10000 ->
      exists resp,
        predict cfg w req g = (resp, g1, (t1 ++ [EvPredict m])%list) /\
        status resp = 200%Z /\
        dict_lookup "probabilities" (body resp) = Some (PDict (percentages [a; b; c; d])) /\
        classification_ok true resp).
Proof.
  intros He. split.
  - intros Hd C.
    destruct (demo_predict_ok (pw_rng w) C) as [result [a [b [c [d [Hr [Hp [Hl Hok]]]]]]]].
    pose proof (predict_body_demo cfg w req g bytes He Hd) as H. rewrite Hr in H.
    eexists. exists a, b, c, d.
    split; [rewrite (predict_of_body _ _ _ _ _ _ _ H); reflexivity|].
    split; [reflexivity|]. split; [exact Hp|]. split; [|exact Hok].
    simpl. exact Hl.
  - intros m g1 t1 x a b c d rest Hd Hl Hx Hm Hs.
    destruct (classification_response_four a b c d rest Hs) as [resp [Hr [Hst Hok]]].
    pose proof (predict_body_real cfg w req g g1 bytes _ t1 He Hd Hl) as H.
    cbv beta iota in H. rewrite Hx, Hm, Hr in H.
    exists resp. split; [rewrite (predict_of_body _ _ _ _ _ _ _ H); reflexivity|].
    split; [exact Hst|]. split; [|exact Hok].
    unfold classification_response in Hr.
    destruct (argmax_four a b c d) as [i [label [p [Hi [Hl' [Hp _]]]]]].
    change (list_get ([a; b; c; d] :: rest) 0) with (Ok (A := list Q) [a; b; c; d]) in Hr.
    cbv beta iota delta [result_bind] in Hr. rewrite Hi, Hl', Hp in Hr.
    inversion Hr. reflexivity.
Qed.

Lemma rng0_contract : rng_contract rng0.
Proof.
  unfold rng_contract. simpl. repeat split.
  - repeat constructor; discriminate.
  - lia.
  - lia.
Qed.

Lemma predict_classification_witness :
  (exists resp,
      predict cfg0 pw0 (json_image_request "TWFu") g_demo
      = (resp, g_demo, [EvSleep (1 # 2)]) /\
      classification_ok false resp) /\
  (exists resp,
      fst (fst (predict cfg0 pw0 (json_image_request "TWFu") g_fresh)) = resp /\
      classification_ok true resp).
Proof.
  pose proof (predict_classification cfg0 pw0 (json_image_request "TWFu")) as P.
  split.
  - destruct (proj1 (P g_demo png_magic eq_refl) eq_refl rng0_contract)
      as [resp [a [b [c [d [H1 [_ [_ [_ H2]]]]]]]]].
    exists resp. split; [exact H1|exact H2].
  - destruct (proj2 (P g_fresh png_magic eq_refl)
                m_softmax (with_model g_fresh m_softmax)
                [ EvPathExists (CONVERTED_MODEL_PATH cfg0); EvImportTfKeras;
                  EvTfKerasLoad (MODEL_PATH cfg0) ]
                _ (1 # 10) (7 # 10) (1 # 10) (1 # 10) []
                eq_refl eq_refl eq_refl eq_refl)
      as [resp [H1 [_ [_ H2]]]].
    + vm_compute. discriminate.
    + exists resp. split; [rewrite H1; reflexivity|exact H2].
Defined.

Lemma predict_sigmoid_response :
  predict cfg0 pw_sigmoid (json_image_request "TWFu") g_fresh
  = (jsonify [ ("success", PBool true);
               ("prediction", PStr "Glioma");
               ("confidence", PFloat (py_round2 ((1 # 2) * 100)));
               ("probabilities",
                PDict (four_percentages ((1 # 2) * 100) ((1 # 2) * 100)
                                        ((1 # 2) * 100) ((1 # 2) * 100))) ] 200,
     with_model g_fresh m_sigmoid,
     [ EvPathExists (CONVERTED_MODEL_PATH cfg0); EvImportTfKeras;
       EvTfKerasLoad (CONVERTED_MODEL_PATH cfg0); EvPredict m_sigmoid ]).
Proof. reflexivity. Qed.

(** C1, the claim as stated fails: in real mode the handler passes on
    whatever scores the model returns.  For a model with four scores of
    0.5 each, the answer has status 200 and four percentages of 50, whose
    sum is 200. *)
Lemma predict_percentages_sum_200 :
  let resp := fst (fst (predict cfg0 pw_sigmoid (json_image_request "TWFu") g_fresh)) in
  status resp = 200%Z /\
  dict_lookup "probabilities" (body resp)
  = Some (PDict (four_percentages ((1 # 2) * 100) ((1 # 2) * 100)
                                  ((1 # 2) * 100) ((1 # 2) * 100))) /\
  (1 # 2) * 100 + (1 # 2) * 100 + (1 # 2) * 100 + (1 # 2) * 100 == 200 /\
  ~ classification_ok true resp.
Proof.
  cbv zeta. rewrite predict_sigmoid_response. cbn [fst].
  split; [reflexivity|]. split; [reflexivity|]. split; [reflexivity|].
  intros [a [b [c [d [label [top [conf [Hp [Hs _]]]]]]]]].
  cbn in Hp. injection Hp as Ha Hb Hc Hd. subst a b c d.
  vm_compute in Hs. apply Hs. reflexivity.
Qed.

(* ================================================================= *)
(** ** Chat proxy *)

Ltac split_binds H :=
  repeat match type of H with
    | context [result_bind ?r _] => destruct r; cbn [result_bind] in H
    end.

Lemma chat_cases (cfg : Config) (w : ChatWorld) (req : Request) (g : Globals) :
  chat cfg w req g
  = match trimmed_message req with
    | Raise e => (chat_except e, g, [])
    | Ok um =>
        if negb (truthy um) then
          (jsonify [("error", PStr "No message provided")] 400, g, [])
        else if negb (truthy (PStr (OPENROUTER_API_KEY cfg))) then
          (not_configured_response, g, [])
        else
          (match requests_post w OPENROUTER_API_URL (chat_headers cfg)
                               (chat_payload um) 30 with
           | Raise e => chat_except e
           | Ok r => match chat_reply w r with
                     | Ok resp => resp
                     | Raise e => chat_except e
                     end
           end, g, [EvHttpPost OPENROUTER_API_URL 30])
    end.
Proof.
  unfold chat, chat_body, trimmed_message. unfold_eff.
  destruct (get_json req) as [data|e]; cbn [result_bind]; [|reflexivity].
  destruct (py_get data "message" (PStr "")) as [m|e]; cbn [result_bind]; [|reflexivity].
  destruct (py_strip m) as [um|e]; [|reflexivity].
  destruct (negb (truthy um)); [reflexivity|].
  destruct (negb (truthy (PStr (OPENROUTER_API_KEY cfg)))); [reflexivity|].
  destruct (requests_post w OPENROUTER_API_URL (chat_headers cfg) (chat_payload um) 30)
    as [r|e]; [|reflexivity].
  destruct (chat_reply w r); reflexivity.
Qed.

Lemma trimmed_message_str (req : Request) (um : pyval) :
  trimmed_message req = Ok um -> exists s, um = PStr s.
Proof.
  unfold trimmed_message. intros H. split_binds H; try discriminate.
  destruct a0; try discriminate. inversion H. eauto.
Qed.

Lemma chat_except_answer (e : exn) :
  status (chat_except e) = 200%Z /\
  has_response_text (chat_except e) /\
  dict_lookup "success" (body (chat_except e)) = None /\
  (isinstance_Timeout e = true -> chat_except e = timeout_response).
Proof.
  unfold chat_except, has_response_text.
  destruct (isinstance_Timeout e); simpl; repeat split; eauto; discriminate.
Qed.

Lemma chat_reply_answer (w : ChatWorld) (r : HttpResponse) (resp : Response) :
  chat_reply w r = Ok resp ->
  status resp = 200%Z /\
  (dict_lookup "success" (body resp) = None -> has_response_text resp) /\
  (status_code r <> 200%Z ->
   has_response_text resp /\ dict_lookup "success" (body resp) = None).
Proof.
  unfold chat_reply, has_response_text. intros H.
  destruct (Z.eqb_spec (status_code r) 200) as [E|E]; cbn [negb] in H.
  - split_binds H; try discriminate. inversion H; subst. simpl.
    split; [reflexivity|]. split.
    + intros Hs. discriminate Hs.
    + intros Hc. contradiction.
  - split_binds H; try discriminate. inversion H; subst. simpl.
    split; [reflexivity|]. split.
    + intros _. eauto.
    + intros _. split; [eauto|reflexivity].
Qed.

Lemma not_configured_answer :
  status not_configured_response = 200%Z /\
  exists s,
    dict_lookup "response" (body not_configured_response) = Some (PStr s) /\
    substring_in "not configured" s = true.
Proof. split; [reflexivity|]. eexists. split; reflexivity. Qed.

(** C8.  [chat] answers with status 400 exactly when the trimmed message
    is the empty string, and with status 200 otherwise.  Every answer
    that is not a success carries a [response] string: when no credential
    is configured, the canned text containing ["not configured"], with no
    outside call; when the outside call (made once, with a timeout of 30
    seconds) times out or raises, the canned text of the matching
    [except] clause; when the service answers with a status other than
    200, the text built from its error; when anything else raises (the
    request has no usable message, the reply cannot be read), the generic
    text. *)
Theorem chat_status_codes (cfg : Config) (w : ChatWorld) (req : Request)
    (g : Globals) :
  let resp := fst (fst (chat cfg w req g)) in
  let t := snd (chat cfg w req g) in
  snd (fst (chat cfg w req g)) = g /\
  (status resp = 400%Z <-> trimmed_message req = Ok (PStr "")) /\
  (status resp <> 400%Z -> status resp = 200%Z) /\
  (status resp = 200%Z ->
   dict_lookup "success" (body resp) = None -> has_response_text resp) /\
  (t = [] \/ t = [EvHttpPost OPENROUTER_API_URL 30]) /\
  (forall e, trimmed_message req = Raise e -> resp = chat_except e /\ t = []) /\
  (forall s,
      trimmed_message req = Ok (PStr s) -> s <> "" ->
      (OPENROUTER_API_KEY cfg = "" -> resp = not_configured_response /\ t = []) /\
      (OPENROUTER_API_KEY cfg <> "" ->
       t = [EvHttpPost OPENROUTER_API_URL 30] /\
       (forall e, chat_post cfg w s = Raise e ->
                  resp = chat_except e /\
                  (isinstance_Timeout e = true -> resp = timeout_response)) /\
       (forall r, chat_post cfg w s = Ok r -> status_code r <> 200%Z ->
                  status resp = 200%Z /\ has_response_text resp /\
                  dict_lookup "success" (body resp) = None))) /\
  (status not_configured_response = 200%Z /\
   exists s,
     dict_lookup "response" (body not_configured_response) = Some (PStr s) /\
     substring_in "not configured" s = true).
Proof.
  cbv zeta. rewrite chat_cases.
  destruct (trimmed_message req) as [um|e0] eqn:Htm.
  2:{ destruct (chat_except_answer e0) as [Hs [Hr [Hn Ht]]]. cbn [fst snd].
      split; [reflexivity|]. split.
      { split; intros H; [rewrite Hs in H|]; discriminate. }
      split; [intros _; exact Hs|]. split; [intros _ _; exact Hr|].
      split; [left; reflexivity|]. split.
      { intros e He. inversion He; subst. split; reflexivity. }
      split; [intros s Hs'; discriminate|]. exact not_configured_answer. }
  destruct (trimmed_message_str req um Htm) as [s0 Hum]. subst um.
  cbn [truthy]. rewrite negb_involutive.
  destruct (String.eqb_spec s0 "") as [Hs0|Hs0].
  - subst s0. cbn [fst snd].
    split; [reflexivity|]. split; [split; reflexivity|].
    split; [intros H; exfalso; apply H; reflexivity|].
    split; [intros H; discriminate H|]. split; [left; reflexivity|].
    split; [intros e He; discriminate|].
    split; [|exact not_configured_answer].
    intros s Hs Hne. inversion Hs; subst. contradiction.
  - destruct (String.eqb_spec (OPENROUTER_API_KEY cfg) "") as [Hk|Hk]; cbn [fst snd].
    + split; [reflexivity|]. split.
      { split; intros H; [discriminate H|]. inversion H; subst. contradiction. }
      split; [intros _; reflexivity|].
      split; [intros _ _; eexists; reflexivity|]. split; [left; reflexivity|].
      split; [intros e He; discriminate|].
      split; [|exact not_configured_answer].
      intros s Hs Hne. split; [intros _; split; reflexivity|].
      intros Hk'. contradiction.
    + assert (Hst : forall resp : Response,
                 status resp = 200%Z ->
                 (status resp = 400%Z <-> Ok (PStr s0) = Ok (PStr ""))).
      { intros resp H2. split; intros H; [rewrite H2 in H; discriminate|].
        inversion H; subst. contradiction. }
      unfold chat_post.
      destruct (requests_post w OPENROUTER_API_URL (chat_headers cfg)
                              (chat_payload (PStr s0)) 30) as [r|e] eqn:Hp.
      * destruct (chat_reply w r) as [resp|e] eqn:Hr.
        -- destruct (chat_reply_answer w r resp Hr) as [H2 [Hn Hu]].
           split; [reflexivity|]. split; [apply Hst; exact H2|].
           split; [intros _; exact H2|]. split; [intros _; exact Hn|].
           split; [right; reflexivity|]. split; [intros e He; discriminate|].
           split; [|exact not_configured_answer].
           intros s Hs Hne. inversion Hs; subst s. split; [intros Hk'; contradiction|].
           intros _. split; [reflexivity|]. rewrite Hp. split.
           ++ intros e He. discriminate.
           ++ intros r' Hr' Hc. inversion Hr'; subst r'.
              destruct (Hu Hc) as [Ha Hb]. repeat split; assumption.
        -- destruct (chat_except_answer e) as [H2 [Hrt [Hn Ht]]].
           split; [reflexivity|]. split; [apply Hst; exact H2|].
           split; [intros _; exact H2|]. split; [intros _ _; exact Hrt|].
           split; [right; reflexivity|]. split; [intros e' He; discriminate|].
           split; [|exact not_configured_answer].
           intros s Hs Hne. inversion Hs; subst s. split; [intros Hk'; contradiction|].
           intros _. split; [reflexivity|]. rewrite Hp. split.
           ++ intros e' He. discriminate.
           ++ intros r' Hr' Hc. inversion Hr'; subst r'.
              repeat split; assumption.
      * destruct (chat_except_answer e) as [H2 [Hrt [Hn Ht]]].
        split; [reflexivity|]. split; [apply Hst; exact H2|].
        split; [intros _; exact H2|]. split; [intros _ _; exact Hrt|].
        split; [right; reflexivity|]. split; [intros e' He; discriminate|].
        split; [|exact not_configured_answer].
        intros s Hs Hne. inversion Hs; subst s. split; [intros Hk'; contradiction|].
        intros _. split; [reflexivity|]. rewrite Hp. split.
        -- intros e' He. inversion He; subst e'. split; [reflexivity|exact Ht].
        -- intros r' Hr'. discriminate.
Qed.

Lemma chat_status_codes_witness :
  status (fst (fst (chat cfg0 cw_timeout (req_message "  ") g_fresh))) = 400%Z /\
  fst (fst (chat cfg0 cw_timeout (req_message "hello") g_fresh))
  = not_configured_response /\
  snd (chat cfg0 cw_timeout (req_message "hello") g_fresh) = [] /\
  fst (fst (chat cfg_key cw_timeout (req_message "hello") g_fresh))
  = timeout_response /\
  status (fst (fst (chat cfg_key cw_rate_limited (req_message "hello") g_fresh)))
  = 200%Z.
Proof.
  pose proof (chat_status_codes cfg0 cw_timeout (req_message "  ") g_fresh) as A.
  pose proof (chat_status_codes cfg0 cw_timeout (req_message "hello") g_fresh) as B.
  pose proof (chat_status_codes cfg_key cw_timeout (req_message "hello") g_fresh) as C.
  pose proof (chat_status_codes cfg_key cw_rate_limited (req_message "hello") g_fresh) as D.
  cbv zeta in A, B, C, D.
  destruct A as [_ [A _]].
  destruct B as [_ [_ [_ [_ [_ [_ [B _]]]]]]].
  destruct C as [_ [_ [_ [_ [_ [_ [C _]]]]]]].
  destruct D as [_ [_ [_ [_ [_ [_ [D _]]]]]]].
  assert (Hne : "hello" <> "") by discriminate.
  destruct (proj1 (B "hello" eq_refl Hne) eq_refl) as [B1 B2].
  assert (Hk : OPENROUTER_API_KEY cfg_key <> "") by discriminate.
  destruct (proj2 (C "hello" eq_refl Hne) Hk) as [_ [C1 _]].
  destruct (proj2 (D "hello" eq_refl Hne) Hk) as [_ [_ D1]].
  split; [exact (proj2 A eq_refl)|].
  split; [exact B1|]. split; [exact B2|].
  split; [exact (proj2 (C1 _ eq_refl) eq_refl)|].
  refine (proj1 (D1 _ eq_refl _)). discriminate.
Defined.

(* ================================================================= *)
(** ** Data URLs *)

Lemma string_app_assoc (a b c : string) : (a ++ b) ++ c = a ++ (b ++ c).
Proof. induction a as [|x a IH]; simpl; [reflexivity|]. rewrite IH. reflexivity. Qed.

Lemma has_char_app (sep : ascii) (a b : string) :
  has_char sep (a ++ b) = has_char sep a || has_char sep b.
Proof.
  induction a as [|x a IH]; simpl; [reflexivity|].
  rewrite IH. apply orb_assoc.
Qed.

Lemma substring_in_char (sep : ascii) (s : string) :
  substring_in (String sep EmptyString) s = has_char sep s.
Proof.
  induction s as [|c s IH]; [reflexivity|].
  cbn [substring_in is_prefix has_char]. rewrite IH.
  rewrite Ascii.eqb_sym.
  destruct s; rewrite andb_true_r; reflexivity.
Qed.

Lemma split_on_no_sep (sep : ascii) (s : string) :
  has_char sep s = false -> split_on sep s = [s].
Proof.
  induction s as [|c s IH]; [reflexivity|].
  cbn [has_char split_on]. intros H. apply orb_false_iff in H. destruct H as [Hc Hs].
  rewrite Hc, (IH Hs). reflexivity.
Qed.

Lemma split_on_first (sep : ascii) (p rest : string) :
  has_char sep p = false ->
  split_on sep (p ++ String sep rest) = p :: split_on sep rest.
Proof.
  induction p as [|c p IH]; intros H.
  - cbn [append split_on]. rewrite Ascii.eqb_refl. reflexivity.
  - cbn [has_char] in H. apply orb_false_iff in H. destruct H as [Hc Hp].
    cbn [append split_on]. rewrite Hc, (IH Hp). reflexivity.
Qed.

Lemma b64_char_not_comma (n : N) : (b64_char n =? ",")%char = false.
Proof.
  unfold b64_char. generalize (N.to_nat n). intros k.
  do 64 (destruct k as [|k]; [reflexivity|]). reflexivity.
Qed.

Lemma b64encode_no_comma_upto (n : nat) (bs : list byte) :
  (List.length bs <= n)%nat -> has_char "," (b64encode bs) = false.
Proof.
  revert bs. induction n as [|n IH]; intros bs Hn.
  - destruct bs; [reflexivity|simpl in Hn; lia].
  - destruct bs as [|a [|b [|c rest]]]; cbn [b64encode has_char].
    + reflexivity.
    + rewrite !b64_char_not_comma. reflexivity.
    + rewrite !b64_char_not_comma. reflexivity.
    + rewrite !b64_char_not_comma. cbn [orb]. apply IH. simpl in Hn. lia.
Qed.

(** Base64 text holds no comma. *)
Lemma b64encode_no_comma (bs : list byte) : has_char "," (b64encode bs) = false.
Proof. apply (b64encode_no_comma_upto (List.length bs)). lia. Qed.

Lemma extract_image_json_text (dec : string -> result (list byte)) (s : string) :
  extract_image dec (json_image_request s)
  = (if has_char "," s
     then (part <~ list_get (split_on "," s) 1 ;;
           image_bytes <~ dec part ;;
           Ok (inr image_bytes))
     else (image_bytes <~ dec s ;; Ok (inr image_bytes)))%result.
Proof.
  unfold extract_image, json_image_request. cbn.
  change (substring_in "," s) with (substring_in (String "," EmptyString) s).
  rewrite substring_in_char.
  destruct (has_char "," s); [|reflexivity].
  destruct (list_get (split_on "," s) 1); reflexivity.
Qed.

Lemma data_url_split (mediatype payload : string) :
  has_char "," mediatype = false ->
  has_char "," (data_url mediatype payload) = true /\
  split_on "," (data_url mediatype payload)
  = ("data:" ++ mediatype ++ ";base64") :: split_on "," payload.
Proof.
  intros Hm.
  assert (E : data_url mediatype payload
              = ("data:" ++ mediatype ++ ";base64") ++ String "," payload).
  { unfold data_url. rewrite !string_app_assoc.
    change (";base64," ++ payload) with (";base64" ++ String "," payload).
    reflexivity. }
  assert (Hp : has_char "," ("data:" ++ mediatype ++ ";base64") = false).
  { rewrite !has_char_app, Hm. reflexivity. }
  rewrite E. split.
  - rewrite has_char_app, Hp. cbn. reflexivity.
  - apply split_on_first. exact Hp.
Qed.

(** C9.  For every byte sequence and every media type free of commas, a
    JSON request whose image field is the data URL
    ["data:<type>;base64,<payload>"] built on the base64 text of the
    bytes yields the same extraction outcome as the request whose image
    field is the bare base64 text: in both cases the decoder receives the
    bare payload; so [predict] answers both requests alike. *)
Theorem data_url_prefix_stripped (dec : string -> result (list byte))
    (mediatype : string) (bs : list byte) :
  has_char "," mediatype = false ->
  extract_image dec (json_image_request (data_url mediatype (b64encode bs)))
  = extract_image dec (json_image_request (b64encode bs)) /\
  extract_image dec (json_image_request (b64encode bs))
  = (image_bytes <~ dec (b64encode bs) ;; Ok (inr image_bytes))%result /\
  (forall cfg w g,
      pw_b64decode w = dec ->
      predict cfg w (json_image_request (data_url mediatype (b64encode bs))) g
      = predict cfg w (json_image_request (b64encode bs)) g).
Proof.
  intros Hm.
  destruct (data_url_split mediatype (b64encode bs) Hm) as [Hc Hs].
  assert (E1 : extract_image dec (json_image_request (b64encode bs))
               = (image_bytes <~ dec (b64encode bs) ;; Ok (inr image_bytes))%result).
  { rewrite extract_image_json_text, b64encode_no_comma. reflexivity. }
  assert (E2 : extract_image dec (json_image_request (data_url mediatype (b64encode bs)))
               = extract_image dec (json_image_request (b64encode bs))).
  { rewrite E1, extract_image_json_text, Hc, Hs.
    rewrite (split_on_no_sep _ _ (b64encode_no_comma bs)). reflexivity. }
  split; [exact E2|]. split; [exact E1|].
  intros cfg w g Hw. subst dec. unfold predict, predict_body. unfold_eff.
  rewrite E2. reflexivity.
Qed.

Lemma data_url_prefix_stripped_witness :
  extract_image (fun _ => Ok png_magic)
    (json_image_request (data_url "image/png" (b64encode png_magic)))
  = extract_image (fun _ => Ok png_magic)
      (json_image_request (b64encode png_magic)).
Proof.
  exact (proj1 (data_url_prefix_stripped (fun _ => Ok png_magic) "image/png"
                  png_magic eq_refl)).
Defined.

(* ================================================================= *)
(** ** The cached handle over the life of the process *)

Lemma predict_loaded_frame (cfg : Config) (w : PredictWorld) (req : Request)
    (g : Globals) (m : Model) :
  DEMO_MODE g = false -> model g = Some m ->
  snd (fst (predict cfg w req g)) = g /\
  no_loader_event (snd (predict cfg w req g)).
Proof.
  intros Hd Hm. unfold no_loader_event.
  destruct (extract_image (pw_b64decode w) req) as [[r|b]|e] eqn:He.
  - rewrite (predict_of_body _ _ _ _ _ _ _ (predict_body_early cfg w req g r He)).
    simpl. auto.
  - pose proof (predict_body_real cfg w req g g b _ []
                  He Hd (load_model_hit cfg (pw_loader w) g m Hd Hm)) as H.
    cbv beta iota in H.
    destruct (preprocess_image (pw_pil w) b) as [x|e];
      rewrite (predict_of_body _ _ _ _ _ _ _ H); simpl; auto.
  - rewrite (predict_of_body _ _ _ _ _ _ _ (predict_body_extract_raise cfg w req g e He)).
    simpl. auto.
Qed.

Lemma chat_frame (cfg : Config) (w : ChatWorld) (req : Request) (g : Globals) :
  snd (fst (chat cfg w req g)) = g /\ no_loader_event (snd (chat cfg w req g)).
Proof.
  rewrite chat_cases. unfold no_loader_event.
  destruct (trimmed_message req) as [um|e]; [|simpl; auto].
  destruct (negb (truthy um)); [simpl; auto|].
  destruct (negb (truthy (PStr (OPENROUTER_API_KEY cfg)))); simpl; auto.
Qed.

(** C4.  Once a call of the loader has returned a handle, every later
    call returns that same handle, leaves the process state as it is and
    makes no call outside the process (no file-system check, no import,
    no load), whatever the outside world has become; and the [/predict]
    and [/chat] requests served in between leave the cached handle in
    place and trigger no load either. *)
Theorem load_model_cached (cfg : Config) (w : LoaderWorld) (g g' : Globals)
    (r : option Model) (t : list event) :
  load_model cfg w g = (Ok r, g', t) ->
  (forall ws : list LoaderWorld,
      load_model_calls cfg ws g' = (map (fun _ => (Ok r, [])) ws, g')) /\
  (forall pw req,
      snd (fst (predict cfg pw req g')) = g' /\
      no_loader_event (snd (predict cfg pw req g'))) /\
  (forall cw req,
      snd (fst (chat cfg cw req g')) = g' /\
      no_loader_event (snd (chat cfg cw req g'))).
Proof.
  intros H. split; [|split].
  - intros ws. induction ws as [|w' ws IH]; simpl.
    + reflexivity.
    + rewrite (load_model_again cfg w w' g g' r t H), IH. reflexivity.
  - intros pw req.
    destruct (load_model_ok_state cfg w g g' r t H) as [[Hd _]|[Hd [Hm Hr]]].
    + destruct (predict_demo_frame cfg pw req g' Hd) as [Hg [Ht|Ht]];
        (split; [exact Hg|]); unfold no_loader_event; rewrite Ht; reflexivity.
    + destruct r as [m|]; [|congruence].
      exact (predict_loaded_frame cfg pw req g' m Hd Hm).
  - intros cw req. apply chat_frame.
Qed.

Lemma load_model_cached_witness :
  load_model_calls cfg0 [w_nothing; w_h5py_missing]
    (with_model g_fresh m_softmax)
  = ([(Ok (Some m_softmax), []); (Ok (Some m_softmax), [])],
     with_model g_fresh m_softmax).
Proof.
  exact (proj1 (load_model_cached cfg0 w_legacy_only g_fresh
                  (with_model g_fresh m_softmax) (Some m_softmax)
                  [ EvPathExists (CONVERTED_MODEL_PATH cfg0); EvImportTfKeras;
                    EvTfKerasLoad (MODEL_PATH cfg0) ]
                  eq_refl)
               [w_nothing; w_h5py_missing]).
Defined.

(* ================================================================= *)
(** ** Demo predictor: what is computed from the draws *)

Lemma dirichlet_alpha_value : dirichlet_alpha = [2; 2; 2; 2].
Proof. reflexivity. Qed.


(* ================================================================= *)
(** ** Demo predictor: how often the boost is applied *)

Lemma random_outcomes_pow : random_outcomes = (2 ^ 53)%N.
Proof. reflexivity. Qed.








(* ================================================================= *)
(** * Further properties *)

(* ================================================================= *)
(** ** Module initialisation *)

Lemma lower_char_t (c : ascii) : (py_lower_char c =? "t")%char = one_of "t" "T" c.
Proof. destruct c as [[] [] [] [] [] [] [] []]; reflexivity. Qed.

Lemma lower_char_r (c : ascii) : (py_lower_char c =? "r")%char = one_of "r" "R" c.
Proof. destruct c as [[] [] [] [] [] [] [] []]; reflexivity. Qed.

Lemma lower_char_u (c : ascii) : (py_lower_char c =? "u")%char = one_of "u" "U" c.
Proof. destruct c as [[] [] [] [] [] [] [] []]; reflexivity. Qed.

Lemma lower_char_e (c : ascii) : (py_lower_char c =? "e")%char = one_of "e" "E" c.
Proof. destruct c as [[] [] [] [] [] [] [] []]; reflexivity. Qed.

Lemma lower_is_true (s : string) :
  (py_lower s =? "true") = is_casing_of_true s.
Proof.
  destruct s as [|a [|b [|c [|d [|e s]]]]]; try reflexivity.
  - cbn [py_lower String.eqb]. destruct (py_lower_char a =? "t")%char; reflexivity.
  - cbn [py_lower String.eqb].
    destruct (py_lower_char a =? "t")%char; [|reflexivity].
    destruct (py_lower_char b =? "r")%char; reflexivity.
  - cbn [py_lower String.eqb].
    destruct (py_lower_char a =? "t")%char; [|reflexivity].
    destruct (py_lower_char b =? "r")%char; [|reflexivity].
    destruct (py_lower_char c =? "u")%char; reflexivity.
  - cbn [py_lower String.eqb is_casing_of_true].
    rewrite lower_char_t, lower_char_r, lower_char_u, lower_char_e.
    destruct (one_of "t" "T" a), (one_of "r" "R" b), (one_of "u" "U" c),
      (one_of "e" "E" d); reflexivity.
  - cbn [py_lower String.eqb is_casing_of_true].
    destruct (py_lower_char a =? "t")%char; [|reflexivity].
    destruct (py_lower_char b =? "r")%char; [|reflexivity].
    destruct (py_lower_char c =? "u")%char; [|reflexivity].
    destruct (py_lower_char d =? "e")%char; reflexivity.
Qed.

Lemma demo_flag_requested (w : InitWorld) :
  (py_lower (environ_get w "DEMO_MODE" "false") =? "true") = demo_requested w.
Proof.
  rewrite lower_is_true. unfold environ_get, demo_requested.
  destruct (environ w "DEMO_MODE"); reflexivity.
Qed.

(** X1.  Demo mode is requested by the environment exactly when the
    variable [DEMO_MODE] is set to one of the sixteen upper and lower
    case spellings of [true]: then the module comes up in demo mode
    without importing tensorflow; when the variable is unset or holds
    anything else, the module goes on to import tensorflow. *)
Theorem module_init_demo_toggle (w : InitWorld) :
  (demo_requested w = true ->
   module_init w
   = (Ok (demo_module_state w), [IevSetEnv "TF_CPP_MIN_LOG_LEVEL" "2"])) /\
  (demo_requested w = false ->
   exists t,
     snd (module_init w)
     = IevSetEnv "TF_CPP_MIN_LOG_LEVEL" "2" :: IevImportTensorflow :: t).
Proof.
  unfold module_init, tensorflow_setup. rewrite demo_flag_requested.
  split; intros H; rewrite H.
  - reflexivity.
  - cbn [negb]. destruct (import_tensorflow w) as [u|e].
    + destruct (gpu_setup w) as [[e|] t]; [destruct (isinstance_ImportError e)|];
        cbn [snd]; eauto.
    + destruct (isinstance_ImportError e); cbn [snd]; eauto.
Qed.

Lemma module_init_demo_toggle_witness :
  module_init iw_demo
  = (Ok (demo_module_state iw_demo), [IevSetEnv "TF_CPP_MIN_LOG_LEVEL" "2"]) /\
  exists t,
    snd (module_init iw_two_gpus)
    = IevSetEnv "TF_CPP_MIN_LOG_LEVEL" "2" :: IevImportTensorflow :: t.
Proof.
  split.
  - exact (proj1 (module_init_demo_toggle iw_demo) eq_refl).
  - exact (proj2 (module_init_demo_toggle iw_two_gpus) eq_refl).
Defined.

(** X2.  Whenever the import of the module completes, [TF_AVAILABLE] is
    the negation of [DEMO_MODE], and real mode means that tensorflow was
    imported; an [ImportError] from the import of tensorflow switches the
    module to demo mode; the import of the module is aborted only by an
    exception that is not an [ImportError]. *)
Theorem module_init_outcomes (w : InitWorld) :
  (forall ms t,
      module_init w = (Ok ms, t) ->
      ms_TF_AVAILABLE ms = negb (ms_DEMO_MODE ms) /\
      ms_OPENROUTER_API_KEY ms = environ_get w "OPENROUTER_API_KEY" "" /\
      (ms_DEMO_MODE ms = false ->
       demo_requested w = false /\ exists u, import_tensorflow w = Ok u)) /\
  (forall e,
      import_tensorflow w = Raise e -> isinstance_ImportError e = true ->
      demo_requested w = false ->
      module_init w
      = (Ok (demo_module_state w),
         [IevSetEnv "TF_CPP_MIN_LOG_LEVEL" "2"; IevImportTensorflow])) /\
  (forall e t,
      module_init w = (Raise e, t) ->
      isinstance_ImportError e = false /\ demo_requested w = false).
Proof.
  unfold module_init, tensorflow_setup. rewrite demo_flag_requested.
  destruct (demo_requested w) eqn:Hr; cbn [negb].
  - split; [|split].
    + intros ms t H. inversion H; subst. simpl.
      split; [reflexivity|]. split; [reflexivity|]. intros Hd. discriminate Hd.
    + intros e _ _ H. discriminate H.
    + intros e t H. discriminate H.
  - destruct (import_tensorflow w) as [u|e0] eqn:Hi.
    + destruct (gpu_setup w) as [[e1|] t1].
      * destruct (isinstance_ImportError e1) eqn:He1; (split; [|split]).
        -- intros ms t H. inversion H; subst. simpl.
           split; [reflexivity|]. split; [reflexivity|]. intros Hd. discriminate Hd.
        -- intros e H. discriminate H.
        -- intros e t H. discriminate H.
        -- intros ms t H. discriminate H.
        -- intros e H. discriminate H.
        -- intros e t H. inversion H; subst. split; [exact He1|reflexivity].
      * split; [|split].
        -- intros ms t H. inversion H; subst. simpl.
           split; [reflexivity|]. split; [reflexivity|].
           intros _. split; [reflexivity|eauto].
        -- intros e H. discriminate H.
        -- intros e t H. discriminate H.
    + destruct (isinstance_ImportError e0) eqn:He0; (split; [|split]).
      * intros ms t H. inversion H; subst. simpl.
        split; [reflexivity|]. split; [reflexivity|]. intros Hd. discriminate Hd.
      * intros e H _ _. reflexivity.
      * intros e t H. discriminate H.
      * intros ms t H. discriminate H.
      * intros e H He. inversion H; subst. congruence.
      * intros e t H. inversion H; subst. split; [exact He0|reflexivity].
Qed.

Lemma module_init_outcomes_witness :
  module_init iw_no_tensorflow
  = (Ok (demo_module_state iw_no_tensorflow),
     [IevSetEnv "TF_CPP_MIN_LOG_LEVEL" "2"; IevImportTensorflow]).
Proof.
  exact (proj1 (proj2 (module_init_outcomes iw_no_tensorflow))
           _ eq_refl eq_refl eq_refl).
Defined.

Lemma configure_gpus_stops (w : InitWorld) (pre post : list string)
    (gpu msg : string) :
  Forall (fun x => set_memory_growth w x = GrowthOk) pre ->
  set_memory_growth w gpu = GrowthRuntimeError msg ->
  configure_gpus w (pre ++ gpu :: post)%list
  = (GrowthRuntimeError msg, map IevSetMemoryGrowth (pre ++ [gpu])%list).
Proof.
  intros Hpre Hg. induction Hpre as [|x pre Hx Hpre IH]; simpl.
  - rewrite Hg. reflexivity.
  - rewrite Hx, IH. reflexivity.
Qed.

(** X3.  A [RuntimeError] from the memory-growth setting of one GPU does
    not stop the module from coming up in real mode, but it ends the
    loop: the GPUs listed after that one are never configured. *)
Theorem module_init_gpu_runtime_error (w : InitWorld) (pre post : list string)
    (gpu msg : string) (u : unit) :
  demo_requested w = false ->
  import_tensorflow w = Ok u ->
  list_physical_devices w = Ok (pre ++ gpu :: post)%list ->
  Forall (fun x => set_memory_growth w x = GrowthOk) pre ->
  set_memory_growth w gpu = GrowthRuntimeError msg ->
  module_init w
  = (Ok (real_module_state w),
     IevSetEnv "TF_CPP_MIN_LOG_LEVEL" "2" :: IevImportTensorflow :: IevListDevices
       :: map IevSetMemoryGrowth (pre ++ [gpu])%list).
Proof.
  intros Hr Hi Hl Hpre Hg. unfold module_init, tensorflow_setup.
  rewrite demo_flag_requested, Hr, Hi.
  cbn [negb]. unfold gpu_setup. rewrite Hl.
  rewrite (configure_gpus_stops w pre post gpu msg Hpre Hg).
  destruct (pre ++ gpu :: post)%list eqn:E.
  - destruct pre; discriminate E.
  - reflexivity.
Qed.

Lemma module_init_gpu_runtime_error_witness :
  module_init iw_two_gpus
  = (Ok (real_module_state iw_two_gpus),
     [ IevSetEnv "TF_CPP_MIN_LOG_LEVEL" "2"; IevImportTensorflow; IevListDevices;
       IevSetMemoryGrowth "GPU:0" ]).
Proof.
  exact (module_init_gpu_runtime_error iw_two_gpus [] ["GPU:1"] "GPU:0" _ tt
           eq_refl eq_refl eq_refl (Forall_nil _) eq_refl).
Defined.

(* ================================================================= *)
(** ** Loading: failures, start-up, lazy loading *)

Lemma load_model_raise_state (cfg : Config) (w : LoaderWorld) (g g' : Globals)
    (e : exn) (t : list event) :
  load_model cfg w g = (Raise e, g', t) ->
  g' = g /\ DEMO_MODE g = false /\ model g = None /\
  exists t', t = EvPathExists (CONVERTED_MODEL_PATH cfg) :: EvImportTfKeras :: t'.
Proof.
  intros H. destruct (DEMO_MODE g) eqn:Hd.
  { rewrite (load_model_demo cfg w g Hd) in H. discriminate H. }
  destruct (model g) as [m|] eqn:Hm.
  { rewrite (load_model_hit cfg w g m Hd Hm) in H. discriminate H. }
  pose proof (load_model_miss cfg w g Hd Hm) as L. cbv zeta in L.
  unfold shim_events in L.
  destruct (shim_outcome w (selected_path cfg w)) as [m|e0].
  { rewrite L in H. discriminate H. }
  destruct (isinstance_ImportError e0).
  - destruct (tf_load_model w (selected_path cfg w)) as [m|e1];
      rewrite L in H; [discriminate H|]. inversion H; subst.
    repeat split; try reflexivity. destruct (import_tf_keras w); simpl; eauto.
  - rewrite L in H. inversion H; subst.
    repeat split; try reflexivity. destruct (import_tf_keras w); simpl; eauto.
Qed.

Lemma load_model_keeps_demo (cfg : Config) (w : LoaderWorld) (g : Globals)
    (r : result (option Model)) (g' : Globals) (t : list event) :
  load_model cfg w g = (r, g', t) -> DEMO_MODE g' = DEMO_MODE g.
Proof.
  intros H. destruct (DEMO_MODE g) eqn:Hd.
  { rewrite (load_model_demo cfg w g Hd) in H. inversion H; subst. exact Hd. }
  destruct (model g) as [m|] eqn:Hm.
  { rewrite (load_model_hit cfg w g m Hd Hm) in H. inversion H; subst. exact Hd. }
  pose proof (load_model_miss cfg w g Hd Hm) as L. cbv zeta in L.
  destruct (shim_outcome w (selected_path cfg w)) as [m|e0].
  { rewrite L in H. inversion H; subst. exact Hd. }
  destruct (isinstance_ImportError e0).
  - destruct (tf_load_model w (selected_path cfg w)) as [m|e1];
      rewrite L in H; inversion H; subst; exact Hd.
  - rewrite L in H. inversion H; subst. exact Hd.
Qed.

Lemma load_model_miss_trace (cfg : Config) (w : LoaderWorld) (g : Globals) :
  DEMO_MODE g = false -> model g = None ->
  exists t',
    snd (load_model cfg w g)
    = EvPathExists (CONVERTED_MODEL_PATH cfg) :: EvImportTfKeras :: t'.
Proof.
  intros Hd Hm. pose proof (load_model_miss cfg w g Hd Hm) as L. cbv zeta in L.
  unfold shim_events in L.
  destruct (shim_outcome w (selected_path cfg w)) as [m|e0].
  - rewrite L. destruct (import_tf_keras w); simpl; eauto.
  - destruct (isinstance_ImportError e0).
    + destruct (tf_load_model w (selected_path cfg w)) as [m|e1]; rewrite L;
        destruct (import_tf_keras w); simpl; eauto.
    + rewrite L. destruct (import_tf_keras w); simpl; eauto.
Qed.

(** X4.  A failed load is not remembered: the loader raises with the
    process state exactly as it was, after having checked the disk and
    tried the shim; so the next call, whatever the outside world then is,
    starts the whole chain again with the disk check and the import of
    the shim. *)
Theorem load_model_failure_not_cached (cfg : Config) (w : LoaderWorld)
    (g g' : Globals) (e : exn) (t : list event) :
  load_model cfg w g = (Raise e, g', t) ->
  g' = g /\
  (exists t', t = EvPathExists (CONVERTED_MODEL_PATH cfg) :: EvImportTfKeras :: t') /\
  (forall w2, exists t2,
      snd (load_model cfg w2 g')
      = EvPathExists (CONVERTED_MODEL_PATH cfg) :: EvImportTfKeras :: t2).
Proof.
  intros H.
  destruct (load_model_raise_state cfg w g g' e t H) as [Hg [Hd [Hm Ht]]].
  split; [exact Hg|]. split; [exact Ht|].
  intros w2. subst g'. apply load_model_miss_trace; assumption.
Qed.

Lemma load_model_failure_not_cached_witness :
  exists t2,
    snd (load_model cfg0 w_legacy_only g_fresh)
    = EvPathExists (CONVERTED_MODEL_PATH cfg0) :: EvImportTfKeras :: t2.
Proof.
  exact (proj2 (proj2 (load_model_failure_not_cached cfg0 w_nothing g_fresh g_fresh
                         (Exn OSError "No file or directory found at model.h5")
                         [ EvPathExists (CONVERTED_MODEL_PATH cfg0); EvImportTfKeras;
                           EvTfLoad (MODEL_PATH cfg0) ]
                         eq_refl))
               w_legacy_only).
Defined.

Lemma startup_state (cfg : Config) (w : LoaderWorld) (g : Globals) :
  DEMO_MODE (fst (startup cfg w g)) = true \/
  (DEMO_MODE (fst (startup cfg w g)) = false /\
   exists m, model (fst (startup cfg w g)) = Some m).
Proof.
  unfold startup. destruct (DEMO_MODE g) eqn:Hd; [left; exact Hd|].
  destruct (load_model cfg w g) as [[[r|e] g'] t] eqn:Hl; [|left; reflexivity].
  destruct (load_model_ok_state cfg w g g' r t Hl) as [[Hd' _]|[Hd' [Hm Hr]]].
  - left. exact Hd'.
  - right. split; [exact Hd'|]. destruct r as [m|]; [|congruence]. eauto.
Qed.

(** X5.  The start-up block never fails and leaves the process either in
    demo mode or with a cached model: in real mode it loads the model,
    and a load that raises switches the process to demo mode with the
    state otherwise untouched.  For a fresh process (no model yet) the
    health endpoint then reports [model_loaded] as the negation of
    [demo_mode]. *)
Theorem startup_demo_or_loaded (cfg : Config) (w : LoaderWorld) (g : Globals) :
  (DEMO_MODE (fst (startup cfg w g)) = false ->
   exists m, model (fst (startup cfg w g)) = Some m) /\
  (forall e gl t,
      DEMO_MODE g = false ->
      load_model cfg w g = (Raise e, gl, t) ->
      startup cfg w g = ({| DEMO_MODE := true; model := model g |}, t)) /\
  (model g = None ->
   dict_lookup "model_loaded" (health cfg (fst (startup cfg w g)))
   = Some (PBool (negb (DEMO_MODE (fst (startup cfg w g)))))).
Proof.
  split; [|split].
  - intros Hd. destruct (startup_state cfg w g) as [H|[_ H]]; [congruence|exact H].
  - intros e gl t Hd Hl. unfold startup. rewrite Hd, Hl.
    destruct (load_model_raise_state cfg w g gl e t Hl) as [Hg _]. subst gl.
    reflexivity.
  - intros Hm. unfold health. cbn [dict_lookup String.eqb Ascii.eqb Bool.eqb].
    unfold startup. destruct (DEMO_MODE g) eqn:Hd.
    + cbn [fst]. rewrite Hm, Hd. reflexivity.
    + destruct (load_model cfg w g) as [[[r|e] g'] t] eqn:Hl; cbn [fst].
      * destruct (load_model_ok_state cfg w g g' r t Hl) as [[Hd' _]|[Hd' [Hm' Hr]]].
        -- rewrite (load_model_keeps_demo cfg w g _ g' t Hl) in Hd'. congruence.
        -- rewrite Hd', Hm'. destruct r; [reflexivity|congruence].
      * destruct (load_model_raise_state cfg w g g' e t Hl) as [Hg _]. subst g'.
        cbn [model DEMO_MODE]. rewrite Hm. reflexivity.
Qed.

Lemma startup_demo_or_loaded_witness :
  startup cfg0 w_nothing g_fresh = ({| DEMO_MODE := true; model := None |}, 
     [ EvPathExists (CONVERTED_MODEL_PATH cfg0); EvImportTfKeras;
       EvTfLoad (MODEL_PATH cfg0) ]) /\
  (exists m, model (fst (startup cfg0 w_legacy_only g_fresh)) = Some m).
Proof.
  split.
  - exact (proj1 (proj2 (startup_demo_or_loaded cfg0 w_nothing g_fresh))
             _ _ _ eq_refl eq_refl).
  - exact (proj1 (startup_demo_or_loaded cfg0 w_legacy_only g_fresh) eq_refl).
Defined.

(** X6.  After the start-up block no request reaches the loader's outside
    world: every [/predict] request leaves the process state as the
    start-up left it and makes no file-system check, import or load, and
    so does every later call of the loader. *)
Theorem startup_then_no_load (cfg : Config) (w : LoaderWorld) (g : Globals) :
  let g' := fst (startup cfg w g) in
  (forall pw req,
      snd (fst (predict cfg pw req g')) = g' /\
      no_loader_event (snd (predict cfg pw req g'))) /\
  (forall w2, snd (load_model cfg w2 g') = [] /\ snd (fst (load_model cfg w2 g')) = g').
Proof.
  cbv zeta. destruct (startup_state cfg w g) as [Hd|[Hd [m Hm]]].
  - split.
    + intros pw req. destruct (predict_demo_frame cfg pw req _ Hd) as [Hg [Ht|Ht]];
        (split; [exact Hg|]); unfold no_loader_event; rewrite Ht; reflexivity.
    + intros w2. rewrite (load_model_demo cfg w2 _ Hd). split; reflexivity.
  - split.
    + intros pw req. exact (predict_loaded_frame cfg pw req _ m Hd Hm).
    + intros w2. rewrite (load_model_hit cfg w2 _ m Hd Hm). split; reflexivity.
Qed.

(** X7.  What the start-up block changes for a model that cannot be
    loaded: without it, a [/predict] request with an image is answered
    with status 500 and the loader's message; after it, the same request
    is answered with status 200 and a simulated prediction flagged
    [demo_mode]. *)
Theorem startup_failure_serves_demo (cfg : Config) (pw : PredictWorld)
    (req : Request) (g gl : Globals) (b : list byte) (e : exn) (t : list event) :
  DEMO_MODE g = false ->
  load_model cfg (pw_loader pw) g = (Raise e, gl, t) ->
  extract_image (pw_b64decode pw) req = Ok (inr b) ->
  rng_contract (pw_rng pw) ->
  fst (fst (predict cfg pw req g)) = error_500 e /\
  exists resp,
    fst (fst (predict cfg pw req (fst (startup cfg (pw_loader pw) g)))) = resp /\
    status resp = 200%Z /\
    dict_lookup "demo_mode" (body resp) = Some (PBool true) /\
    dict_lookup "success" (body resp) = Some (PBool true).
Proof.
  intros Hd Hl He C. split.
  - rewrite (predict_of_body _ _ _ _ _ _ _
               (predict_body_real cfg pw req g gl b _ t He Hd Hl)).
    reflexivity.
  - unfold startup. rewrite Hd, Hl. cbn [fst].
    destruct (demo_predict_ok (pw_rng pw) C) as [result [x0 [x1 [x2 [x3 [Hr _]]]]]].
    pose proof (predict_body_demo cfg pw req
                  {| DEMO_MODE := true; model := model gl |} b He eq_refl) as H.
    rewrite Hr in H. rewrite (predict_of_body _ _ _ _ _ _ _ H).
    eexists. split; [reflexivity|]. repeat split.
Qed.

Lemma startup_failure_serves_demo_witness :
  fst (fst (predict cfg0
              {| pw_loader := w_nothing; pw_pil := ref_pil; pw_rng := rng0;
                 pw_b64decode := fun _ => Ok png_magic |}
              (json_image_request "TWFu") g_fresh))
  = error_500 (Exn OSError "No file or directory found at model.h5").
Proof.
  exact (proj1 (startup_failure_serves_demo cfg0
                  {| pw_loader := w_nothing; pw_pil := ref_pil; pw_rng := rng0;
                     pw_b64decode := fun _ => Ok png_magic |}
                  (json_image_request "TWFu") g_fresh g_fresh png_magic _ _
                  eq_refl eq_refl eq_refl rng0_contract)).
Defined.

(** X8.  Loading is lazy: in real mode the first [/predict] request that
    carries an image loads the model, and the handle stays cached whether
    or not the rest of that request succeeds (the image may fail to
    decode, the model may raise); from then on the health endpoint
    reports [model_loaded] true. *)
Theorem predict_loads_lazily (cfg : Config) (pw : PredictWorld) (req : Request)
    (g g1 : Globals) (b : list byte) (m : Model) (t1 : list event) :
  DEMO_MODE g = false ->
  extract_image (pw_b64decode pw) req = Ok (inr b) ->
  load_model cfg (pw_loader pw) g = (Ok (Some m), g1, t1) ->
  snd (fst (predict cfg pw req g)) = g1 /\
  model g1 = Some m /\
  dict_lookup "model_loaded" (health cfg (snd (fst (predict cfg pw req g))))
  = Some (PBool true).
Proof.
  intros Hd He Hl.
  assert (Hm : model g1 = Some m).
  { destruct (load_model_ok_state cfg (pw_loader pw) g g1 _ t1 Hl)
      as [[_ H]|[_ [H _]]]; [discriminate H|exact H]. }
  assert (Hg : snd (fst (predict cfg pw req g)) = g1).
  { pose proof (predict_body_real cfg pw req g g1 b _ t1 He Hd Hl) as H.
    cbv beta iota in H.
    destruct (preprocess_image (pw_pil pw) b);
      rewrite (predict_of_body _ _ _ _ _ _ _ H); reflexivity. }
  split; [exact Hg|]. split; [exact Hm|].
  rewrite Hg. unfold health. cbn [dict_lookup String.eqb Ascii.eqb Bool.eqb].
  rewrite Hm. reflexivity.
Qed.

Lemma predict_loads_lazily_witness :
  dict_lookup "model_loaded"
    (health cfg0 (snd (fst (predict cfg0 pw_undecodable (json_image_request "")
                              g_fresh))))
  = Some (PBool true).
Proof.
  exact (proj2 (proj2 (predict_loads_lazily cfg0 pw_undecodable
                         (json_image_request "") g_fresh _ [] m_softmax _
                         eq_refl eq_refl eq_refl))).
Defined.

(* ================================================================= *)
(** ** Input extraction *)

(** X9.  An uploaded file wins over the JSON body: when the request has
    an upload field [image] with a non-empty file name, the image bytes
    are what reading that file gives; the JSON body is not parsed (it may
    be absent or malformed) and nothing is base64-decoded. *)
Theorem upload_takes_precedence (dec dec' : string -> result (list byte))
    (fs : list (string * FileStorage)) (f : FileStorage) (j j' : result pyval) :
  files_lookup "image" fs = Some f ->
  filename f <> "" ->
  extract_image dec {| files := Ok fs; get_json := j |}
  = (image_bytes <~ file_read f ;; Ok (inr image_bytes))%result /\
  extract_image dec' {| files := Ok fs; get_json := j' |}
  = extract_image dec {| files := Ok fs; get_json := j |}.
Proof.
  intros Hl Hn. unfold extract_image. cbn [files get_json result_bind].
  rewrite Hl. destruct (String.eqb_spec (filename f) "") as [E|E]; [contradiction|].
  split; reflexivity.
Qed.

Lemma upload_takes_precedence_witness :
  extract_image (fun _ => Raise (Exn BinasciiError "Incorrect padding"))
    {| files := Ok [("image", {| filename := "scan.png"; file_read := Ok png_magic |})];
       get_json := Raise (Exn HTTPException "415 Unsupported Media Type") |}
  = Ok (inr png_magic).
Proof.
  exact (proj1 (upload_takes_precedence
                  (fun _ => Raise (Exn BinasciiError "Incorrect padding"))
                  (fun _ => Ok [])
                  [("image", {| filename := "scan.png"; file_read := Ok png_magic |})]
                  _ (Raise (Exn HTTPException "415 Unsupported Media Type")) (Ok PNone)
                  eq_refl ltac:(discriminate))).
Defined.

(** X10.  Of an image string with two commas or more, only the text
    between the first and the second comma is decoded; what comes before
    the first comma and what comes after the second is dropped. *)
Theorem image_text_second_segment (dec : string -> result (list byte))
    (p q r : string) :
  has_char "," p = false ->
  has_char "," q = false ->
  extract_image dec (json_image_request (p ++ "," ++ q ++ "," ++ r))
  = (image_bytes <~ dec q ;; Ok (inr image_bytes))%result.
Proof.
  intros Hp Hq.
  change (p ++ "," ++ q ++ "," ++ r) with (p ++ String "," (q ++ String "," r)).
  rewrite extract_image_json_text.
  rewrite has_char_app. cbn [has_char]. rewrite Ascii.eqb_refl, orb_true_r.
  rewrite (split_on_first _ _ _ Hp), (split_on_first _ _ _ Hq).
  reflexivity.
Qed.

Lemma image_text_second_segment_witness :
  extract_image (fun s => if s =? "TWFu" then Ok png_magic
                          else Raise (Exn BinasciiError "Incorrect padding"))
    (json_image_request "data:image/png;name=a,TWFu,b.png;base64,iVBORw0KGgo=")
  = Ok (inr png_magic).
Proof.
  exact (image_text_second_segment _ "data:image/png;name=a" "TWFu"
           "b.png;base64,iVBORw0KGgo=" eq_refl eq_refl).
Defined.

(** X11.  A request without upload whose JSON body is not an object is
    answered with status 400 only when the body is empty or false, or is
    an array or a string that does not contain ["image"]; every other
    such body (a number, [true], an array holding the string ["image"], a
    string containing it) makes the handler raise a [TypeError], answered
    with status 500, with the process state untouched. *)
Theorem json_body_not_object (cfg : Config) (w : PredictWorld) (req : Request)
    (g : Globals) (fs : list (string * FileStorage)) (data : pyval) :
  files req = Ok fs ->
  files_lookup "image" fs = None ->
  get_json req = Ok data ->
  (forall kvs, data <> PDict kvs) ->
  truthy data = true ->
  py_in "image" data <> Ok false ->
  exists msg,
    predict cfg w req g = (error_500 (Exn TypeError msg), g, []).
Proof.
  intros Hf Hl Hj Hnd Ht Hin.
  assert (He : exists msg, extract_image (pw_b64decode w) req = Raise (Exn TypeError msg)).
  { unfold extract_image. rewrite Hf. cbn [result_bind]. rewrite Hl, Hj.
    cbn [result_bind]. rewrite Ht.
    destruct data as [|b|z|q|s|l|kvs]; cbn [py_in result_bind] in *;
      try (eexists; reflexivity).
    - destruct (substring_in "image" s); [|congruence].
      cbn [py_getitem_str result_bind]. eexists; reflexivity.
    - destruct (existsb (is_str "image") l); [|congruence].
      cbn [py_getitem_str result_bind]. eexists; reflexivity.
    - exfalso. apply (Hnd kvs). reflexivity. }
  destruct He as [msg He]. exists msg.
  rewrite (predict_of_body _ _ _ _ _ _ _ (predict_body_extract_raise cfg w req g _ He)).
  reflexivity.
Qed.

Lemma json_body_not_object_witness :
  exists msg,
    predict cfg0 pw0 {| files := Ok []; get_json := Ok (PList [PStr "image"]) |} g_fresh
    = (error_500 (Exn TypeError msg), g_fresh, []).
Proof.
  refine (json_body_not_object cfg0 pw0
            {| files := Ok []; get_json := Ok (PList [PStr "image"]) |}
            g_fresh [] (PList [PStr "image"])
            eq_refl eq_refl eq_refl _ eq_refl _).
  - intros kvs H. discriminate H.
  - intros H. discriminate H.
Defined.

(** X12.  When the JSON body is an object whose [image] field is not a
    string (null, a boolean, a number, an array, an object), the handler
    raises a [TypeError] or an [AttributeError] before anything is
    decoded, and answers with status 500. *)
Theorem image_field_not_string (cfg : Config) (w : PredictWorld) (req : Request)
    (g : Globals) (fs : list (string * FileStorage))
    (kvs : list (string * pyval)) (v : pyval) :
  files req = Ok fs ->
  files_lookup "image" fs = None ->
  get_json req = Ok (PDict kvs) ->
  dict_lookup "image" kvs = Some v ->
  (forall s, v <> PStr s) ->
  exists e,
    (exn_cls e = TypeError \/ exn_cls e = AttributeError) /\
    (forall dec, extract_image dec req = Raise e) /\
    predict cfg w req g = (error_500 e, g, []).
Proof.
  intros Hf Hl Hj Hi Hns.
  assert (Ht : truthy (PDict kvs) = true).
  { destruct kvs; [discriminate Hi|reflexivity]. }
  assert (He : exists e,
             (exn_cls e = TypeError \/ exn_cls e = AttributeError) /\
             forall dec, extract_image dec req = Raise e).
  { unfold extract_image. rewrite Hf. cbn [result_bind]. rewrite Hl, Hj.
    cbn [result_bind]. rewrite Ht. cbn [py_in py_getitem_str]. rewrite Hi.
    cbn [result_bind].
    destruct v as [|b|z|q|s|l|d]; cbn [py_in result_bind];
      try (eexists; (split; [|intros dec; reflexivity]); left; reflexivity).
    - exfalso. apply (Hns s). reflexivity.
    - destruct (existsb (is_str ",") l); cbn [py_split_comma py_b64decode result_bind].
      + eexists; (split; [|intros dec; reflexivity]); right; reflexivity.
      + eexists; (split; [|intros dec; reflexivity]); left; reflexivity.
    - destruct (dict_lookup "," d); cbn [py_split_comma py_b64decode result_bind].
      + eexists; (split; [|intros dec; reflexivity]); right; reflexivity.
      + eexists; (split; [|intros dec; reflexivity]); left; reflexivity. }
  destruct He as [e [Hc He]]. exists e. split; [exact Hc|]. split; [exact He|].
  rewrite (predict_of_body _ _ _ _ _ _ _
             (predict_body_extract_raise cfg w req g _ (He (pw_b64decode w)))).
  reflexivity.
Qed.

Lemma image_field_not_string_witness :
  exists e,
    (exn_cls e = TypeError \/ exn_cls e = AttributeError) /\
    predict cfg0 pw0 {| files := Ok []; get_json := Ok (PDict [("image", PNone)]) |}
      g_fresh
    = (error_500 e, g_fresh, []).
Proof.
  destruct (image_field_not_string cfg0 pw0
              {| files := Ok []; get_json := Ok (PDict [("image", PNone)]) |}
              g_fresh [] [("image", PNone)] PNone eq_refl eq_refl eq_refl eq_refl
              ltac:(intros s H; discriminate H)) as [e [H1 [_ H2]]].
  exists e. split; [exact H1|exact H2].
Defined.

(* ================================================================= *)
(** ** Classification: ties, malformed model output, rounding *)

Lemma argmax_from_spec (l : list Q) :
  forall (bi : nat) (best : Q) (i : nat),
    (argmax_from bi best i l = bi /\ Forall (fun y => y <= best) l) \/
    (exists k x,
        argmax_from bi best i l = (i + k)%nat /\
        nth_error l k = Some x /\
        best < x /\
        Forall (fun y => y <= x) l /\
        Forall (fun y => y < x) (firstn k l)).
Proof.
  induction l as [|x r IH]; intros bi best i.
  - left. split; [reflexivity|constructor].
  - cbn [argmax_from]. destruct (Qle_bool x best) eqn:E.
    + apply Qle_bool_iff in E.
      destruct (IH bi best (S i)) as [[Hj Hall]|[k [x' [Hj [Hn [Hlt [Hall Hpre]]]]]]].
      * left. split; [exact Hj|]. constructor; assumption.
      * right. exists (S k), x'. split; [rewrite Hj; lia|].
        split; [exact Hn|]. split; [exact Hlt|].
        assert (Hx : x < x') by (eapply Qle_lt_trans; eassumption).
        split; constructor; auto. apply Qlt_le_weak. exact Hx.
    + apply Qle_bool_false in E.
      destruct (IH i x (S i)) as [[Hj Hall]|[k [x' [Hj [Hn [Hlt [Hall Hpre]]]]]]].
      * right. exists 0%nat, x. split; [rewrite Hj; lia|].
        split; [reflexivity|]. split; [exact E|].
        split; [constructor; [apply Qle_refl|exact Hall]|constructor].
      * right. exists (S k), x'. split; [rewrite Hj; lia|].
        split; [exact Hn|].
        split; [eapply Qlt_trans; eassumption|].
        split; constructor; auto. apply Qlt_le_weak. exact Hlt.
Qed.

(** [np.argmax] gives the first position of a largest entry. *)
Lemma np_argmax_spec (l : list Q) (j : nat) :
  np_argmax l = Ok j ->
  exists p,
    nth_error l j = Some p /\
    Forall (fun y => y <= p) l /\
    Forall (fun y => y < p) (firstn j l).
Proof.
  destruct l as [|x0 r]; [discriminate|]. cbn [np_argmax]. intros H.
  inversion H as [Hj]. clear H.
  destruct (argmax_from_spec r 0%nat x0 1%nat)
    as [[E Hall]|[k [x' [E [Hn [Hlt [Hall Hpre]]]]]]]; rewrite E.
  - exists x0. split; [reflexivity|].
    split; [constructor; [apply Qle_refl|exact Hall]|constructor].
  - exists x'. split; [exact Hn|].
    split; constructor; auto. apply Qlt_le_weak. exact Hlt.
Qed.

Lemma classification_response_inv (preds : list (list Q)) (resp : Response) :
  classification_response preds = Ok resp ->
  exists row rest i label p,
    preds = row :: rest /\
    np_argmax row = Ok i /\
    nth_error CLASS_LABELS i = Some label /\
    nth_error row i = Some p /\
    resp = jsonify [ ("success", PBool true);
                     ("prediction", PStr label);
                     ("confidence", PFloat (py_round2 (p * 100)));
                     ("probabilities", PDict (percentages row)) ] 200.
Proof.
  unfold classification_response, list_get. intros H.
  destruct preds as [|row rest]; [discriminate H|]. cbn [nth_error result_bind] in H.
  destruct (np_argmax row) as [i|e] eqn:Hi; [|discriminate H]. cbn [result_bind] in H.
  destruct (nth_error CLASS_LABELS i) as [label|] eqn:Hl; [|discriminate H].
  cbn [result_bind] in H.
  destruct (nth_error row i) as [p|] eqn:Hp; [|discriminate H].
  cbn [result_bind] in H. inversion H; subst.
  exists row, rest, i, label, p. repeat split; assumption.
Qed.

(** X13.  The prediction is the label of the first largest score of the
    model's first row: no score of the row is larger, and every score
    before it is strictly smaller, so a tie goes to the label that comes
    first in [CLASS_LABELS]. *)
Theorem prediction_is_first_maximum (preds : list (list Q)) (resp : Response) :
  classification_response preds = Ok resp ->
  exists row rest i label p,
    preds = row :: rest /\
    (i < 4)%nat /\
    nth_error CLASS_LABELS i = Some label /\
    nth_error row i = Some p /\
    dict_lookup "prediction" (body resp) = Some (PStr label) /\
    Forall (fun y => y <= p) row /\
    Forall (fun y => y < p) (firstn i row).
Proof.
  intros H.
  destruct (classification_response_inv preds resp H)
    as [row [rest [i [label [p [Hp [Hi [Hl [Hn Hr]]]]]]]]].
  destruct (np_argmax_spec row i Hi) as [p' [Hn' [Hall Hpre]]].
  rewrite Hn in Hn'. inversion Hn'; subst p'.
  exists row, rest, i, label, p. split; [exact Hp|].
  split.
  { change 4%nat with (List.length CLASS_LABELS).
    apply nth_error_Some. rewrite Hl. discriminate. }
  split; [exact Hl|]. split; [exact Hn|]. split; [rewrite Hr; reflexivity|].
  split; assumption.
Qed.

Lemma prediction_is_first_maximum_witness :
  exists row rest i label p,
    [[1 # 4; 2 # 5; 2 # 5; 0]] = row :: rest /\
    (i < 4)%nat /\
    nth_error CLASS_LABELS i = Some label /\
    nth_error row i = Some p /\
    Forall (fun y => y <= p) row.
Proof.
  destruct (prediction_is_first_maximum [[1 # 4; 2 # 5; 2 # 5; 0]] _ eq_refl)
    as [row [rest [i [label [p [H1 [H2 [H3 [H4 [_ [H5 _]]]]]]]]]]].
  exists row, rest, i, label, p. repeat split; assumption.
Defined.

(** X14.  The response can be built exactly when the model returned at
    least one row, that row is not empty, and its first largest score
    stands at one of the first four positions; otherwise the handler
    raises an [IndexError] or a [ValueError] (answered with status 500):
    a model with more than four outputs fails whenever its best score is
    not among the first four. *)
Theorem classification_response_defined (preds : list (list Q)) :
  ((exists resp, classification_response preds = Ok resp) <->
   (exists row rest i,
       preds = row :: rest /\ np_argmax row = Ok i /\ (i < 4)%nat)) /\
  (forall e,
      classification_response preds = Raise e ->
      exn_cls e = IndexError \/ exn_cls e = ValueError).
Proof.
  split; [split|].
  - intros [resp H].
    destruct (classification_response_inv preds resp H)
      as [row [rest [i [label [p [Hp [Hi [Hl [Hn Hr]]]]]]]]].
    exists row, rest, i. split; [exact Hp|]. split; [exact Hi|].
    change 4%nat with (List.length CLASS_LABELS).
    apply nth_error_Some. rewrite Hl. discriminate.
  - intros [row [rest [i [Hp [Hi Hlt]]]]]. subst preds.
    destruct (np_argmax_spec row i Hi) as [p [Hn _]].
    unfold classification_response, list_get. cbn [nth_error result_bind].
    rewrite Hi. cbn [result_bind].
    destruct (nth_error CLASS_LABELS i) as [label|] eqn:Hl.
    + cbn [result_bind]. rewrite Hn. cbn [result_bind]. eauto.
    + apply nth_error_None in Hl. simpl in Hl. lia.
  - intros e. unfold classification_response, list_get.
    destruct preds as [|row rest]; cbn [nth_error result_bind].
    + intros H. inversion H. left. reflexivity.
    + destruct row as [|x r]; cbn [np_argmax result_bind].
      * intros H. inversion H. right. reflexivity.
      * destruct (nth_error CLASS_LABELS (argmax_from 0 x 1 r)); cbn [result_bind].
        -- destruct (nth_error (x :: r) (argmax_from 0 x 1 r)); cbn [result_bind];
             intros H; inversion H. left. reflexivity.
        -- intros H. inversion H. left. reflexivity.
Qed.

Lemma classification_response_defined_witness :
  (exists resp, classification_response [[1 # 4; 2 # 5; 2 # 5; 0]] = Ok resp) /\
  (exn_cls (Exn IndexError "index out of range") = IndexError \/
   exn_cls (Exn IndexError "index out of range") = ValueError).
Proof.
  split.
  - apply (proj1 (classification_response_defined [[1 # 4; 2 # 5; 2 # 5; 0]])).
    exists [1 # 4; 2 # 5; 2 # 5; 0], [], 1%nat.
    split; [reflexivity|]. split; [reflexivity|]. lia.
  - exact (proj2 (classification_response_defined [[0; 0; 0; 0; 1]]) _ eq_refl).
Defined.

Lemma round_half_even_close (x : Q) :
  Qabs (inject_Z (round_half_even x) - x) <= 1 # 2.
Proof.
  unfold round_half_even.
  pose proof (Qfloor_le x) as Hlo. pose proof (Qlt_floor x) as Hhi.
  rewrite inject_Z_plus in Hhi. change (inject_Z 1) with 1 in Hhi.
  apply Qabs_Qle_condition.
  destruct (Qcompare_spec (x - inject_Z (Qfloor x)) (1 # 2)) as [E|E|E].
  - destruct (Z.even (Qfloor x));
      [|rewrite inject_Z_plus; change (inject_Z 1) with 1]; split; lra.
  - split; lra.
  - rewrite inject_Z_plus. change (inject_Z 1) with 1. split; lra.
Qed.

Lemma py_round2_close (x : Q) : Qabs (py_round2 x - x) <= 1 # 200.
Proof.
  unfold py_round2.
  pose proof (round_half_even_close (x * 100)) as H.
  apply Qabs_Qle_condition in H. apply Qabs_Qle_condition.
  destruct H as [H1 H2].
  set (r := inject_Z (round_half_even (x * 100))) in *.
  unfold Qdiv. change (/ 100) with (1 # 100).
  split; lra.
Qed.

Lemma percentages_lookup (row : list Q) (i : nat) (label : string) (p : Q) :
  nth_error CLASS_LABELS i = Some label ->
  nth_error row i = Some p ->
  dict_lookup label (percentages row) = Some (PFloat (p * 100)).
Proof.
  intros Hl Hp. unfold percentages, CLASS_LABELS in *.
  destruct i as [|[|[|[|i]]]]; cbn [nth_error] in Hl.
  5:{ destruct i; discriminate Hl. }
  all: inversion Hl; subst label; clear Hl.
  all: destruct row as [|a [|b [|c [|d row]]]]; cbn [nth_error] in Hp;
    try discriminate Hp; inversion Hp; subst; reflexivity.
Qed.

(** X15.  In a real-mode response the confidence and the percentage
    that the [probabilities] map reports for the predicted label differ
    by less than 0.01: the two fields agree up to the rounding of the
    confidence to two decimal places. *)
Theorem confidence_agrees_with_percentage (preds : list (list Q)) (resp : Response) :
  classification_response preds = Ok resp ->
  exists label probs top conf,
    dict_lookup "prediction" (body resp) = Some (PStr label) /\
    dict_lookup "probabilities" (body resp) = Some (PDict probs) /\
    dict_lookup label probs = Some (PFloat top) /\
    dict_lookup "confidence" (body resp) = Some (PFloat conf) /\
    Qabs (conf - top) < 1 # 100.
Proof.
  intros H.
  destruct (classification_response_inv preds resp H)
    as [row [rest [i [label [p [Hp [Hi [Hl [Hn Hr]]]]]]]]].
  exists label, (percentages row), (p * 100), (py_round2 (p * 100)).
  subst resp. cbn [body jsonify].
  split; [reflexivity|]. split; [reflexivity|].
  split; [exact (percentages_lookup row i label p Hl Hn)|].
  split; [reflexivity|].
  eapply Qle_lt_trans; [apply py_round2_close|reflexivity].
Qed.

Lemma confidence_agrees_with_percentage_witness :
  exists label probs top conf,
    dict_lookup label probs = Some (PFloat top) /\
    Qabs (conf - top) < 1 # 100.
Proof.
  destruct (confidence_agrees_with_percentage [[1 # 3; 1 # 3; 1 # 3; 0]] _ eq_refl)
    as [label [probs [top [conf [_ [_ [H1 [_ H2]]]]]]]].
  exists label, probs, top, conf. split; [exact H1|exact H2].
Defined.

(* ================================================================= *)
(** ** Demo predictor: ranges *)

Ltac by_total :=
  match goal with
  | |- context [ _ / ?d ] =>
      let S := fresh "S" in
      let HS := fresh "HS" in
      set (S := d) in *;
      assert (HS : S == 3 # 2) by (subst S; lra);
      clearbody S; rewrite !HS; unfold Qdiv; change (/ (3 # 2)) with (2 # 3)
  end.

Lemma boost_renormalize_bounds (i : nat) (x0 x1 x2 x3 : Q) :
  (i < 4)%nat ->
  0 <= x0 -> 0 <= x1 -> 0 <= x2 -> 0 <= x3 ->
  Qsum [x0; x1; x2; x3] == 1 ->
  exists a b c d,
    map (fun p => p / Qsum (add_at i (1 # 2) [x0; x1; x2; x3]))
        (add_at i (1 # 2) [x0; x1; x2; x3]) = [a; b; c; d] /\
    (0 <= a /\ 0 <= b /\ 0 <= c /\ 0 <= d) /\
    Qsum [a; b; c; d] == 1 /\
    exists x, nth_error [a; b; c; d] i = Some x /\ 1 # 3 <= x.
Proof.
  intros Hi H0 H1 H2 H3 Hs. unfold Qsum in Hs. cbn [fold_right] in Hs.
  destruct i as [|[|[|[|i]]]]; [| | | |lia];
    cbv beta iota delta [add_at map]; do 4 eexists;
    (split; [reflexivity|]); unfold Qsum; cbn [fold_right nth_error];
    (split; [|split; [|eexists; split; [reflexivity|]]]);
    by_total; repeat split; lra.
Qed.

Lemma demo_probs_bounds (rng : Rng) :
  rng_contract rng ->
  exists a b c d,
    demo_probs rng = Ok [a; b; c; d] /\
    (0 <= a /\ 0 <= b /\ 0 <= c /\ 0 <= d) /\
    Qsum [a; b; c; d] == 1 /\
    (3 # 10 < random_random rng ->
     exists x,
       nth_error [a; b; c; d] (Z.to_nat (random_randint rng 0 3)) = Some x /\
       1 # 3 <= x).
Proof.
  unfold rng_contract, demo_probs. intros [Hlen [Hpos [Hsum Hidx]]].
  destruct (np_random_dirichlet rng dirichlet_alpha)
    as [|x0 [|x1 [|x2 [|x3 [|x4 l]]]]]; try discriminate Hlen.
  inversion Hpos as [|? ? P0 Hpos1]; subst.
  inversion Hpos1 as [|? ? P1 Hpos2]; subst.
  inversion Hpos2 as [|? ? P2 Hpos3]; subst.
  inversion Hpos3 as [|? ? P3 _]; subst.
  destruct (Qle_bool (random_random rng) (3 # 10)) eqn:E; cbn [negb].
  - exists x0, x1, x2, x3. split; [reflexivity|]. split; [auto|].
    split; [exact Hsum|]. intros Hu. apply Qle_bool_iff in E. lra.
  - rewrite py_index_in_range by (cbn [List.length]; lia).
    cbv beta iota delta [result_bind].
    destruct (boost_renormalize_bounds (Z.to_nat (random_randint rng 0 3))
                x0 x1 x2 x3) as [a [b [c [d [Hmap [Hnn [Hs Hx]]]]]]];
      try assumption; [lia|].
    exists a, b, c, d. rewrite Hmap. split; [reflexivity|].
    split; [exact Hnn|]. split; [exact Hs|]. intros _. exact Hx.
Qed.

(** X16.  Under the contract of the generators, every percentage of a
    simulated prediction lies between 0 and 100 and its confidence
    between 25 and 100; when the uniform draw exceeds 0.3, the class
    drawn for the boost ends with at least a third of the total. *)
Theorem demo_predict_ranges (rng : Rng) :
  rng_contract rng ->
  exists result a b c d conf,
    demo_predict rng = Ok result /\
    dict_lookup "probabilities" result = Some (PDict (four_percentages a b c d)) /\
    (0 <= a <= 100 /\ 0 <= b <= 100 /\ 0 <= c <= 100 /\ 0 <= d <= 100) /\
    dict_lookup "confidence" result = Some (PFloat conf) /\
    25 <= conf <= 100 /\
    (3 # 10 < random_random rng ->
     exists x,
       nth_error [a; b; c; d] (Z.to_nat (random_randint rng 0 3)) = Some x /\
       100 # 3 <= x).
Proof.
  intros C.
  destruct (demo_probs_bounds rng C) as [a [b [c [d [Hp [[Ha [Hb [Hc Hd]]] [Hs Hx]]]]]]].
  destruct (argmax_four a b c d) as [i [label [p [Hi [Hl [Hg [_ [La [Lb [Lc Ld]]]]]]]]]].
  unfold Qsum in Hs. cbn [fold_right] in Hs.
  assert (Hp1 : p <= 1).
  { unfold list_get in Hg.
    destruct i as [|[|[|[|i]]]]; cbn [nth_error] in Hg;
      try (inversion Hg; subst p; lra).
    destruct i; discriminate Hg. }
  unfold demo_predict. rewrite Hp. cbv beta iota delta [result_bind].
  rewrite Hi, Hl, Hg. rewrite percentages_four.
  eexists. exists (a * 100), (b * 100), (c * 100), (d * 100), (p * 100).
  split; [reflexivity|]. split; [reflexivity|].
  split; [repeat split; lra|]. split; [reflexivity|].
  split; [split; lra|].
  intros Hu. destruct (Hx Hu) as [x [Hn Hx3]].
  destruct (Z.to_nat (random_randint rng 0 3)) as [|[|[|[|k]]]];
    cbn [nth_error] in *;
    try (inversion Hn; subst x; eexists; split; [reflexivity|lra]).
  destruct k; discriminate Hn.
Qed.

Lemma demo_predict_ranges_witness :
  exists result conf,
    demo_predict rng0 = Ok result /\
    dict_lookup "confidence" result = Some (PFloat conf) /\
    25 <= conf <= 100.
Proof.
  destruct (demo_predict_ranges rng0 rng0_contract)
    as [result [a [b [c [d [conf [H1 [_ [_ [H2 [H3 _]]]]]]]]]]].
  exists result, conf. split; [exact H1|]. split; [exact H2|exact H3].
Defined.

(** X17.  In demo mode the image is never looked at: two requests from
    which image bytes are extracted get the same answer whatever the
    bytes, the imaging library and the model runtimes are, as long as the
    generators draw the same values. *)
Theorem demo_mode_ignores_image (cfg : Config) (w1 w2 : PredictWorld)
    (req1 req2 : Request) (g : Globals) (b1 b2 : list byte) :
  DEMO_MODE g = true ->
  extract_image (pw_b64decode w1) req1 = Ok (inr b1) ->
  extract_image (pw_b64decode w2) req2 = Ok (inr b2) ->
  pw_rng w1 = pw_rng w2 ->
  predict cfg w1 req1 g = predict cfg w2 req2 g.
Proof.
  intros Hd H1 H2 Hr. unfold predict.
  rewrite (predict_body_demo cfg w1 req1 g b1 H1 Hd).
  rewrite (predict_body_demo cfg w2 req2 g b2 H2 Hd).
  rewrite Hr. reflexivity.
Qed.

Lemma demo_mode_ignores_image_witness :
  predict cfg0 pw_undecodable (json_image_request "") g_demo
  = predict cfg0 pw0 (json_image_request "TWFu") g_demo.
Proof.
  exact (demo_mode_ignores_image cfg0 pw_undecodable pw0
           (json_image_request "") (json_image_request "TWFu") g_demo [] png_magic
           eq_refl eq_refl eq_refl eq_refl).
Defined.

(* ================================================================= *)
(** ** Chat proxy: blank messages, unusable bodies, upstream errors *)

Lemma lstrip_cases (s : string) :
  (lstrip s = "" /\ string_forall py_isspace s = true) \/
  (exists c t,
      lstrip s = String c t /\ py_isspace c = false /\
      string_forall py_isspace s = false).
Proof.
  induction s as [|c s IH].
  - left. split; reflexivity.
  - cbn [lstrip string_forall]. destruct (py_isspace c) eqn:E.
    + exact IH.
    + right. exists c, s. repeat split. exact E.
Qed.

Lemma rstrip_keeps_head (c : ascii) (t : string) :
  py_isspace c = false -> rstrip (String c t) <> "".
Proof.
  intros E. cbn [rstrip]. destruct (rstrip t); [rewrite E|]; discriminate.
Qed.

(** Trimming leaves nothing exactly when the string is white space only. *)
Lemma strip_empty_iff (s : string) :
  strip s = "" <-> string_forall py_isspace s = true.
Proof.
  unfold strip. destruct (lstrip_cases s) as [[E A]|[c [t [E [Hc A]]]]]; rewrite E.
  - split; intros _; [exact A|reflexivity].
  - split; intros H.
    + exfalso. exact (rstrip_keeps_head c t Hc H).
    + congruence.
Qed.

Lemma trimmed_message_of_dict (req : Request) (kvs : list (string * pyval)) :
  get_json req = Ok (PDict kvs) ->
  trimmed_message req
  = py_strip (match dict_lookup "message" kvs with Some x => x | None => PStr "" end).
Proof. intros H. unfold trimmed_message. rewrite H. reflexivity. Qed.

Lemma chat_nonblank_status (cfg : Config) (w : ChatWorld) (req : Request)
    (g : Globals) (s : string) :
  trimmed_message req = Ok (PStr s) -> s <> "" ->
  status (fst (fst (chat cfg w req g))) = 200%Z.
Proof.
  intros Ht Hs. rewrite chat_cases, Ht. cbn [truthy]. rewrite negb_involutive.
  destruct (String.eqb_spec s "") as [E|E]; [contradiction|].
  destruct (OPENROUTER_API_KEY cfg =? ""); cbn [negb]; [reflexivity|].
  cbn [fst].
  destruct (requests_post w OPENROUTER_API_URL (chat_headers cfg)
                          (chat_payload (PStr s)) 30) as [r|e].
  - destruct (chat_reply w r) as [resp|e] eqn:Hr.
    + exact (proj1 (chat_reply_answer w r resp Hr)).
    + exact (proj1 (chat_except_answer e)).
  - exact (proj1 (chat_except_answer e)).
Qed.

(** X18.  For a JSON object body whose [message] is a string of code
    points below 256, [chat] answers with status 400 and the error
    ["No message provided"], making no outside call, when the [message]
    key is missing or the string holds nothing but white space of that
    range (the controls 9-13 and 28-31, the space, U+0085, U+00A0); a
    string with any other character of the range gets status 200. *)
Theorem chat_blank_message (cfg : Config) (w : ChatWorld) (req : Request)
    (g : Globals) (kvs : list (string * pyval)) :
  get_json req = Ok (PDict kvs) ->
  (dict_lookup "message" kvs = None ->
   chat cfg w req g = (jsonify [("error", PStr "No message provided")] 400, g, [])) /\
  (forall s,
      dict_lookup "message" kvs = Some (PStr s) ->
      (string_forall py_isspace s = true ->
       chat cfg w req g
       = (jsonify [("error", PStr "No message provided")] 400, g, [])) /\
      (string_forall py_isspace s = false ->
       status (fst (fst (chat cfg w req g))) = 200%Z)).
Proof.
  intros Hj. pose proof (trimmed_message_of_dict req kvs Hj) as Ht. split.
  - intros Hn. rewrite Hn in Ht. rewrite chat_cases, Ht. reflexivity.
  - intros s Hs. rewrite Hs in Ht. cbn [py_strip] in Ht. split; intros Hw.
    + apply strip_empty_iff in Hw. rewrite Hw in Ht.
      rewrite chat_cases, Ht. reflexivity.
    + apply (chat_nonblank_status cfg w req g (strip s) Ht).
      intros E. apply strip_empty_iff in E. congruence.
Qed.

Lemma chat_blank_message_witness :
  chat cfg_key cw_timeout
    {| files := Ok []; get_json := Ok (PDict [("text", PStr "hello")]) |} g_fresh
  = (jsonify [("error", PStr "No message provided")] 400, g_fresh, []).
Proof.
  exact (proj1 (chat_blank_message cfg_key cw_timeout
                  {| files := Ok []; get_json := Ok (PDict [("text", PStr "hello")]) |}
                  g_fresh [("text", PStr "hello")] eq_refl) eq_refl).
Defined.

(** X19.  [chat] answers with status 200 and the generic failure text,
    without calling the chat service even when a credential is
    configured, in three cases: when [get_json] raises (no JSON body,
    malformed JSON), with the message of that exception as error (for a
    time-out exception the time-out text instead); when the body parses
    to a value that is not an object (null, an array, a string, a
    number); and when its [message] is not a string; in the last two
    with the message of the [AttributeError] as error. *)
Theorem chat_unusable_body (cfg : Config) (w : ChatWorld) (req : Request)
    (g : Globals) :
  (forall e,
      get_json req = Raise e ->
      chat cfg w req g = (chat_except e, g, []) /\
      (isinstance_Timeout e = false -> chat_except e = generic_failure_response e)) /\
  (forall v,
      get_json req = Ok v ->
      (forall kvs, v <> PDict kvs) ->
      chat cfg w req g = (generic_failure_response (no_attribute v "get"), g, [])) /\
  (forall kvs m,
      get_json req = Ok (PDict kvs) ->
      dict_lookup "message" kvs = Some m ->
      (forall s, m <> PStr s) ->
      chat cfg w req g = (generic_failure_response (no_attribute m "strip"), g, [])).
Proof.
  split; [|split].
  - intros e Hj. split.
    + rewrite chat_cases. unfold trimmed_message. rewrite Hj. reflexivity.
    + intros Ht. unfold chat_except. rewrite Ht. reflexivity.
  - intros v Hj Hnd. rewrite chat_cases. unfold trimmed_message. rewrite Hj.
    destruct v; try reflexivity. exfalso. apply (Hnd kvs). reflexivity.
  - intros kvs m Hj Hm Hns.
    rewrite chat_cases, (trimmed_message_of_dict req kvs Hj), Hm.
    destruct m; try reflexivity. exfalso. apply (Hns s). reflexivity.
Qed.

Lemma chat_unusable_body_witness :
  chat cfg_key cw_timeout
    {| files := Ok [];
       get_json := Raise (Exn HTTPException "415 Unsupported Media Type: Did not attempt to load JSON data because the request Content-Type was not 'application/json'.") |}
    g_fresh
  = (generic_failure_response
       (Exn HTTPException "415 Unsupported Media Type: Did not attempt to load JSON data because the request Content-Type was not 'application/json'."),
     g_fresh, []) /\
  chat cfg_key cw_timeout {| files := Ok []; get_json := Ok PNone |} g_fresh
  = (generic_failure_response (no_attribute PNone "get"), g_fresh, []).
Proof.
  split.
  - exact (proj1 (proj1 (chat_unusable_body cfg_key cw_timeout
                           {| files := Ok [];
                              get_json := Raise (Exn HTTPException "415 Unsupported Media Type: Did not attempt to load JSON data because the request Content-Type was not 'application/json'.") |}
                           g_fresh) _ eq_refl)).
  - exact (proj1 (proj2 (chat_unusable_body cfg_key cw_timeout
                           {| files := Ok []; get_json := Ok PNone |} g_fresh))
             PNone eq_refl ltac:(intros kvs H; discriminate H)).
Defined.

(** X20.  How a reply of the chat service with a status other than 200
    is turned into an answer.  With an empty reply text the reply is not
    parsed and the answer says ["Unknown error"]; with a JSON object
    whose [error] is an object holding a [message] string, the answer
    embeds that string; without [error], or without [message] in it, it
    says ["Unknown error"]; and when [error] is itself a string, looking
    up [message] in it raises an [AttributeError], so the upstream text
    is lost. *)
Theorem upstream_error_translation (w : ChatWorld) (r : HttpResponse) :
  status_code r <> 200%Z ->
  (text r = "" ->
   chat_reply w r = Ok (upstream_error_response (status_code r) "Unknown error")) /\
  (forall kvs,
      text r <> "" ->
      resp_json r = Ok (PDict kvs) ->
      (dict_lookup "error" kvs = None ->
       chat_reply w r = Ok (upstream_error_response (status_code r) "Unknown error")) /\
      (forall ekvs,
          dict_lookup "error" kvs = Some (PDict ekvs) ->
          (forall m,
              dict_lookup "message" ekvs = Some (PStr m) ->
              chat_reply w r = Ok (upstream_error_response (status_code r) m)) /\
          (dict_lookup "message" ekvs = None ->
           chat_reply w r
           = Ok (upstream_error_response (status_code r) "Unknown error"))) /\
      (forall s,
          dict_lookup "error" kvs = Some (PStr s) ->
          chat_reply w r = Raise (no_attribute (PStr s) "get"))).
Proof.
  intros Hc. unfold chat_reply.
  destruct (Z.eqb_spec (status_code r) 200) as [E|_]; [contradiction|]. cbn [negb].
  split.
  - intros Ht. rewrite Ht. reflexivity.
  - intros kvs Ht Hj.
    assert (Htt : truthy (PStr (text r)) = true).
    { cbn [truthy]. destruct (String.eqb_spec (text r) ""); [contradiction|reflexivity]. }
    rewrite Htt, Hj. cbn [result_bind py_get]. split; [|split].
    + intros He. rewrite He. reflexivity.
    + intros ekvs He. rewrite He. cbn [result_bind py_get]. split.
      * intros m Hm. rewrite Hm. reflexivity.
      * intros Hm. rewrite Hm. reflexivity.
    + intros s He. rewrite He. reflexivity.
Qed.

Lemma upstream_error_translation_witness :
  chat_reply cw_rate_limited
    {| status_code := 429; text := "{...}";
       resp_json := Ok (PDict [("error", PDict [("message", PStr "Rate limit exceeded")])]) |}
  = Ok (upstream_error_response 429 "Rate limit exceeded").
Proof.
  pose proof (upstream_error_translation cw_rate_limited
                {| status_code := 429; text := "{...}";
                   resp_json := Ok (PDict [("error",
                                            PDict [("message", PStr "Rate limit exceeded")])]) |}
                ltac:(discriminate)) as [_ H].
  destruct (H [("error", PDict [("message", PStr "Rate limit exceeded")])]
              ltac:(discriminate) eq_refl) as [_ [H2 _]].
  exact (proj1 (H2 _ eq_refl) "Rate limit exceeded" eq_refl).
Defined.

(** X21.  The health endpoint's [chatbot_configured] flag tells what
    [chat] does with a message that is not blank: when the flag is
    false, the canned ["not configured"] answer and no outside call; when
    it is true, exactly one call to the chat service, with a timeout of
    30 seconds. *)
Theorem health_tells_chat (cfg : Config) (g : Globals) :
  exists flag,
    dict_lookup "chatbot_configured" (health cfg g) = Some (PBool flag) /\
    forall (w : ChatWorld) (req : Request) (g' : Globals) (s : string),
      trimmed_message req = Ok (PStr s) -> s <> "" ->
      if flag
      then snd (chat cfg w req g') = [EvHttpPost OPENROUTER_API_URL 30]
      else chat cfg w req g' = (not_configured_response, g', []).
Proof.
  exists (negb (OPENROUTER_API_KEY cfg =? "")). split; [reflexivity|].
  intros w req g' s Ht Hs. rewrite chat_cases, Ht. cbn [truthy].
  rewrite negb_involutive.
  destruct (String.eqb_spec s "") as [E|_]; [contradiction|].
  destruct (OPENROUTER_API_KEY cfg =? ""); reflexivity.
Qed.

Lemma health_tells_chat_witness :
  chat cfg0 cw_timeout (req_message "hello") g_fresh
  = (not_configured_response, g_fresh, []).
Proof.
  destruct (health_tells_chat cfg0 g_fresh) as [flag [Hf H]].
  cbn in Hf. inversion Hf as [Hflag].
  specialize (H cw_timeout (req_message "hello") g_fresh "hello" eq_refl
                ltac:(discriminate)).
  rewrite <- Hflag in H. exact H.
Defined.

(* ================================================================= *)
(** ** The conversion script *)

Lemma py_endswith_refl (s : string) : py_endswith s s = true.
Proof. destruct s; cbn [py_endswith]; rewrite String.eqb_refl; reflexivity. Qed.

Lemma py_endswith_spec (s suffix : string) :
  py_endswith s suffix = true <-> exists p, s = p ++ suffix.
Proof.
  split.
  - induction s as [|c s IH]; cbn [py_endswith]; intros H.
    + rewrite orb_false_r in H. apply String.eqb_eq in H. exists "". exact H.
    + apply orb_true_iff in H. destruct H as [H|H].
      * apply String.eqb_eq in H. exists "". exact H.
      * destruct (IH H) as [p Hp]. exists (String c p). rewrite Hp. reflexivity.
  - intros [p Hp]. subst s. induction p as [|c p IH].
    + apply py_endswith_refl.
    + cbn [append py_endswith]. rewrite IH. apply orb_true_r.
Qed.

Lemma convert_main_cases (w : ConvertWorld) (script i o : string)
    (rest : list string) :
  convert_main w (script :: i :: o :: rest)
  = if negb (cv_path_exists w i) then (1%Z, [CevPathExists i])
    else
      match cv_import_tensorflow w with
      | Raise _ =>
          (1%Z, [CevPathExists i; CevSetEnv "TF_USE_LEGACY_KERAS" "1";
                 CevImportTensorflow])
      | Ok _ =>
          match cv_load_model w i with
          | Raise _ =>
              (1%Z, [CevPathExists i; CevSetEnv "TF_USE_LEGACY_KERAS" "1";
                     CevImportTensorflow; CevLoad i])
          | Ok m =>
              match cv_model_shapes w m with
              | Raise _ =>
                  (1%Z, [CevPathExists i; CevSetEnv "TF_USE_LEGACY_KERAS" "1";
                         CevImportTensorflow; CevLoad i])
              | Ok _ =>
                  (match cv_save w m o (save_format_of o) with
                   | Ok _ => 0%Z
                   | Raise _ => 1%Z
                   end,
                   [CevPathExists i; CevSetEnv "TF_USE_LEGACY_KERAS" "1";
                    CevImportTensorflow; CevLoad i;
                    CevSave m o (save_format_of o)])
              end
          end
      end.
Proof.
  unfold convert_main, convert_model, save_format_of.
  destruct (negb (cv_path_exists w i)); [reflexivity|].
  destruct (cv_import_tensorflow w); [|reflexivity].
  destruct (cv_load_model w i) as [m|e]; [|reflexivity].
  destruct (cv_model_shapes w m); [|reflexivity].
  destruct (cv_save w m o (if py_endswith o ".keras" then None else Some "h5"));
    reflexivity.
Qed.

(** X22.  The script ends with status 0 exactly when it was given an
    input and an output path, the input exists, and the import of
    tensorflow, the load, the reading of the model's shapes for the log
    and the save all succeed; in every other case it ends with status 1.
    On success the calls made are, in this order: the existence check of
    the input, the setting of [TF_USE_LEGACY_KERAS], the import, the load
    of the input and one save to the output. *)
Theorem convert_main_exit_status (w : ConvertWorld) (argv : list string) :
  (fst (convert_main w argv) = 0%Z \/ fst (convert_main w argv) = 1%Z) /\
  (fst (convert_main w argv) = 0%Z <->
   exists script i o rest u1 m u2 u3,
     argv = script :: i :: o :: rest /\
     cv_path_exists w i = true /\
     cv_import_tensorflow w = Ok u1 /\
     cv_load_model w i = Ok m /\
     cv_model_shapes w m = Ok u2 /\
     cv_save w m o (save_format_of o) = Ok u3 /\
     snd (convert_main w argv)
     = [ CevPathExists i; CevSetEnv "TF_USE_LEGACY_KERAS" "1"; CevImportTensorflow;
         CevLoad i; CevSave m o (save_format_of o) ]).
Proof.
  destruct argv as [|script [|i [|o rest]]].
  1-3: split; [right; reflexivity|];
    split; [intros H; discriminate H|];
    intros [s [i' [o' [r [u1 [m [u2 [u3 [H _]]]]]]]]]; discriminate H.
  rewrite convert_main_cases.
  destruct (cv_path_exists w i) eqn:Hx; cbn [negb].
  2:{ split; [right; reflexivity|]. split; [intros H; discriminate H|].
      intros [s [i' [o' [r [u1 [m [u2 [u3 [H [Hx' _]]]]]]]]]].
      inversion H; subst. congruence. }
  destruct (cv_import_tensorflow w) as [u1|e1] eqn:Hi.
  2:{ split; [right; reflexivity|]. split; [intros H; discriminate H|].
      intros [s [i' [o' [r [u1 [m [u2 [u3 [_ [_ [H _]]]]]]]]]]]. discriminate H. }
  destruct (cv_load_model w i) as [m|e2] eqn:Hl.
  2:{ split; [right; reflexivity|]. split; [intros H; discriminate H|].
      intros [s [i' [o' [r [u1' [m [u2 [u3 [H [_ [_ [H' _]]]]]]]]]]]].
      inversion H; subst. congruence. }
  destruct (cv_model_shapes w m) as [u2|e4] eqn:Hsh.
  2:{ split; [right; reflexivity|]. split; [intros H; discriminate H|].
      intros [s [i' [o' [r [u1' [m' [u2 [u3 [H [_ [_ [Hl' [Hsh' _]]]]]]]]]]]]].
      inversion H; subst. rewrite Hl in Hl'. inversion Hl'; subst. congruence. }
  destruct (cv_save w m o (save_format_of o)) as [u3|e3] eqn:Hs; cbn [fst snd].
  - split; [left; reflexivity|]. split; [|intros _; reflexivity].
    intros _. exists script, i, o, rest, u1, m, u2, u3. repeat split; assumption.
  - split; [right; reflexivity|]. split; [intros H; discriminate H|].
    intros [s [i' [o' [r [u1' [m' [u2' [u3 [H [_ [_ [Hl' [_ [Hs' _]]]]]]]]]]]]]].
    inversion H; subst. rewrite Hl in Hl'. inversion Hl'; subst. congruence.
Qed.

Lemma convert_main_exit_status_witness :
  fst (convert_main cvw_ok ["convert_model.py"; "model.h5"; "model_converted.keras"])
  = 0%Z.
Proof.
  apply (proj2 (proj2 (convert_main_exit_status cvw_ok
                         ["convert_model.py"; "model.h5"; "model_converted.keras"]))).
  exists "convert_model.py", "model.h5", "model_converted.keras", [], tt, m_softmax,
    tt, tt.
  repeat split.
Defined.

(** X23.  What the script never does: it checks the existence of no path
    but the input (an existing output is overwritten unasked); it imports
    tensorflow only when arguments were given and the input exists; and
    it saves only the model it loaded from the input, only to the output
    path, in the format the output's suffix selects. *)
Theorem convert_main_restraint (w : ConvertWorld) (argv : list string) :
  (forall p, In (CevPathExists p) (snd (convert_main w argv)) ->
             nth_error argv 1 = Some p) /\
  (In CevImportTensorflow (snd (convert_main w argv)) ->
   exists i, nth_error argv 1 = Some i /\ cv_path_exists w i = true) /\
  (forall m p f,
      In (CevSave m p f) (snd (convert_main w argv)) ->
      nth_error argv 2 = Some p /\
      f = save_format_of p /\
      exists i, nth_error argv 1 = Some i /\ cv_load_model w i = Ok m).
Proof.
  destruct argv as [|script [|i [|o rest]]].
  1-3: split; [|split]; simpl; intros; contradiction.
  rewrite convert_main_cases. cbn [nth_error].
  destruct (cv_path_exists w i) eqn:Hx; cbn [negb].
  2:{ split; [|split]; simpl.
      - intros p [H|[]]. inversion H. reflexivity.
      - intros [H|[]]. discriminate H.
      - intros m p f [H|[]]. discriminate H. }
  destruct (cv_import_tensorflow w) as [u1|e1].
  2:{ split; [|split]; simpl.
      - intros p [H|[H|[H|[]]]]; inversion H. reflexivity.
      - intros _. eauto.
      - intros m p f [H|[H|[H|[]]]]; discriminate H. }
  destruct (cv_load_model w i) as [m0|e2] eqn:Hl.
  2:{ split; [|split]; simpl.
      - intros p [H|[H|[H|[H|[]]]]]; inversion H. reflexivity.
      - intros _. eauto.
      - intros m p f [H|[H|[H|[H|[]]]]]; discriminate H. }
  destruct (cv_model_shapes w m0) as [u2|e4].
  2:{ split; [|split]; simpl.
      - intros p [H|[H|[H|[H|[]]]]]; inversion H. reflexivity.
      - intros _. eauto.
      - intros m p f [H|[H|[H|[H|[]]]]]; discriminate H. }
  split; [|split]; cbn [snd].
  - intros p [H|[H|[H|[H|[H|[]]]]]]; inversion H. reflexivity.
  - intros _. eauto.
  - intros m p f [H|[H|[H|[H|[H|[]]]]]]; inversion H; subst.
    split; [reflexivity|]. split; [reflexivity|]. eauto.
Qed.

Lemma convert_main_restraint_witness :
  nth_error ["convert_model.py"; "model.h5"; "model_converted.keras"] 2
  = Some "model_converted.keras" /\
  None = save_format_of "model_converted.keras".
Proof.
  destruct (proj2 (proj2 (convert_main_restraint cvw_ok
                            ["convert_model.py"; "model.h5"; "model_converted.keras"]))
              m_softmax "model_converted.keras" None) as [H1 [H2 _]].
  - simpl. right. right. right. right. left. reflexivity.
  - split; [exact H1|exact H2].
Defined.

(** X24.  The format of the save follows the suffix of the output path,
    letter case included: the native format exactly when the path ends in
    [.keras], HDF5 for every other path; and once the model is loaded and
    its shapes are read, [convert_model] makes exactly one save, to the
    output path, in that format. *)
Theorem save_format_by_suffix (w : ConvertWorld) (input_path output_path : string)
    (u u' : unit) (m : Model) :
  cv_import_tensorflow w = Ok u ->
  cv_load_model w input_path = Ok m ->
  cv_model_shapes w m = Ok u' ->
  snd (convert_model w input_path output_path)
  = [ CevSetEnv "TF_USE_LEGACY_KERAS" "1"; CevImportTensorflow; CevLoad input_path;
      CevSave m output_path (save_format_of output_path) ] /\
  (save_format_of output_path = None <-> exists p, output_path = p ++ ".keras") /\
  (save_format_of output_path = Some "h5" <-> ~ exists p, output_path = p ++ ".keras").
Proof.
  intros Hi Hl Hsh. split; [|split].
  - unfold convert_model, save_format_of. rewrite Hi, Hl, Hsh.
    destruct (cv_save w m output_path
                (if py_endswith output_path ".keras" then None else Some "h5"));
      reflexivity.
  - unfold save_format_of. rewrite <- py_endswith_spec.
    destruct (py_endswith output_path ".keras"); split; intros H;
      try reflexivity; discriminate H.
  - unfold save_format_of. rewrite <- py_endswith_spec.
    destruct (py_endswith output_path ".keras"); split; intros H;
      try reflexivity; try discriminate H.
    + exfalso. apply H. reflexivity.
    + intros H'. discriminate H'.
Qed.

Lemma save_format_by_suffix_witness :
  save_format_of "model.KERAS" = Some "h5" /\
  (exists p, "out/model_converted.keras" = p ++ ".keras").
Proof.
  pose proof (save_format_by_suffix cvw_ok "model.h5" "model.KERAS" tt tt m_softmax
                eq_refl eq_refl eq_refl) as [_ [_ H]].
  pose proof (save_format_by_suffix cvw_ok "model.h5" "out/model_converted.keras"
                tt tt m_softmax eq_refl eq_refl eq_refl) as [_ [H' _]].
  split.
  - apply (proj2 H). intros [p Hp].
    assert (E : py_endswith "model.KERAS" ".keras" = true)
      by (apply py_endswith_spec; exists p; exact Hp).
    discriminate E.
  - apply (proj1 H'). reflexivity.
Defined.

(* ================================================================= *)
(** ** Inference handler: status codes and the demo flag *)

Lemma extract_image_early_status (dec : string -> result (list byte))
    (req : Request) (r : Response) :
  extract_image dec req = Ok (inl r) -> status r = 400%Z.
Proof.
  unfold extract_image. intros H.
  destruct (files req) as [fs|e]; cbn [result_bind] in H; [|discriminate H].
  destruct (files_lookup "image" fs) as [f|].
  - destruct (filename f =? "").
    + inversion H. reflexivity.
    + destruct (file_read f); cbn [result_bind] in H; discriminate H.
  - destruct (get_json req) as [data|e]; cbn [result_bind] in H; [|discriminate H].
    destruct (if truthy data then py_in "image" data else Ok false) as [[]|e];
      cbn [result_bind] in H; [|inversion H; reflexivity|discriminate H].
    split_binds H; discriminate H.
Qed.

(** X25.  [predict] answers with status 200, 400 or 500 and nothing
    else; an answer with status 200 carries [success] true, and it
    carries the [demo_mode] flag (set to true) exactly when the process is
    in demo mode: a prediction of the real model is never flagged as
    simulated, and a simulated one always is. *)
Theorem predict_status_and_demo_flag (cfg : Config) (w : PredictWorld)
    (req : Request) (g : Globals) :
  let resp := fst (fst (predict cfg w req g)) in
  (status resp = 200%Z \/ status resp = 400%Z \/ status resp = 500%Z) /\
  (status resp = 200%Z ->
   dict_lookup "success" (body resp) = Some (PBool true) /\
   dict_lookup "demo_mode" (body resp)
   = if DEMO_MODE g then Some (PBool true) else None).
Proof.
  cbv zeta.
  destruct (extract_image (pw_b64decode w) req) as [[r|b]|e] eqn:He.
  - rewrite (predict_of_body _ _ _ _ _ _ _ (predict_body_early cfg w req g r He)).
    cbn [fst]. rewrite (extract_image_early_status _ _ _ He).
    split; [auto|]. intros H. discriminate H.
  - destruct (DEMO_MODE g) eqn:Hd.
    + pose proof (predict_body_demo cfg w req g b He Hd) as H.
      destruct (demo_predict (pw_rng w)) as [result|e] eqn:Hr;
        rewrite (predict_of_body _ _ _ _ _ _ _ H); cbn [fst].
      * split; [left; reflexivity|]. intros _. split; reflexivity.
      * split; [right; right; reflexivity|]. intros H'. discriminate H'.
    + destruct (load_model cfg (pw_loader w) g) as [[rl g1] t1] eqn:Hl.
      pose proof (predict_body_real cfg w req g g1 b rl t1 He Hd Hl) as H.
      cbv beta iota in H.
      assert (Herr : forall e : exn,
                 (status (error_500 e) = 200%Z \/ status (error_500 e) = 400%Z \/
                  status (error_500 e) = 500%Z) /\
                 (status (error_500 e) = 200%Z ->
                  dict_lookup "success" (body (error_500 e)) = Some (PBool true) /\
                  dict_lookup "demo_mode" (body (error_500 e)) = None)).
      { intros e. split; [right; right; reflexivity|]. intros H'. discriminate H'. }
      destruct rl as [lm|e];
        [|rewrite (predict_of_body _ _ _ _ _ _ _ H); cbn [fst]; apply Herr].
      destruct (preprocess_image (pw_pil w) b) as [x|e];
        [|rewrite (predict_of_body _ _ _ _ _ _ _ H); cbn [fst]; apply Herr].
      destruct lm as [m|];
        [|rewrite (predict_of_body _ _ _ _ _ _ _ H); cbn [fst]; apply Herr].
      destruct (model_predict m x) as [preds|e];
        [|rewrite (predict_of_body _ _ _ _ _ _ _ H); cbn [fst]; apply Herr].
      destruct (classification_response preds) as [resp|e] eqn:Hc;
        rewrite (predict_of_body _ _ _ _ _ _ _ H); cbn [fst]; [|apply Herr].
      destruct (classification_response_inv preds resp Hc)
        as [row [rest [i [label [p [_ [_ [_ [_ Hresp]]]]]]]]].
      subst resp. split; [left; reflexivity|]. intros _. split; reflexivity.
  - rewrite (predict_of_body _ _ _ _ _ _ _ (predict_body_extract_raise cfg w req g e He)).
    cbn [fst]. split; [right; right; reflexivity|]. intros H. discriminate H.
Qed.

Lemma predict_status_and_demo_flag_witness :
  dict_lookup "demo_mode"
    (body (fst (fst (predict cfg0 pw0 (json_image_request "TWFu") g_demo))))
  = Some (PBool true).
Proof.
  pose proof (predict_status_and_demo_flag cfg0 pw0 (json_image_request "TWFu")
                g_demo) as H.
  cbv zeta in H. exact (proj2 (proj2 H eq_refl)).
Defined.
